(** * Sacsa-Sentinel: the integration and normalization layer

  A shallow embedding of [api-clients.ts] (both revisions kept in the
  repository: [src/unnamed/part_000] and [src/unnamed/part_001]) and of
  [server-actions.ts] ([src/unnamed/part_002]), with the properties of the
  specification proved about it.

  Layout:
  - [Str]      string operations the clients use ([startsWith], [split], ...)
  - [Num]      the integer-valued doubles: rounding, addition, printing
  - [Js]       the loosely typed values of a parsed payload, the JavaScript
               operations applied to them, and exceptions
  - [Eff]      [fetch] as an oracle, [try]/[catch], and the log of calls
  - [Regex]    the backtracking matcher for the hunk-header pattern
  - the data model, the helper functions, the mocks, the four clients and
    the rollback server action, under the names the source gives them
  - the properties, stated once, and their proofs.

  What the model leaves out: console output (nothing reads it), numbers
  with a fractional part (see [Num]), and characters outside ASCII in
  [toLowerCase]. *)

From Stdlib Require Import String Ascii List ZArith Lia Bool Arith.
From Stdlib Require Import Numbers.DecimalString Numbers.DecimalPos.
Import ListNotations.
Open Scope string_scope.

Set Warnings "-register-all".

(* ===================================================================== *)
(** * Strings *)
(* ===================================================================== *)

Module Str.

(** [s.startsWith(p)] *)
Definition startsWith (s p : string) : bool := String.prefix p s.

(** [s.substring(1)] *)
Definition substring1 (s : string) : string :=
  match s with
  | EmptyString => EmptyString
  | String _ rest => rest
  end.

(** The line feed of ["\n"]. *)
Definition LF : ascii := Ascii.ascii_of_nat 10.

(** [s.split(c)] for a one-character separator: never empty, and the
    empty string gives one empty piece. *)
Fixpoint split (c : ascii) (s : string) : list string :=
  match s with
  | EmptyString => [EmptyString]
  | String a rest =>
      if Ascii.eqb a c then EmptyString :: split c rest
      else match split c rest with
           | [] => [String a EmptyString]
           | piece :: pieces => String a piece :: pieces
           end
  end.

(** [hay.includes(needle)] *)
Fixpoint includes (hay needle : string) : bool :=
  String.prefix needle hay ||
  match hay with
  | EmptyString => false
  | String _ rest => includes rest needle
  end.

Definition lower_ascii (a : ascii) : ascii :=
  let n := Ascii.nat_of_ascii a in
  if (65 <=? n)%nat && (n <=? 90)%nat then Ascii.ascii_of_nat (n + 32) else a.

(** [s.toLowerCase()] on the ASCII range. *)
Fixpoint toLowerCase (s : string) : string :=
  match s with
  | EmptyString => EmptyString
  | String a rest => String (lower_ascii a) (toLowerCase rest)
  end.

(** [pieces.join(sep)] on strings. *)
Definition join (sep : string) (pieces : list string) : string :=
  String.concat sep pieces.

Definition is_digit (a : ascii) : bool :=
  let n := Ascii.nat_of_ascii a in (48 <=? n)%nat && (n <=? 57)%nat.

Definition digit_value (a : ascii) : Z := Z.of_nat (Ascii.nat_of_ascii a - 48).

(** The integer a string of decimal digits writes. *)
Definition parseDigits (s : string) : Z :=
  fold_left (fun acc a => (10 * acc + digit_value a)%Z) (list_ascii_of_string s) 0%Z.

(** The decimal digits of an integer. *)
Definition decimal (z : Z) : string := NilZero.string_of_int (Z.to_int z).

(** [xs.slice(-n)]: the last [n] elements. *)
Definition lastn {A} (n : nat) (xs : list A) : list A :=
  skipn (List.length xs - n) xs.

(** [xs.slice(0, e)] with JavaScript's relative end index. *)
Definition slice0 {A} (e : Z) (xs : list A) : list A :=
  if (e <? 0)%Z
  then firstn (Z.to_nat (Z.max 0 (Z.of_nat (List.length xs) + e))) xs
  else firstn (Z.to_nat e) xs.

End Str.

(* ===================================================================== *)
(** * Numbers *)
(* ===================================================================== *)

Module Num.

(** A JavaScript number is an IEEE 754 double.  The numbers of this layer
    are counts, limits and line numbers, so the embedding keeps the doubles
    that are integers, and the two infinities that arithmetic on them
    reaches.  Every result of arithmetic goes through [of_Z], the rounding
    of the exact result to the nearest double. *)
Inductive t : Type :=
| Fin (n : Z)
| Infinity (negative : bool).

(** Round to nearest, ties to even, at 53 significant bits and with no
    bound on the exponent. *)
Definition round53 (z : Z) : Z :=
  let a := Z.abs z in
  let excess := (Z.log2 a + 1 - 53)%Z in
  if (excess <=? 0)%Z then z
  else
    let unit := (2 ^ excess)%Z in
    let q := (a / unit)%Z in
    let r := (a mod unit)%Z in
    let q' :=
      if (2 * r <? unit)%Z then q
      else if (unit <? 2 * r)%Z then (q + 1)%Z
      else if Z.even q then q else (q + 1)%Z in
    (Z.sgn z * (q' * unit))%Z.

(** The double nearest to an integer: what rounds to 2^1024 or beyond
    overflows. *)
Definition of_Z (z : Z) : t :=
  let r := round53 z in
  if (2 ^ 1024 <=? Z.abs r)%Z then Infinity (z <? 0)%Z else Fin r.

(** [Number.MAX_SAFE_INTEGER + 1]: up to here every integer is a double. *)
Definition exact_bound : Z := (2 ^ 53)%Z.

(** [a + b]; [None] is [NaN], the sum of the two infinities. *)
Definition add (a b : t) : option t :=
  match a, b with
  | Fin x, Fin y => Some (of_Z (x + y))
  | Fin _, Infinity s | Infinity s, Fin _ => Some (Infinity s)
  | Infinity s, Infinity s' => if Bool.eqb s s' then Some (Infinity s) else None
  end.

(** The value [n++] leaves in [n]. *)
Definition succ (n : t) : t :=
  match n with
  | Fin x => of_Z (x + 1)
  | Infinity s => Infinity s
  end.

(** [parseInt(s)] for a string of decimal digits: the double nearest to
    the integer written (the conversion V8 makes; the standard lets an
    engine approximate beyond the 20th digit). *)
Definition parseInt (s : string) : t := of_Z (Str.parseDigits s).

(** ** Printing, as [String(n)] and a template literal do it *)

Definition width (v : Z) : Z := Z.of_nat (String.length (Str.decimal v)).

(** The shortest decimal that reads back as [v]: [s] of [k] digits with
    [s * 10 ^ (width v - k)] rounding to [v], for the least [k]; of two
    candidates the nearer to [v], of two equally near the even one. *)
Fixpoint shortest (fuel : nat) (k : Z) (v : Z) : Z :=
  match fuel with
  | O => v
  | S fuel' =>
      let unit := (10 ^ (width v - k))%Z in
      let lo := (v / unit * unit)%Z in
      let hi := (lo + unit)%Z in
      let fits x := (round53 x =? v)%Z in
      if fits lo && fits hi then
        if (v - lo <? hi - v)%Z then lo
        else if (hi - v <? v - lo)%Z then hi
        else if Z.even (v / unit) then lo else hi
      else if fits lo then lo
      else if fits hi then hi
      else shortest fuel' (k + 1)%Z v
  end.

Fixpoint strip_zeros (text : string) : string :=
  match text with
  | EmptyString => EmptyString
  | String a rest =>
      match strip_zeros rest with
      | EmptyString => if Ascii.eqb a "0" then EmptyString else String a EmptyString
      | kept => String a kept
      end
  end.

(** [d.ddde+n] *)
Definition exponent_form (value : Z) : string :=
  let text := Str.decimal value in
  match strip_zeros text with
  | EmptyString => "0"
  | String d EmptyString =>
      String d EmptyString ++ "e+" ++ Str.decimal (width value - 1)
  | String d rest =>
      String d ("." ++ rest) ++ "e+" ++ Str.decimal (width value - 1)
  end.

Definition print_positive (v : Z) : string :=
  let value := shortest (Z.to_nat (width v)) 1 v in
  if (value <? 10 ^ 21)%Z then Str.decimal value else exponent_form value.

Definition print (n : t) : string :=
  match n with
  | Fin 0%Z => "0"
  | Fin (Z.pos p) => print_positive (Z.pos p)
  | Fin (Z.neg p) => "-" ++ print_positive (Z.pos p)
  | Infinity false => "Infinity"
  | Infinity true => "-Infinity"
  end.

End Num.

(* ===================================================================== *)
(** * JavaScript values *)
(* ===================================================================== *)

Module Js.

(** A parsed JSON payload is a tree of these; [JUndefined], [JNaN] and
    [JBuiltin] never come out of [JSON.parse] but arise from reading a
    missing property, from arithmetic, and from reading a method that a
    prototype supplies.  [JNum n] is the double of value [n], for the
    numbers that are integers (counts, line and column numbers), and
    [JInfinity] the two infinities, which a numeral too large for a double
    parses to; an object is its list of own properties, looked up by key,
    none of them callable: the payload is data. *)
Inductive JS : Type :=
| JUndefined
| JNull
| JBool (b : bool)
| JNum (n : Z)
| JNaN
| JStr (s : string)
| JArr (items : list JS)
| JObj (props : list (string * JS))
| JBuiltin (name : string)
| JInfinity (negative : bool).

(** Truthiness, as [if (v)], [!v] and [v || d] test it. *)
Definition truthy (v : JS) : bool :=
  match v with
  | JUndefined | JNull | JNaN => false
  | JBool b => b
  | JNum n => negb (n =? 0)%Z
  | JStr s => negb (String.eqb s "")
  | JArr _ | JObj _ | JBuiltin _ | JInfinity _ => true
  end.

(** [a || b] *)
Definition or_else (a b : JS) : JS := if truthy a then a else b.

Definition nullish (v : JS) : bool :=
  match v with
  | JUndefined | JNull => true
  | _ => false
  end.

(** [v === "lit"] *)
Definition is_string (v : JS) (lit : string) : bool :=
  match v with
  | JStr s => String.eqb s lit
  | _ => false
  end.

(** The text [String(v)] gives when the conversion succeeds (see
    [template]): an array prints its elements, [null] and [undefined]
    among them as the empty text, and an object prints as
    [[object Object]]. *)
Fixpoint toString (v : JS) : string :=
  match v with
  | JUndefined => "undefined"
  | JNull => "null"
  | JBool true => "true"
  | JBool false => "false"
  | JNum n => Num.print (Num.Fin n)
  | JNaN => "NaN"
  | JStr s => s
  | JArr items =>
      Str.join ","
        (map (fun x => if nullish x then "" else toString x) items)
  | JObj _ => "[object Object]"
  | JBuiltin name => "function " ++ name ++ "() { [native code] }"
  | JInfinity negative => Num.print (Num.Infinity negative)
  end.

(** [ToNumber] of a value that is no string, array, object or function;
    [None] is [NaN]. *)
Definition toNumber (v : JS) : option Num.t :=
  match v with
  | JNull => Some (Num.Fin 0)
  | JBool true => Some (Num.Fin 1)
  | JBool false => Some (Num.Fin 0)
  | JNum n => Some (Num.Fin n)
  | JInfinity negative => Some (Num.Infinity negative)
  | _ => None
  end.

Definition ofNumber (n : option Num.t) : JS :=
  match n with
  | Some (Num.Fin z) => JNum z
  | Some (Num.Infinity negative) => JInfinity negative
  | None => JNaN
  end.

(** The values [+] treats as text: those whose primitive is a string. *)
Definition stringy (v : JS) : bool :=
  match v with
  | JStr _ | JArr _ | JObj _ | JBuiltin _ => true
  | _ => false
  end.

(** Own-property lookup. *)
Fixpoint lookup (k : string) (props : list (string * JS)) : option JS :=
  match props with
  | [] => None
  | (k', v) :: rest => if String.eqb k k' then Some v else lookup k rest
  end.

(** Whether [String(v)] succeeds.  An object of the payload whose own
    properties include [toString] has no callable [toString] left (the
    own one is data and hides [Object.prototype.toString]) and its
    [valueOf], own or inherited, gives no primitive: the conversion is a
    [TypeError].  An array converts its elements. *)
Fixpoint printable (v : JS) : bool :=
  match v with
  | JObj props =>
      match lookup "toString" props with
      | Some _ => false
      | None => true
      end
  | JArr items => forallb (fun x => nullish x || printable x) items
  | _ => true
  end.

(** Members every object inherits, and those of arrays and strings. *)
Definition object_proto : list string :=
  ["constructor"; "__proto__"; "hasOwnProperty"; "isPrototypeOf";
   "propertyIsEnumerable"; "toLocaleString"; "toString"; "valueOf";
   "__defineGetter__"; "__defineSetter__"; "__lookupGetter__";
   "__lookupSetter__"].

Definition array_proto : list string :=
  ["at"; "concat"; "copyWithin"; "entries"; "every"; "fill"; "filter";
   "find"; "findIndex"; "findLast"; "findLastIndex"; "flat"; "flatMap";
   "forEach"; "includes"; "indexOf"; "join"; "keys"; "lastIndexOf"; "map";
   "pop"; "push"; "reduce"; "reduceRight"; "reverse"; "shift"; "slice";
   "some"; "sort"; "splice"; "toReversed"; "toSorted"; "toSpliced";
   "unshift"; "values"; "with"].

Definition string_proto : list string :=
  ["at"; "charAt"; "charCodeAt"; "codePointAt"; "concat"; "endsWith";
   "includes"; "indexOf"; "isWellFormed"; "lastIndexOf"; "localeCompare";
   "match"; "matchAll"; "normalize"; "padEnd"; "padStart"; "repeat";
   "replace"; "replaceAll"; "search"; "slice"; "split"; "startsWith";
   "substr"; "substring"; "toLocaleLowerCase"; "toLocaleUpperCase";
   "toLowerCase"; "toUpperCase"; "toWellFormed"; "trim"; "trimEnd";
   "trimLeft"; "trimRight"; "trimStart"; "anchor"; "big"; "blink"; "bold";
   "fixed"; "fontcolor"; "fontsize"; "italics"; "link"; "small"; "strike";
   "sub"; "sup"].

Definition number_proto : list string :=
  ["toExponential"; "toFixed"; "toPrecision"].

Definition function_proto : list string := ["apply"; "bind"; "call"].

Definition mem (k : string) (ks : list string) : bool :=
  existsb (String.eqb k) ks.

Definition inherited (own : list string) (k : string) : JS :=
  if mem k own || mem k object_proto then JBuiltin k else JUndefined.

(** A canonical array index: decimal digits with no leading zero. *)
Definition index_of_key (k : string) : option nat :=
  match k with
  | EmptyString => None
  | String a rest =>
      if forallb Str.is_digit (list_ascii_of_string k)
         && (negb (Ascii.eqb a "0") || String.eqb rest "")
      then Some (Z.to_nat (Str.parseDigits k))
      else None
  end.

Definition string_at (s : string) (i : nat) : JS :=
  match String.get i s with
  | Some a => JStr (String a EmptyString)
  | None => JUndefined
  end.

(** ** Exceptions *)

(** What a [throw] carries: an [Error] object (of any subclass; only its
    [message] is ever read), or some other value, for which
    [error instanceof Error] is false. *)
Inductive Exn : Type :=
| JsError (name message : string)
| Thrown (v : JS).

Inductive Outcome (A : Type) : Type :=
| Ok (a : A)
| Throw (e : Exn).

Arguments Ok {A} a.
Arguments Throw {A} e.

Definition obind {A B} (c : Outcome A) (k : A -> Outcome B) : Outcome B :=
  match c with
  | Ok a => k a
  | Throw e => Throw e
  end.

Notation "'let!' x ':=' c 'in' k" := (obind c (fun x => k))
  (at level 10, x name, c at level 100, k at level 200).

Definition TypeError {A} (message : string) : Outcome A :=
  Throw (JsError "TypeError" message).

(** [`${v}`] and [String(v)]: the conversion of a substitution of a
    template literal. *)
Definition template (v : JS) : Outcome string :=
  if printable v then Ok (toString v)
  else TypeError "Cannot convert object to primitive value".

(** [a + b]: both operands are made primitive, left first; concatenation
    as soon as one of them is a string, addition of doubles otherwise. *)
Definition add (a b : JS) : Outcome JS :=
  if stringy a || stringy b then
    let! x := template a in
    let! y := template b in
    Ok (JStr (x ++ y))
  else
    Ok match toNumber a, toNumber b with
       | Some x, Some y => ofNumber (Num.add x y)
       | _, _ => JNaN
       end.

(** [xs.reduce(f, init)] for a callback that may throw. *)
Fixpoint reduceM {A B} (f : B -> A -> Outcome B) (xs : list A) (init : B)
  : Outcome B :=
  match xs with
  | [] => Ok init
  | x :: rest =>
      let! next := f init x in
      reduceM f rest next
  end.

(** [error instanceof Error ? error.message : "Unknown error"] *)
Definition message_of (e : Exn) : string :=
  match e with
  | JsError _ message => message
  | Thrown _ => "Unknown error"
  end.

(** ** Property access *)

(** [v.k] and [v[k]]: a [TypeError] on [undefined] and [null]; own
    properties first, then what the prototype of the value supplies. *)
Definition get (v : JS) (k : string) : Outcome JS :=
  match v with
  | JUndefined =>
      TypeError ("Cannot read properties of undefined (reading '" ++ k ++ "')")
  | JNull =>
      TypeError ("Cannot read properties of null (reading '" ++ k ++ "')")
  | JObj props =>
      Ok match lookup k props with
         | Some x => x
         | None => inherited [] k
         end
  | JArr items =>
      Ok (if String.eqb k "length" then JNum (Z.of_nat (List.length items))
          else match index_of_key k with
               | Some i => nth i items JUndefined
               | None => inherited array_proto k
               end)
  | JStr s =>
      Ok (if String.eqb k "length" then JNum (Z.of_nat (String.length s))
          else match index_of_key k with
               | Some i => string_at s i
               | None => inherited string_proto k
               end)
  | JNum _ | JNaN | JInfinity _ => Ok (inherited number_proto k)
  | JBool _ => Ok (inherited [] k)
  | JBuiltin _ => Ok (inherited function_proto k)
  end.

(** [v?.k] *)
Definition get_opt (v : JS) (k : string) : Outcome JS :=
  if nullish v then Ok JUndefined else get v k.

(** [find], [map] and [join] exist on arrays only, [split] on strings only:
    calling them on any other payload value is a [TypeError], whether the
    property is missing or is data. *)
Definition not_a_function {A} (method : string) : Outcome A :=
  TypeError (method ++ " is not a function").

(** [xs.map(f)] for a callback that may throw. *)
Fixpoint mapM {A B} (f : A -> Outcome B) (xs : list A) : Outcome (list B) :=
  match xs with
  | [] => Ok []
  | x :: rest =>
      let! y := f x in
      let! ys := mapM f rest in
      Ok (y :: ys)
  end.

(** [xs.find(p)] for a predicate that may throw. *)
Fixpoint findM {A} (p : A -> Outcome bool) (xs : list A) : Outcome (option A) :=
  match xs with
  | [] => Ok None
  | x :: rest =>
      let! b := p x in
      if b then Ok (Some x) else findM p rest
  end.

Definition call_find (v : JS) (p : JS -> Outcome bool) : Outcome JS :=
  match v with
  | JArr items =>
      let! r := findM p items in
      Ok match r with
         | Some x => x
         | None => JUndefined
         end
  | _ => not_a_function "find"
  end.

Definition call_map {B} (v : JS) (f : JS -> Outcome B) : Outcome (list B) :=
  match v with
  | JArr items => mapM f items
  | _ => not_a_function "map"
  end.

Definition call_split (v : JS) (sep : ascii) : Outcome (list string) :=
  match v with
  | JStr s => Ok (Str.split sep s)
  | _ => not_a_function "split"
  end.

End Js.

(* ===================================================================== *)
(** * Effects: the network and the log of calls *)
(* ===================================================================== *)

Module Eff.
Import Js.

Record Request : Type := mkRequest {
  req_method : string;
  req_url : string;
  req_headers : list (string * string)
}.

(** What [await fetch(...)] resolves to.  [json] is what
    [await response.json()] gives: the parsed body, or the exception of a
    body that does not parse. *)
Record Response : Type := mkResponse {
  ok : bool;
  status : Z;
  statusText : string;
  json : Outcome JS
}.

(** The services, from outside: an answer (or a thrown failure) for every
    request, which may depend on the requests made before it. *)
Definition World : Type := list Request -> Request -> Outcome Response.

(** A computation reads the world and extends the log of requests made. *)
Definition IO (A : Type) : Type :=
  World -> list Request -> Outcome A * list Request.

Definition ret {A} (a : A) : IO A := fun _ log => (Ok a, log).

Definition throw {A} (e : Exn) : IO A := fun _ log => (Throw e, log).

Definition bind {A B} (c : IO A) (k : A -> IO B) : IO B :=
  fun w log =>
    match c w log with
    | (Ok a, log') => k a w log'
    | (Throw e, log') => (Throw e, log')
    end.

Definition lift {A} (o : Outcome A) : IO A := fun _ log => (o, log).

(** [try { body } catch (error) { handler }] *)
Definition try_catch {A} (body : IO A) (handler : Exn -> IO A) : IO A :=
  fun w log =>
    match body w log with
    | (Ok a, log') => (Ok a, log')
    | (Throw e, log') => handler e w log'
    end.

(** [await fetch(url, init)] *)
Definition fetch (r : Request) : IO Response :=
  fun w log => (w log r, (log ++ [r])%list).

(** [throw new Error(message)] *)
Definition throw_error {A} (message : string) : IO A :=
  throw (JsError "Error" message).

Notation "x <- c ;; k" := (bind c (fun x => k))
  (at level 61, c at next level, right associativity).

(** The result of a run and the requests it made, from an empty log. *)
Definition result_of {A} (c : IO A) (w : World) : Outcome A := fst (c w []).
Definition calls_of {A} (c : IO A) (w : World) : list Request := snd (c w []).

End Eff.

(* ===================================================================== *)
(** * The hunk-header pattern *)
(* ===================================================================== *)

Module Regex.

(** The pieces [/@@ -(\d+),?\d* \+(\d+),?\d* @@/] is made of. *)
Inductive piece : Type :=
| Lit (c : ascii)
| OptLit (c : ascii)
| Digits (least : nat) (capture : bool).

Fixpoint digit_run (s : string) : nat :=
  match s with
  | EmptyString => 0
  | String a rest => if Str.is_digit a then S (digit_run rest) else 0
  end.

Fixpoint drop (n : nat) (s : string) : string :=
  match n, s with
  | S m, String _ rest => drop m rest
  | _, _ => s
  end.

Fixpoint take (n : nat) (s : string) : string :=
  match n, s with
  | S m, String a rest => String a (take m rest)
  | _, _ => EmptyString
  end.

(** A greedy run of digits followed by the rest of the pattern [k]: the
    longest run first, then one digit fewer, down to [least]. *)
Fixpoint try_runs (k : string -> option (list string)) (least : nat)
    (capture : bool) (s : string) (n : nat) : option (list string) :=
  let here :=
    if (least <=? n)%nat then
      match k (drop n s) with
      | Some caps => Some (if capture then take n s :: caps else caps)
      | None => None
      end
    else None in
  match here with
  | Some caps => Some caps
  | None =>
      match n with
      | O => None
      | S m => try_runs k least capture s m
      end
  end.

(** A backtracking match at the head of [s], giving the captured groups in
    order.  Quantifiers are greedy: [c?] tries to consume first. *)
Fixpoint matchHere (p : list piece) (s : string) : option (list string) :=
  match p with
  | [] => Some []
  | Lit c :: p' =>
      match s with
      | String a rest => if Ascii.eqb a c then matchHere p' rest else None
      | EmptyString => None
      end
  | OptLit c :: p' =>
      let consumed :=
        match s with
        | String a rest => if Ascii.eqb a c then matchHere p' rest else None
        | EmptyString => None
        end in
      match consumed with
      | Some caps => Some caps
      | None => matchHere p' s
      end
  | Digits least capture :: p' =>
      try_runs (matchHere p') least capture s (digit_run s)
  end.

(** [s.match(p)]: the leftmost position where the pattern matches. *)
Fixpoint search (p : list piece) (s : string) : option (list string) :=
  match matchHere p s with
  | Some caps => Some caps
  | None =>
      match s with
      | EmptyString => None
      | String _ rest => search p rest
      end
  end.

Definition hunk_header : list piece :=
  [Lit "@"; Lit "@"; Lit " "; Lit "-"; Digits 1 true; OptLit ","; Digits 0 false;
   Lit " "; Lit "+"; Digits 1 true; OptLit ","; Digits 0 false;
   Lit " "; Lit "@"; Lit "@"]%char.

End Regex.

(* ===================================================================== *)
(** * The data model *)
(* ===================================================================== *)

Import Js.

Inductive Severity : Type := critical | warning | resolved.

(** One normalized issue.  Fields copied from the payload keep whatever
    value the payload had. *)
Module Issue.
Record t : Type := mk {
  id : JS;
  title : JS;
  severity : Severity;
  count : JS;
  lastSeen : JS;
  project : string;
  affectedUsers : JS;
  stackTrace : JS
}.
End Issue.

Module IssueSummary.
Record t : Type := mk {
  critical : nat;
  warning : nat;
  resolved : nat;
  totalEvents : JS
}.
End IssueSummary.

Module SentryResult.
Record t : Type := mk {
  issues : list Issue.t;
  summary : IssueSummary.t;
  timestamp : string
}.
End SentryResult.

Inductive ChangeType : Type := add | remove | context.

Module ChangeLine.
Record t : Type := mk {
  lineNumber : Num.t;
  type : ChangeType;
  content : string
}.
End ChangeLine.

Inductive Risk : Type := high | medium | low.

Module Commit.
Record t : Type := mk {
  sha : JS;
  message : JS;
  author : JS;
  date : JS;
  branch : string;
  url : JS
}.
End Commit.

Module Diff.
Record t : Type := mk {
  fileName : JS;
  language : JS;
  additions : JS;
  deletions : JS;
  changes : list ChangeLine.t
}.
End Diff.

Module Analysis.
Record t : Type := mk {
  severity : Risk;
  potentialIssues : list string;
  recommendation : string
}.
End Analysis.

Module CommitDiff.
Record t : Type := mk {
  commit : Commit.t;
  diff : Diff.t;
  analysis : Analysis.t
}.
End CommitDiff.

Module Deployment.
Record t : Type := mk {
  id : JS;
  projectName : string;
  status : JS;
  url : string;
  createdAt : string;
  commitSha : JS;
  branch : JS
}.
End Deployment.

Module Deployments.
Record t : Type := mk { deployments : list Deployment.t }.
End Deployments.

Inductive RollbackStatus : Type := initiated | in_progress | completed | failed.

(** A key the object literal leaves out is [None]. *)
Module RollbackResult.
Record t : Type := mk {
  success : bool;
  deploymentId : string;
  previousDeploymentId : option JS;
  status : option RollbackStatus;
  progress : option Z;
  message : string;
  timestamp : string
}.
End RollbackResult.

(** ** Inputs *)

Module SentryOptions.
Record t : Type := mk {
  projectId : option string;
  severity : option Severity;
  limit : option Z
}.
End SentryOptions.

Module GitHubOptions.
Record t : Type := mk {
  owner : string;
  repo : string;
  commitSha : string;
  fileName : option string
}.
End GitHubOptions.

Module VercelOptions.
Record t : Type := mk {
  projectName : string;
  limit : option Z
}.
End VercelOptions.

Module RollbackOptions.
Record t : Type := mk {
  deploymentId : string;
  projectName : string;
  targetVersion : option string;
  reason : option string
}.
End RollbackOptions.

(** [process.env] and the clock.  [toISOString v] is
    [new Date(v).toISOString()], which throws a [RangeError] on a value that
    is not a date ([None]). *)
Module Host.
Record t : Type := mk {
  SENTRY_AUTH_TOKEN : option string;
  SENTRY_ORG : option string;
  SENTRY_PROJECT_SLUG : option string;
  GITHUB_TOKEN : option string;
  VERCEL_TOKEN : option string;
  VERCEL_TEAM_ID : option string;
  now : string;
  two_hours_ago : string;
  toISOString : JS -> option string
}.
End Host.

(** An environment variable or optional string that passes [if (v)]. *)
Definition configured (v : option string) : option string :=
  match v with
  | Some s => if String.eqb s "" then None else Some s
  | None => None
  end.

(** [n || d] on an optional number. *)
Definition number_or (n : option Z) (d : Z) : Z :=
  match n with
  | Some v => if (v =? 0)%Z then d else v
  | None => d
  end.

(* ===================================================================== *)
(** * Helper functions of [api-clients.ts] *)
(* ===================================================================== *)

(** ** [parsePatch] *)

(** The body of [for (const line of lines)], on the pair of the local
    [lineNumber] and the [changes] array; [push] appends. *)
Definition parseLine (st : Num.t * list ChangeLine.t) (line : string)
  : Num.t * list ChangeLine.t :=
  let '(lineNumber, changes) := st in
  if Str.startsWith line "@@" then
    match Regex.search Regex.hunk_header line with
    | Some groups => (Num.parseInt (nth 1 groups ""), changes)
    | None => (lineNumber, changes)
    end
  else if Str.startsWith line "+" then
    (Num.succ lineNumber,
     (changes ++ [ChangeLine.mk lineNumber add (Str.substring1 line)])%list)
  else if Str.startsWith line "-" then
    (lineNumber,
     (changes ++ [ChangeLine.mk lineNumber remove (Str.substring1 line)])%list)
  else if Str.startsWith line " " then
    (Num.succ lineNumber,
     (changes ++ [ChangeLine.mk lineNumber context (Str.substring1 line)])%list)
  else (lineNumber, changes).

(** The loop, from a given counter and array. *)
Definition parseLines (lines : list string) (st : Num.t * list ChangeLine.t)
  : Num.t * list ChangeLine.t :=
  fold_left parseLine lines st.

Definition parsePatch (patch : string) : list ChangeLine.t :=
  let lines := Str.split Str.LF patch in
  firstn 20 (snd (parseLines lines (Num.Fin 0, []))).

(** ** [getLanguageFromFilename] *)

Definition langMap : JS :=
  JObj [("ts", JStr "typescript"); ("tsx", JStr "typescript");
        ("js", JStr "javascript"); ("jsx", JStr "javascript");
        ("py", JStr "python"); ("go", JStr "go"); ("java", JStr "java");
        ("rb", JStr "ruby"); ("php", JStr "php"); ("css", JStr "css");
        ("html", JStr "html")].

(** [filename] is whatever the payload has: [split] needs a string. *)
Definition getLanguageFromFilename (filename : JS) : Outcome JS :=
  let! pieces := call_split filename "." in
  let ext := Str.toLowerCase (last pieces "") in
  let! entry := get langMap ext in
  Ok (or_else entry (JStr "text")).

(** ** [analyzeChanges] *)

Definition is_add (c : ChangeLine.t) : bool :=
  match ChangeLine.type c with
  | add => true
  | _ => false
  end.

Definition analyzeChanges (changes : list ChangeLine.t) (filename : JS)
  : list string :=
  let addedLines := map ChangeLine.content (filter is_add changes) in
  let issues0 : list string := [] in
  let issues1 :=
    if existsb (fun line => Str.includes line "console.log") addedLines
    then (issues0 ++ ["Debug logging statement added - consider removing before production"])%list
    else issues0 in
  let issues2 :=
    if existsb (fun line => Str.includes line "TODO" || Str.includes line "FIXME") addedLines
    then (issues1 ++ ["TODO/FIXME comments found - incomplete work may exist"])%list
    else issues1 in
  let issues3 :=
    if existsb (fun line => Str.includes line "any") addedLines
    then (issues2 ++ ["TypeScript 'any' type used - consider using specific types"])%list
    else issues2 in
  if (List.length issues3 =? 0)%nat
  then (issues3 ++ ["No obvious issues detected - changes appear safe"])%list
  else issues3.

(** ** Issue normalization *)

Definition severity_of_level (level : JS) : Severity :=
  if is_string level "error" || is_string level "fatal"
  then critical else warning.

(** One rendered frame of the stack trace. *)
Definition formatFrame (frame : JS) : Outcome string :=
  let! fn := get frame "function" in
  let! fn' := template (or_else fn (JStr "anonymous")) in
  let! filename := get frame "filename" in
  let! filename' := template filename in
  let! lineno := get frame "lineno" in
  let! lineno' := template lineno in
  let! colno := get frame "colno" in
  let! colno' := template colno in
  Ok ("at " ++ fn' ++ " (" ++ filename' ++ ":" ++ lineno' ++ ":"
        ++ colno' ++ ")").

(** [frames.slice(-5).map(...).join('\n')]: an array has all three
    methods; a string has [slice] only; anything else has none. *)
Definition renderFrames (frames : JS) : Outcome JS :=
  match frames with
  | JArr items =>
      let! rendered := mapM formatFrame (Str.lastn 5 items) in
      Ok (JStr (Str.join (String Str.LF EmptyString) rendered))
  | JStr _ => not_a_function "map"
  | _ => not_a_function "slice"
  end.

Definition is_exception_entry (e : JS) : Outcome bool :=
  let! type := get e "type" in
  Ok (is_string type "exception").

(** The local [stackTrace] of the newer revision, after the [if] chain.
    A path the source reads twice is read once here: the payload is data,
    so the second read gives the same value. *)
Definition extractStackTrace (issue : JS) : Outcome JS :=
  let! metadata := get issue "metadata" in
  let! value := get_opt metadata "value" in
  if truthy value then Ok value
  else
    let! culprit := get issue "culprit" in
    if truthy culprit then
      let! text := template culprit in
      Ok (JStr ("at " ++ text))
    else
      let! lastEvent := get issue "lastEvent" in
      let! entries := get_opt lastEvent "entries" in
      if truthy entries then
        let! exceptionEntry := call_find entries is_exception_entry in
        let! data := get_opt exceptionEntry "data" in
        let! values := get_opt data "values" in
        let! first := get_opt values "0" in
        let! stacktrace := get_opt first "stacktrace" in
        if truthy stacktrace then
          let! frames := get stacktrace "frames" in
          renderFrames (or_else frames (JArr []))
        else Ok (JStr "")
      else Ok (JStr "").

(** [a || b] where [b] is only evaluated when [a] is falsy. *)
Definition or_elseM (a : JS) (b : Outcome JS) : Outcome JS :=
  if truthy a then Ok a else b.

(** [issue.title || issue.metadata?.type || "Unknown error"] *)
Definition titleOf (issue : JS) : Outcome JS :=
  let! title := get issue "title" in
  or_elseM title
    (let! metadata := get issue "metadata" in
     let! type := get_opt metadata "type" in
     Ok (or_else type (JStr "Unknown error"))).

(** [project || "unknown"] *)
Definition projectOf (project : string) : string :=
  if String.eqb project "" then "unknown" else project.

(** The arrow function given to [issues.map] in part_000: one object
    literal, its fields evaluated in order. *)
Definition transformIssue_000 (project : string) (issue : JS)
  : Outcome Issue.t :=
  let! id := get issue "id" in
  let! title := titleOf issue in
  let! level := get issue "level" in
  let! count := get issue "count" in
  let! lastSeen := get issue "lastSeen" in
  let! userCount := get issue "userCount" in
  let! metadata := get issue "metadata" in
  let! value := get_opt metadata "value" in
  Ok (Issue.mk id title (severity_of_level level) (or_else count (JNum 0))
        lastSeen (projectOf project) (or_else userCount (JNum 0))
        (or_else value (JStr ""))).

(** The arrow function given to [issues.map] in part_001: the stack trace
    is extracted first, and the last field falls back to
    [`${issue.title} (no stack trace available)`]. *)
Definition transformIssue_001 (project : string) (issue : JS)
  : Outcome Issue.t :=
  let! stackTrace := extractStackTrace issue in
  let! id := get issue "id" in
  let! title := titleOf issue in
  let! level := get issue "level" in
  let! count := get issue "count" in
  let! lastSeen := get issue "lastSeen" in
  let! userCount := get issue "userCount" in
  let! stackTrace' :=
    or_elseM stackTrace
      (let! rawTitle := get issue "title" in
       let! text := template rawTitle in
       Ok (JStr (text ++ " (no stack trace available)"))) in
  Ok (Issue.mk id title (severity_of_level level) (or_else count (JNum 0))
        lastSeen (projectOf project) (or_else userCount (JNum 0))
        stackTrace').

Definition is_severity (s : Severity) (i : Issue.t) : bool :=
  match Issue.severity i, s with
  | critical, critical | warning, warning | resolved, resolved => true
  | _, _ => false
  end.

(** [// Calculate summary] *)
Definition summarize (transformedIssues : list Issue.t)
  : Outcome IssueSummary.t :=
  let critical :=
    List.length (filter (is_severity critical) transformedIssues) in
  let warning :=
    List.length (filter (is_severity warning) transformedIssues) in
  let! totalEvents :=
    reduceM (fun sum i => Js.add sum (Issue.count i)) transformedIssues (JNum 0) in
  Ok (IssueSummary.mk critical warning 0 totalEvents).

(* ===================================================================== *)
(** * Mock data fallbacks *)
(* ===================================================================== *)

Definition getMockSentryData_000 (h : Host.t) : SentryResult.t :=
  SentryResult.mk
    [Issue.mk (JStr "SENTRY-MOCK-001")
       (JStr "Mock Error: Configure SENTRY_AUTH_TOKEN to see real data")
       warning (JNum 0) (JStr (Host.now h)) "demo-project" (JNum 0)
       (JStr "Set SENTRY_AUTH_TOKEN, SENTRY_ORG, and SENTRY_PROJECT_SLUG in .env.local")]
    (IssueSummary.mk 0 1 0 (JNum 0))
    (Host.now h).

Definition mockStackTrace_001 : string :=
"ReferenceError: myUndefinedFunction is not defined
    at handleSubmit (src/components/ContactForm.tsx:45:12)
    at HTMLButtonElement.callCallback (react-dom.production.min.js:3945:14)
    at Object.invokeGuardedCallbackDev (react-dom.development.js:3994:16)
    at invokeGuardedCallback (react-dom.production.min.js:4056:31)
    at executeDispatch (react-dom.production.min.js:8551:3)

Likely cause: Function was renamed from 'validateAndSubmit' to 'handleFormValidation' in commit abc123f but one call site was missed.
File: src/components/ContactForm.tsx, Line 45
Suggested fix: Import and use 'handleFormValidation' instead or restore 'myUndefinedFunction' as an alias.".

Definition getMockSentryData_001 (h : Host.t) : SentryResult.t :=
  SentryResult.mk
    [Issue.mk (JStr "94486645")
       (JStr "ReferenceError: myUndefinedFunction is not defined")
       critical (JNum 6) (JStr (Host.now h)) "javascript" (JNum 5)
       (JStr mockStackTrace_001)]
    (IssueSummary.mk 1 0 0 (JNum 6))
    (Host.now h).

Definition getMockGitHubData_000 (h : Host.t) (options : GitHubOptions.t)
  : CommitDiff.t :=
  CommitDiff.mk
    (Commit.mk (JStr (GitHubOptions.commitSha options))
       (JStr "Mock commit - Configure GITHUB_TOKEN to see real data")
       (JStr "demo@example.com") (JStr (Host.now h)) "main"
       (JStr ("https://github.com/example/repo/commit/"
                ++ GitHubOptions.commitSha options)))
    (Diff.mk
       (JStr match configured (GitHubOptions.fileName options) with
             | Some name => name
             | None => "README.md"
             end)
       (JStr "markdown") (JNum 1) (JNum 0)
       [ChangeLine.mk (Num.Fin 1) add "Set GITHUB_TOKEN in .env.local to see real commit diffs"])
    (Analysis.mk low
       ["Configure GitHub API token to analyze real commits"]
       "Add GITHUB_TOKEN to .env.local file").

Definition getMockGitHubData_001 (h : Host.t) (options : GitHubOptions.t)
  : CommitDiff.t :=
  CommitDiff.mk
    (Commit.mk (JStr "abc123f")
       (JStr "Refactor: Rename validateAndSubmit to handleFormValidation for clarity")
       (JStr "dev@example.com") (JStr (Host.two_hours_ago h)) "main"
       (JStr "https://github.com/example/repo/commit/abc123f"))
    (Diff.mk (JStr "src/utils/formHelpers.ts") (JStr "typescript")
       (JNum 3) (JNum 3)
       [ChangeLine.mk (Num.Fin 12) remove "export function validateAndSubmit(data: FormData) {";
        ChangeLine.mk (Num.Fin 13) remove "  // Validate form data";
        ChangeLine.mk (Num.Fin 14) remove "  return apiClient.post('/submit', data);";
        ChangeLine.mk (Num.Fin 12) add "export function handleFormValidation(data: FormData) {";
        ChangeLine.mk (Num.Fin 13) add "  // Validate form data before submission";
        ChangeLine.mk (Num.Fin 14) add "  return apiClient.post('/submit', data);";
        ChangeLine.mk (Num.Fin 15) context "}"])
    (Analysis.mk high
       ["Function renamed but not all call sites updated";
        "Missing import update in ContactForm.tsx:45";
        "Breaking change deployed without backward compatibility"]
       "Add backward-compatible alias or update all references before deploying").

Definition getMockVercelDeployments (h : Host.t) (options : VercelOptions.t)
  : Deployments.t :=
  Deployments.mk
    [Deployment.mk (JStr "dpl_mock_current")
       (VercelOptions.projectName options)
       (JStr "READY")
       ("https://" ++ VercelOptions.projectName options ++ ".vercel.app")
       (Host.now h)
       (JStr "mock_sha_123")
       (JStr "main")].

Definition getMockRollbackResult (h : Host.t) (options : RollbackOptions.t)
  : RollbackResult.t :=
  RollbackResult.mk true
    (RollbackOptions.deploymentId options)
    (Some (JStr "dpl_mock_previous"))
    (Some completed)
    (Some 100%Z)
    ("Mock rollback completed for " ++ RollbackOptions.projectName options
       ++ ". Set VERCEL_TOKEN in .env.local for real rollbacks.")
    (Host.now h).

(** The two revisions of [api-clients.ts] differ in the issue transform and
    in two of the mocks, and in nothing else. *)
Record Revision : Type := mkRevision {
  transformIssue : string -> JS -> Outcome Issue.t;
  getMockSentryData : Host.t -> SentryResult.t;
  getMockGitHubData : Host.t -> GitHubOptions.t -> CommitDiff.t
}.

Definition part_000 : Revision :=
  mkRevision transformIssue_000 getMockSentryData_000 getMockGitHubData_000.

Definition part_001 : Revision :=
  mkRevision transformIssue_001 getMockSentryData_001 getMockGitHubData_001.

(* ===================================================================== *)
(** * The API clients *)
(* ===================================================================== *)

Import Eff.

Definition bearer (token : string) : list (string * string) :=
  [("Authorization", "Bearer " ++ token)].

(** ** Sentry *)

Definition sentryUrl (org project : string) : string :=
  "https://sentry.io/api/0/projects/" ++ org ++ "/" ++ project
    ++ "/issues/?statsPeriod=14d&query=is:unresolved".

(** [options.projectId || process.env.SENTRY_PROJECT_SLUG] *)
Definition sentryProject (h : Host.t) (options : SentryOptions.t)
  : option string :=
  match configured (SentryOptions.projectId options) with
  | Some p => Some p
  | None => configured (Host.SENTRY_PROJECT_SLUG h)
  end.

(** The [try] block of [fetchSentryIssues]; the [match] on the parsed body
    is the [Array.isArray] test. *)
Definition fetchSentryIssues_try (rev : Revision) (h : Host.t)
    (options : SentryOptions.t) (authToken org project : string)
  : IO SentryResult.t :=
  response <- fetch (mkRequest "GET" (sentryUrl org project) (bearer authToken)) ;;
  if negb (ok response)
  then throw_error ("Sentry API error: " ++ statusText response)
  else
    issues <- lift (json response) ;;
    match issues with
    | JArr items =>
        transformedIssues <-
          lift (mapM (transformIssue rev project)
                  (Str.slice0 (number_or (SentryOptions.limit options) 10) items)) ;;
        summary <- lift (summarize transformedIssues) ;;
        ret (SentryResult.mk transformedIssues summary (Host.now h))
    | _ => throw_error "Invalid Sentry API response"
    end.

Definition fetchSentryIssues (rev : Revision) (h : Host.t)
    (options : SentryOptions.t) : IO SentryResult.t :=
  match configured (Host.SENTRY_AUTH_TOKEN h),
        configured (Host.SENTRY_ORG h),
        sentryProject h options with
  | Some authToken, Some org, Some project =>
      try_catch (fetchSentryIssues_try rev h options authToken org project)
        (fun _ => ret (getMockSentryData rev h))
  | _, _, _ => ret (getMockSentryData rev h)
  end.

(** ** GitHub *)

Definition commitUrl (options : GitHubOptions.t) : string :=
  "https://api.github.com/repos/" ++ GitHubOptions.owner options ++ "/"
    ++ GitHubOptions.repo options ++ "/commits/"
    ++ GitHubOptions.commitSha options.

(** [options.fileName ? commitData.files.find(...) : commitData.files[0]] *)
Definition selectFile (options : GitHubOptions.t) (commitData : JS)
  : Outcome JS :=
  let! files := get commitData "files" in
  match configured (GitHubOptions.fileName options) with
  | Some name =>
      call_find files
        (fun f => let! filename := get f "filename" in
                  Ok (is_string filename name))
  | None => get files "0"
  end.

(** [parsePatch(file.patch || "")]: [split] needs a string. *)
Definition parsePatchOf (patch : JS) : Outcome (list ChangeLine.t) :=
  match or_else patch (JStr "") with
  | JStr text => Ok (parsePatch text)
  | _ => not_a_function "split"
  end.

(** The returned object literal, its fields evaluated in order. *)
Definition buildCommitDiff (commitData file : JS)
    (changes : list ChangeLine.t) : Outcome CommitDiff.t :=
  let! sha := get commitData "sha" in
  let! commit := get commitData "commit" in
  let! message := get commit "message" in
  let! author := get commit "author" in
  let! email := get author "email" in
  let! date := get author "date" in
  let! html_url := get commitData "html_url" in
  let! filename := get file "filename" in
  let! language := getLanguageFromFilename filename in
  let! additions := get file "additions" in
  let! deletions := get file "deletions" in
  Ok (CommitDiff.mk
        (Commit.mk sha message email date "main" html_url)
        (Diff.mk filename language additions deletions changes)
        (Analysis.mk medium (analyzeChanges changes filename)
           "Review changes for potential issues before deploying to production.")).

Definition fetchGitHubCommitDiff_try (options : GitHubOptions.t)
    (token : string) : IO CommitDiff.t :=
  commitResponse <-
    fetch (mkRequest "GET" (commitUrl options)
             [("Authorization", "token " ++ token);
              ("Accept", "application/vnd.github.v3+json")]) ;;
  if negb (ok commitResponse)
  then throw_error ("GitHub API error: " ++ statusText commitResponse)
  else
    commitData <- lift (json commitResponse) ;;
    file <- lift (selectFile options commitData) ;;
    if negb (truthy file)
    then throw_error "No files found in commit"
    else
      patch <- lift (get file "patch") ;;
      changes <- lift (parsePatchOf patch) ;;
      lift (buildCommitDiff commitData file changes).

Definition fetchGitHubCommitDiff (rev : Revision) (h : Host.t)
    (options : GitHubOptions.t) : IO CommitDiff.t :=
  match configured (Host.GITHUB_TOKEN h) with
  | None => ret (getMockGitHubData rev h options)
  | Some token =>
      try_catch (fetchGitHubCommitDiff_try options token)
        (fun _ => ret (getMockGitHubData rev h options))
  end.

(** ** Vercel *)

Definition deploymentsUrl (h : Host.t) (options : VercelOptions.t) : string :=
  let base :=
    "https://api.vercel.com/v6/deployments?projectId="
      ++ VercelOptions.projectName options ++ "&limit="
      ++ Num.print (Num.Fin (number_or (VercelOptions.limit options) 5)) in
  match configured (Host.VERCEL_TEAM_ID h) with
  | Some teamId => base ++ "&teamId=" ++ teamId
  | None => base
  end.

Definition RangeError {A} (message : string) : Outcome A :=
  Throw (JsError "RangeError" message).

(** The arrow function given to [data.deployments.map]. *)
Definition transformDeployment (h : Host.t) (options : VercelOptions.t)
    (dep : JS) : Outcome Deployment.t :=
  let! uid := get dep "uid" in
  let! state := get dep "state" in
  let! url := get dep "url" in
  let! url' := template url in
  let! created := get dep "created" in
  let! createdAt :=
    match Host.toISOString h created with
    | Some iso => Ok iso
    | None => RangeError "Invalid time value"
    end in
  let! meta := get dep "meta" in
  let! githubCommitSha := get_opt meta "githubCommitSha" in
  let! meta' := get dep "meta" in
  let! githubCommitRef := get_opt meta' "githubCommitRef" in
  Ok (Deployment.mk uid (VercelOptions.projectName options) state
        ("https://" ++ url') createdAt githubCommitSha githubCommitRef).

Definition fetchVercelDeployments_try (h : Host.t) (options : VercelOptions.t)
    (token : string) : IO Deployments.t :=
  response <- fetch (mkRequest "GET" (deploymentsUrl h options) (bearer token)) ;;
  if negb (ok response)
  then throw_error ("Vercel API error: " ++ statusText response)
  else
    data <- lift (json response) ;;
    deployments <- lift (get data "deployments") ;;
    transformed <- lift (call_map deployments (transformDeployment h options)) ;;
    ret (Deployments.mk transformed).

Definition fetchVercelDeployments (h : Host.t) (options : VercelOptions.t)
  : IO Deployments.t :=
  match configured (Host.VERCEL_TOKEN h) with
  | None => ret (getMockVercelDeployments h options)
  | Some token =>
      try_catch (fetchVercelDeployments_try h options token)
        (fun _ => ret (getMockVercelDeployments h options))
  end.

(** ** Rollback *)

(** [d.id !== options.deploymentId && d.status === "READY"] *)
Definition eligible (deploymentId : string) (d : Deployment.t) : bool :=
  negb (is_string (Deployment.id d) deploymentId)
  && is_string (Deployment.status d) "READY".

(** The promote URL around the text of the target's id. *)
Definition promoteUrlOf (h : Host.t) (id : string) : string :=
  let base :=
    "https://api.vercel.com/v13/deployments/" ++ id ++ "/promote" in
  match configured (Host.VERCEL_TEAM_ID h) with
  | Some teamId => base ++ "?teamId=" ++ teamId
  | None => base
  end.

(** [const promoteUrl = `...${targetDeployment.id}/promote...`]: the id
    is whatever the listing gave, and the template converts it. *)
Definition promoteUrl (h : Host.t) (targetDeployment : Deployment.t)
  : Outcome string :=
  let! id := template (Deployment.id targetDeployment) in
  Ok (promoteUrlOf h id).

Definition executeVercelRollback_try (h : Host.t) (options : RollbackOptions.t)
    (token : string) : IO RollbackResult.t :=
  deploymentsData <-
    fetchVercelDeployments h
      (VercelOptions.mk (RollbackOptions.projectName options) (Some 10%Z)) ;;
  match find (eligible (RollbackOptions.deploymentId options))
          (Deployments.deployments deploymentsData) with
  | None => throw_error "No suitable deployment found for rollback"
  | Some targetDeployment =>
      url <- lift (promoteUrl h targetDeployment) ;;
      response <- fetch (mkRequest "POST" url (bearer token)) ;;
      if negb (ok response)
      then throw_error ("Vercel rollback error: " ++ statusText response)
      else
        id <- lift (template (Deployment.id targetDeployment)) ;;
        ret (RollbackResult.mk true
               (RollbackOptions.deploymentId options)
               (Some (Deployment.id targetDeployment))
               (Some completed)
               (Some 100%Z)
               ("Successfully rolled back " ++ RollbackOptions.projectName options
                  ++ " to deployment " ++ id)
               (Host.now h))
  end.

(** The object the [catch] block of [executeVercelRollback] returns. *)
Definition rollbackFailure (h : Host.t) (options : RollbackOptions.t)
    (error : Exn) : RollbackResult.t :=
  RollbackResult.mk false
    (RollbackOptions.deploymentId options)
    None
    (Some failed)
    (Some 0%Z)
    ("Rollback failed: " ++ message_of error)
    (Host.now h).

Definition executeVercelRollback (h : Host.t) (options : RollbackOptions.t)
  : IO RollbackResult.t :=
  match configured (Host.VERCEL_TOKEN h) with
  | None => ret (getMockRollbackResult h options)
  | Some token =>
      try_catch (executeVercelRollback_try h options token)
        (fun error => ret (rollbackFailure h options error))
  end.

(* ===================================================================== *)
(** * The server action of [server-actions.ts] *)
(* ===================================================================== *)

Module RollbackInput.
Record t : Type := mk {
  deploymentId : string;
  projectName : string;
  targetDeploymentId : option string
}.
End RollbackInput.

(** The object the [catch] block of [executeVercelRollbackAction] returns:
    it has no [status], no [progress] and no [previousDeploymentId]. *)
Definition actionFailure (h : Host.t) (input : RollbackInput.t) (error : Exn)
  : RollbackResult.t :=
  RollbackResult.mk false
    (RollbackInput.deploymentId input)
    None
    None
    None
    ("Failed to rollback: " ++ message_of error)
    (Host.now h).

(** [executeVercelRollback(input)] reads [deploymentId] and [projectName]
    of the object it is given; the other two keys are absent from [input]. *)
Definition executeVercelRollbackAction (h : Host.t) (input : RollbackInput.t)
  : IO RollbackResult.t :=
  try_catch
    (executeVercelRollback h
       (RollbackOptions.mk (RollbackInput.deploymentId input)
          (RollbackInput.projectName input) None None))
    (fun error => ret (actionFailure h input error)).

(* ===================================================================== *)
(** * Properties and sample inputs *)
(* ===================================================================== *)

(** The invariant of [RollbackResult]. *)
Definition terminal (r : RollbackResult.t) : Prop :=
  (RollbackResult.success r = true ->
     RollbackResult.status r = Some completed
     /\ RollbackResult.progress r = Some 100%Z)
  /\ (RollbackResult.success r = false ->
     RollbackResult.status r = Some failed
     /\ RollbackResult.progress r = Some 0%Z).

(** ** Sample inputs *)

(** A host with nothing configured. *)
Definition bare_host : Host.t :=
  Host.mk None None None None None None
    "2026-01-01T00:00:00.000Z" "2025-12-31T22:00:00.000Z" (fun _ => None).

(** A host with every credential set; it renders a numeric [created] as a
    fixed instant and rejects everything else. *)
Definition live_host : Host.t :=
  Host.mk (Some "sentry-token") (Some "acme") (Some "web") (Some "gh-token")
    (Some "vercel-token") None
    "2026-01-01T00:00:00.000Z" "2025-12-31T22:00:00.000Z"
    (fun v => match v with
              | JNum _ => Some "2025-06-01T12:00:00.000Z"
              | _ => None
              end).

(** The network is down: every [fetch] throws. *)
Definition offline : World :=
  fun _ _ => Throw (JsError "TypeError" "fetch failed").

(** Every request is answered 200 with the given body. *)
Definition serving (body : JS) : World :=
  fun _ _ => Ok (mkResponse true 200 "OK" (Ok body)).

Definition no_options : SentryOptions.t := SentryOptions.mk None None None.

Definition sample_rollback : RollbackOptions.t :=
  RollbackOptions.mk "dpl_current" "web" None None.

(** The regression case of the specification. *)
Definition regression_patch : string :=
  "@@ -1,3 +5,3 @@" ++ String Str.LF " a" ++ String Str.LF "-b"
    ++ String Str.LF "+c" ++ String Str.LF " d".

(** ** Missing credentials *)

(** One of the three Sentry settings fails [if (!authToken || !org || !project)]. *)
Definition sentry_credentials_missing (h : Host.t) (options : SentryOptions.t)
  : Prop :=
  configured (Host.SENTRY_AUTH_TOKEN h) = None
  \/ configured (Host.SENTRY_ORG h) = None
  \/ sentryProject h options = None.

(** ** Rollback target *)

(** [target] is the first element of [ds], in list order, that [p] accepts. *)
Definition first_match {A} (p : A -> bool) (ds : list A) (target : A) : Prop :=
  exists before after,
    ds = (before ++ target :: after)%list
    /\ Forall (fun d => p d = false) before
    /\ p target = true.

(** A deployment a rollback from [deploymentId] may go to: its id is
    another one and its status is ["READY"]. *)
Definition ready_elsewhere (deploymentId : string) (d : Deployment.t) : Prop :=
  Deployment.id d <> JStr deploymentId /\ Deployment.status d = JStr "READY".

(** [target] is the rollback target in [ds]: the first deployment, in
    list order, that is ready elsewhere. *)
Definition rollback_target (deploymentId : string) (ds : list Deployment.t)
    (target : Deployment.t) : Prop :=
  exists before after,
    ds = (before ++ target :: after)%list
    /\ Forall (fun d => ~ ready_elsewhere deploymentId d) before
    /\ ready_elsewhere deploymentId target.

(** [target] is the one deployment of [ds] that is ready elsewhere. *)
Definition only_rollback_target (deploymentId : string)
    (ds : list Deployment.t) (target : Deployment.t) : Prop :=
  In target ds
  /\ ready_elsewhere deploymentId target
  /\ forall d, In d ds -> ready_elsewhere deploymentId d -> d = target.

(** [ds] has no deployment to roll back to. *)
Definition no_rollback_target (deploymentId : string) (ds : list Deployment.t)
  : Prop :=
  Forall (fun d => ~ ready_elsewhere deploymentId d) ds.

(** The state-changing call of the rollback, for a target whose id
    converts to text. *)
Definition promoteRequest (h : Host.t) (token : string)
    (target : Deployment.t) : Request :=
  mkRequest "POST" (promoteUrlOf h (toString (Deployment.id target)))
    (bearer token).

(** The list request of the rollback: up to 10 deployments of the project. *)
Definition rollbackListing (options : RollbackOptions.t) : VercelOptions.t :=
  VercelOptions.mk (RollbackOptions.projectName options) (Some 10%Z).

(** Three deployments: the one being rolled back from, a failed one, and
    an older ready one. *)
Definition two_deployments : JS :=
  JObj [("deployments",
         JArr [JObj [("uid", JStr "dpl_current"); ("state", JStr "READY");
                     ("url", JStr "web-2.vercel.app"); ("created", JNum 2)];
               JObj [("uid", JStr "dpl_failed"); ("state", JStr "ERROR");
                     ("url", JStr "web-1b.vercel.app"); ("created", JNum 1)];
               JObj [("uid", JStr "dpl_previous"); ("state", JStr "READY");
                     ("url", JStr "web-1.vercel.app"); ("created", JNum 1)]])].

(** ** Issues *)

(** The two revisions of [api-clients.ts] in the repository. *)
Definition revisions : list Revision := [part_000; part_001].

(** The raw level is one of the two strings that classify as critical. *)
Definition error_or_fatal (level : JS) : Prop :=
  level = JStr "error" \/ level = JStr "fatal".

(** The arithmetic sum of the counts, for counts that are numbers. *)
Definition count_number (i : Issue.t) : Z :=
  match Issue.count i with
  | JNum n => n
  | _ => 0%Z
  end.

Definition has_numeric_count (i : Issue.t) : Prop :=
  exists n, Issue.count i = JNum n.

Definition sum_counts (issues : list Issue.t) : Z :=
  fold_right (fun i acc => (count_number i + acc)%Z) 0%Z issues.

(** Counts that are whole numbers, none negative, and that add up within
    the range in which every integer is a double (up to 2^53). *)
Definition whole_count (i : Issue.t) : Prop :=
  exists n, Issue.count i = JNum n /\ (0 <= n)%Z.

Definition exact_counts (issues : list Issue.t) : Prop :=
  Forall whole_count issues /\ (sum_counts issues <= Num.exact_bound)%Z.

(** A response in which Sentry gives the event counts as strings. *)
Definition string_count_body : JS :=
  JArr [JObj [("id", JStr "1"); ("title", JStr "TypeError"); ("level", JStr "error");
              ("count", JStr "6"); ("userCount", JNum 2)];
        JObj [("id", JStr "2"); ("title", JStr "Timeout"); ("level", JStr "warning");
              ("count", JStr "13"); ("userCount", JNum 1)]].

(** The same issues with numeric counts. *)
Definition numeric_count_body : JS :=
  JArr [JObj [("id", JStr "1"); ("title", JStr "TypeError"); ("level", JStr "error");
              ("count", JNum 6); ("userCount", JNum 2)];
        JObj [("id", JStr "2"); ("title", JStr "Timeout"); ("level", JStr "warning");
              ("count", JNum 13); ("userCount", JNum 1)]].

(** ** The stack-trace fallback chain *)

(** A read for which a missing path is [undefined]. *)
Definition field (k : string) (v : JS) : JS :=
  match get_opt v k with
  | Ok x => x
  | Throw _ => JUndefined
  end.

(** The first entry of the last event whose type is ["exception"]. *)
Definition exception_entry (issue : JS) : option JS :=
  match field "entries" (field "lastEvent" issue) with
  | JArr entries =>
      find (fun e => is_string (field "type" e) "exception") entries
  | _ => None
  end.

(** The stack frames of the first exception value of an entry. *)
Definition frames_of (entry : JS) : list JS :=
  match field "frames"
          (field "stacktrace" (field "0" (field "values" (field "data" entry)))) with
  | JArr frames => frames
  | _ => []
  end.

(** ["at {function|anonymous} ({filename}:{line}:{col})"] *)
Definition frame_line (frame : JS) : string :=
  "at " ++ toString (or_else (field "function" frame) (JStr "anonymous"))
    ++ " (" ++ toString (field "filename" frame) ++ ":"
    ++ toString (field "lineno" frame) ++ ":"
    ++ toString (field "colno" frame) ++ ")".

(** The last 5 frames, one line each. *)
Definition rendered_frames (entry : JS) : string :=
  Str.join (String Str.LF EmptyString)
    (map frame_line (Str.lastn 5 (frames_of entry))).

(** ["{title} (no stack trace available)"], on the raw title. *)
Definition no_stack_trace (issue : JS) : JS :=
  JStr (toString (field "title" issue) ++ " (no stack trace available)").

(** The chain as the specification states it: an exception entry always
    yields its joined frames. *)
Definition claimed_stackTrace (issue : JS) : JS :=
  let value := field "value" (field "metadata" issue) in
  let culprit := field "culprit" issue in
  if truthy value then value
  else if truthy culprit then JStr ("at " ++ toString culprit)
  else match exception_entry issue with
       | Some entry => JStr (rendered_frames entry)
       | None => no_stack_trace issue
       end.

(** The chain of part_001: an exception entry yields its joined frames
    when they render to a non-empty text. *)
Definition chain_stackTrace (issue : JS) : JS :=
  let value := field "value" (field "metadata" issue) in
  let culprit := field "culprit" issue in
  if truthy value then value
  else if truthy culprit then JStr ("at " ++ toString culprit)
  else match exception_entry issue with
       | Some entry =>
           if String.eqb (rendered_frames entry) ""
           then no_stack_trace issue
           else JStr (rendered_frames entry)
       | None => no_stack_trace issue
       end.

(** What part_000 does instead: the metadata value or the empty string. *)
Definition value_or_empty (issue : JS) : JS :=
  or_else (field "value" (field "metadata" issue)) (JStr "").

(** An issue whose exception entry has an empty list of frames. *)
Definition empty_frames_issue : JS :=
  JObj [("id", JStr "7"); ("title", JStr "Boom");
        ("lastEvent",
         JObj [("entries",
                JArr [JObj [("type", JStr "breadcrumbs")];
                      JObj [("type", JStr "exception");
                            ("data",
                             JObj [("values",
                                    JArr [JObj [("stacktrace",
                                                 JObj [("frames", JArr [])])]])])]])])].

(** An issue with seven frames, the second of them anonymous. *)
Definition seven_frames_issue : JS :=
  let frame (n : Z) :=
    JObj [("function", JStr "f"); ("filename", JStr "app.js");
          ("lineno", JNum n); ("colno", JNum 1)] in
  JObj [("id", JStr "8"); ("title", JStr "Boom");
        ("lastEvent",
         JObj [("entries",
                JArr [JObj [("type", JStr "exception");
                            ("data",
                             JObj [("values",
                                    JArr [JObj [("stacktrace",
                                                 JObj [("frames",
                                                        JArr [frame 1%Z; frame 2%Z; frame 3%Z;
                                                              JObj [("filename", JStr "lib.js");
                                                                    ("lineno", JNum 4);
                                                                    ("colno", JNum 1)];
                                                              frame 5%Z; frame 6%Z; frame 7%Z])])]])])]])])].

(** An issue that has a culprit and nothing else to show. *)
Definition culprit_issue : JS :=
  JObj [("id", JStr "9"); ("title", JStr "Boom"); ("culprit", JStr "handleSubmit")].

(** ** The line counter of [parsePatch] *)

(** The new-file start line a hunk header announces: the second group of
    the header pattern, when the line matches it. *)
Definition newFileStart (line : string) : option Num.t :=
  match Regex.search Regex.hunk_header line with
  | Some groups => Some (Num.parseInt (nth 1 groups ""))
  | None => None
  end.

(** The counter after a hunk header: its new-file start line, or the old
    counter when the line does not match the pattern. *)
Definition reset_to (line : string) (n : Num.t) : Num.t :=
  match newFileStart line with
  | Some c => c
  | None => n
  end.

(** The records a single counter gives, starting from [n]: set by a hunk
    header, emitted then incremented on [+] and on a space, emitted and
    left alone on [-]. *)
Fixpoint emitted (n : Num.t) (lines : list string) : list ChangeLine.t :=
  match lines with
  | [] => []
  | line :: rest =>
      if Str.startsWith line "@@" then emitted (reset_to line n) rest
      else if Str.startsWith line "+" then
        ChangeLine.mk n add (Str.substring1 line) :: emitted (Num.succ n) rest
      else if Str.startsWith line "-" then
        ChangeLine.mk n remove (Str.substring1 line) :: emitted n rest
      else if Str.startsWith line " " then
        ChangeLine.mk n context (Str.substring1 line) :: emitted (Num.succ n) rest
      else emitted n rest
  end.

(** The value of that counter after the lines. *)
Fixpoint counter_after (n : Num.t) (lines : list string) : Num.t :=
  match lines with
  | [] => n
  | line :: rest =>
      if Str.startsWith line "@@" then counter_after (reset_to line n) rest
      else if Str.startsWith line "+" then counter_after (Num.succ n) rest
      else if Str.startsWith line "-" then counter_after n rest
      else if Str.startsWith line " " then counter_after (Num.succ n) rest
      else counter_after n rest
  end.

(** A string of decimal digits. *)
Definition all_digits (s : string) : bool :=
  forallb Str.is_digit (list_ascii_of_string s).

(** The rest of a line after a run of digits does not go on with a digit. *)
Definition ends_run (rest : string) : Prop :=
  match rest with
  | EmptyString => True
  | String a _ => Str.is_digit a = false
  end.

(** The value of a decimal numeral read from the left, from [acc]. *)
Fixpoint uint_value (d : Decimal.uint) (acc : Z) : Z :=
  match d with
  | Decimal.Nil => acc
  | Decimal.D0 l => uint_value l (10 * acc + 0)
  | Decimal.D1 l => uint_value l (10 * acc + 1)
  | Decimal.D2 l => uint_value l (10 * acc + 2)
  | Decimal.D3 l => uint_value l (10 * acc + 3)
  | Decimal.D4 l => uint_value l (10 * acc + 4)
  | Decimal.D5 l => uint_value l (10 * acc + 5)
  | Decimal.D6 l => uint_value l (10 * acc + 6)
  | Decimal.D7 l => uint_value l (10 * acc + 7)
  | Decimal.D8 l => uint_value l (10 * acc + 8)
  | Decimal.D9 l => uint_value l (10 * acc + 9)
  end%Z.

(** ** Well-formed results of the read operations *)

(** A summary that agrees with its list of issues. *)
Definition well_formed_issues (r : SentryResult.t) : Prop :=
  IssueSummary.resolved (SentryResult.summary r) = 0
  /\ IssueSummary.critical (SentryResult.summary r)
       + IssueSummary.warning (SentryResult.summary r)
     = List.length (SentryResult.issues r)
  /\ Forall (fun i => Issue.project i <> "") (SentryResult.issues r).

(** A diff on branch [main] with at most 20 change lines and at least one
    advisory. *)
Definition well_formed_diff (r : CommitDiff.t) : Prop :=
  Commit.branch (CommitDiff.commit r) = "main"
  /\ List.length (Diff.changes (CommitDiff.diff r)) <= 20
  /\ Analysis.potentialIssues (CommitDiff.analysis r) <> [].

(** Deployments of the project asked for, each with an [https] URL. *)
Definition well_formed_deployments (options : VercelOptions.t)
    (r : Deployments.t) : Prop :=
  Forall
    (fun d =>
       Deployment.projectName d = VercelOptions.projectName options
       /\ Str.startsWith (Deployment.url d) "https://" = true)
    (Deployments.deployments r).

(** ** The declared types of the results *)

(** The output schemas of the tools ([mcp-tools.ts]) give each field of a
    result a type: [z.string()], [z.number()], and either of them
    [.optional()].  The fields listed are those the client copies from
    the payload; the others have their type by construction.  A number
    is taken to be a finite one. *)
Definition a_string (v : JS) : Prop := exists s, v = JStr s.

Definition a_number (v : JS) : Prop := exists n, v = JNum n.

Definition optionally (P : JS -> Prop) (v : JS) : Prop :=
  v = JUndefined \/ P v.

Definition declared_issue (i : Issue.t) : Prop :=
  a_string (Issue.id i)
  /\ a_string (Issue.title i)
  /\ a_number (Issue.count i)
  /\ a_string (Issue.lastSeen i)
  /\ optionally a_number (Issue.affectedUsers i)
  /\ optionally a_string (Issue.stackTrace i).

Definition declared_issues (r : SentryResult.t) : Prop :=
  Forall declared_issue (SentryResult.issues r)
  /\ a_number (IssueSummary.totalEvents (SentryResult.summary r)).

Definition declared_diff (r : CommitDiff.t) : Prop :=
  a_string (Commit.sha (CommitDiff.commit r))
  /\ a_string (Commit.message (CommitDiff.commit r))
  /\ a_string (Commit.author (CommitDiff.commit r))
  /\ a_string (Commit.date (CommitDiff.commit r))
  /\ optionally a_string (Commit.url (CommitDiff.commit r))
  /\ a_string (Diff.fileName (CommitDiff.diff r))
  /\ a_string (Diff.language (CommitDiff.diff r))
  /\ a_number (Diff.additions (CommitDiff.diff r))
  /\ a_number (Diff.deletions (CommitDiff.diff r)).

Definition declared_deployment (d : Deployment.t) : Prop :=
  a_string (Deployment.id d)
  /\ a_string (Deployment.status d)
  /\ optionally a_string (Deployment.commitSha d)
  /\ optionally a_string (Deployment.branch d).

Definition declared_deployments (r : Deployments.t) : Prop :=
  Forall declared_deployment (Deployments.deployments r).

(** Responses that have the shape the clients ask for and nothing in it:
    an issue, a commit with one named file, a deployment with a date. *)
Definition bare_issues : JS := JArr [JObj []].

Definition bare_commit : JS :=
  JObj [("commit", JObj [("author", JObj [])]);
        ("files", JArr [JObj [("filename", JStr "a.ts")]])].

Definition bare_listing : JS :=
  JObj [("deployments", JArr [JObj [("created", JNum 1)]])].

(** The result is the mock, or what the [try] block returned. *)
Definition real_or_mock {A} (attempt : option (IO A)) (mock : A)
    (w : World) (log : list Request) (r : A) (log' : list Request) : Prop :=
  r = mock
  \/ exists body, attempt = Some body /\ body w log = (Ok r, log').

Definition sentry_attempt (rev : Revision) (h : Host.t)
    (options : SentryOptions.t) : option (IO SentryResult.t) :=
  match configured (Host.SENTRY_AUTH_TOKEN h),
        configured (Host.SENTRY_ORG h),
        sentryProject h options with
  | Some authToken, Some org, Some project =>
      Some (fetchSentryIssues_try rev h options authToken org project)
  | _, _, _ => None
  end.

Definition github_attempt (h : Host.t) (options : GitHubOptions.t)
  : option (IO CommitDiff.t) :=
  option_map (fetchGitHubCommitDiff_try options) (configured (Host.GITHUB_TOKEN h)).

Definition vercel_attempt (h : Host.t) (options : VercelOptions.t)
  : option (IO Deployments.t) :=
  option_map (fetchVercelDeployments_try h options)
    (configured (Host.VERCEL_TOKEN h)).

(** ** Sample behaviours of the services *)

(** Every request is answered 500. *)
Definition failing : World :=
  fun _ _ => Ok (mkResponse false 500 "Internal Server Error" (Ok JNull)).

(** Every request is answered 200 with a body that is not JSON. *)
Definition garbled : World :=
  fun _ _ =>
    Ok (mkResponse true 200 "OK"
          (Throw (JsError "SyntaxError" "Unexpected token < in JSON"))).

Definition sample_commit : GitHubOptions.t :=
  GitHubOptions.mk "vercel" "next.js" "main" None.

Definition sample_project : VercelOptions.t := VercelOptions.mk "web" (Some 5%Z).

(** A commit with one TypeScript file. *)
Definition one_file_commit : JS :=
  JObj [("sha", JStr "f00"); ("html_url", JStr "https://github.com/o/r/commit/f00");
        ("commit",
         JObj [("message", JStr "fix");
               ("author", JObj [("email", JStr "a@b.c"); ("date", JStr "2025-06-01")])]);
        ("files",
         JArr [JObj [("filename", JStr "src/App.TSX"); ("additions", JNum 1);
                     ("deletions", JNum 1);
                     ("patch",
                      JStr ("@@ -3,2 +3,2 @@" ++ String Str.LF "-const a: any = 1"
                              ++ String Str.LF "+console.log(1) // TODO"))]])].

(* ===================================================================== *)
(** * The other server actions of [server-actions.ts] *)
(* ===================================================================== *)

(** The object the [catch] block of [getSentryIssuesAction] returns. *)
Definition sentryActionFallback (h : Host.t) : SentryResult.t :=
  SentryResult.mk [] (IssueSummary.mk 0 0 0 (JNum 0)) (Host.now h).

Definition getSentryIssuesAction (rev : Revision) (h : Host.t)
    (input : SentryOptions.t) : IO SentryResult.t :=
  try_catch (fetchSentryIssues rev h input)
    (fun _ => ret (sentryActionFallback h)).

(** The object the [catch] block of [getGitHubCommitDiffAction] returns. *)
Definition githubActionFallback (h : Host.t) (input : GitHubOptions.t)
  : CommitDiff.t :=
  CommitDiff.mk
    (Commit.mk (JStr (GitHubOptions.commitSha input))
       (JStr "Error fetching commit") (JStr "unknown") (JStr (Host.now h))
       "main" (JStr ""))
    (Diff.mk
       (JStr match configured (GitHubOptions.fileName input) with
             | Some name => name
             | None => "unknown"
             end)
       (JStr "text") (JNum 0) (JNum 0) [])
    (Analysis.mk low [] "Unable to analyze changes at this time.").

Definition getGitHubCommitDiffAction (rev : Revision) (h : Host.t)
    (input : GitHubOptions.t) : IO CommitDiff.t :=
  try_catch (fetchGitHubCommitDiff rev h input)
    (fun _ => ret (githubActionFallback h input)).

Module DeploymentSummary.
Record t : Type := mk {
  total : Z;
  successful : Z;
  failed : Z;
  building : Z
}.
End DeploymentSummary.

(** What [getVercelDeploymentsAction] returns: the client's object, which
    has the one key [deployments], or the object of its [catch] block,
    which also has [summary] and [currentProduction]. *)
Module DeploymentsActionResult.
Record t : Type := mk {
  deployments : list Deployment.t;
  summary : option DeploymentSummary.t;
  currentProduction : option JS
}.
End DeploymentsActionResult.

Definition ofDeployments (r : Deployments.t) : DeploymentsActionResult.t :=
  DeploymentsActionResult.mk (Deployments.deployments r) None None.

Definition vercelActionFallback : DeploymentsActionResult.t :=
  DeploymentsActionResult.mk []
    (Some (DeploymentSummary.mk 0 0 0 0)) (Some JNull).

Definition getVercelDeploymentsAction (h : Host.t) (input : VercelOptions.t)
  : IO DeploymentsActionResult.t :=
  try_catch
    (r <- fetchVercelDeployments h input ;; ret (ofDeployments r))
    (fun _ => ret vercelActionFallback).

(* ===================================================================== *)
(** * The data the dashboard page prepares ([app/sentinel/page.tsx]) *)
(* ===================================================================== *)

(** The environment variables only the page reads. *)
Module PageEnv.
Record t : Type := mk {
  GITHUB_REPO_OWNER : option string;
  GITHUB_REPO_NAME : option string;
  GITHUB_COMMIT_SHA : option string;
  VERCEL_PROJECT_ID : option string;
  VERCEL_PROJECT_NAME : option string
}.
End PageEnv.

(** [v || d] on an environment variable. *)
Definition env_or (v : option string) (d : string) : string :=
  match configured v with
  | Some s => s
  | None => d
  end.

Definition vercelProjectName (e : PageEnv.t) : string :=
  match configured (PageEnv.VERCEL_PROJECT_ID e) with
  | Some s => s
  | None => env_or (PageEnv.VERCEL_PROJECT_NAME e) "demo-project"
  end.

(** A normalized deployment as the object the client built: these seven
    own keys and no others. *)
Definition deploymentObject (d : Deployment.t) : JS :=
  JObj [("id", Deployment.id d);
        ("projectName", JStr (Deployment.projectName d));
        ("status", Deployment.status d);
        ("url", JStr (Deployment.url d));
        ("createdAt", JStr (Deployment.createdAt d));
        ("commitSha", Deployment.commitSha d);
        ("branch", Deployment.branch d)].

Module RollbackData.
Record t : Type := mk {
  deploymentId : JS;
  projectName : string;
  targetVersion : JS;
  reason : string
}.
End RollbackData.

(** [rollbackData], from [latestDeployment = deploymentsData.deployments[0]]. *)
Definition rollbackData (e : PageEnv.t) (deploymentsData : Deployments.t)
  : RollbackData.t :=
  let latest :=
    match Deployments.deployments deploymentsData with
    | d :: _ => Some d
    | [] => None
    end in
  RollbackData.mk
    (or_else match latest with
             | Some d => Deployment.id d
             | None => JUndefined
             end (JStr "dpl_demo"))
    (vercelProjectName e)
    (or_else match latest with
             | Some d => JStr (Deployment.url d)
             | None => JUndefined
             end (JStr ""))
    "Monitoring for potential rollback scenarios".

Inductive VitalsStatus : Type := alert | victory.

(** The value of the "Active Incidents" metric and of the "Active Alerts"
    tile. *)
Definition activeIncidents (threatData : SentryResult.t) : nat :=
  IssueSummary.critical (SentryResult.summary threatData)
  + IssueSummary.warning (SentryResult.summary threatData).

(** [threatData.summary.critical > 0 ? "alert" : "victory"] *)
Definition vitalsStatus (threatData : SentryResult.t) : VitalsStatus :=
  if (0 <? IssueSummary.critical (SentryResult.summary threatData))%nat
  then alert else victory.

Inductive EventStatus : Type := event_completed | event_failed | event_in_progress.

Module TimelineEvent.
Record t : Type := mk {
  title : JS;
  description : JS;
  timestamp : JS;
  status : EventStatus;
  meta : JS
}.
End TimelineEvent.

(** [issue.severity.toUpperCase()] *)
Definition severityUpper (s : Severity) : string :=
  match s with
  | critical => "CRITICAL"
  | warning => "WARNING"
  | resolved => "RESOLVED"
  end.

(** The separator of the description: a space, U+2022 and a space. *)
Definition bullet : string :=
  String (Ascii.ascii_of_nat 32)
    (String (Ascii.ascii_of_nat 226)
       (String (Ascii.ascii_of_nat 128)
          (String (Ascii.ascii_of_nat 162)
             (String (Ascii.ascii_of_nat 32) EmptyString)))).

(** The arrow function given to [threatData.issues.slice(0, 3).map].  Its
    two templates are written with [toString]: this is their text when
    [issue.count] and [issue.affectedUsers] convert to text, and the case
    in which one does not, where the page throws, is not told apart. *)
Definition issueEvent (issue : Issue.t) : TimelineEvent.t :=
  TimelineEvent.mk
    (Issue.title issue)
    (JStr (Issue.project issue ++ bullet ++ severityUpper (Issue.severity issue)
             ++ bullet ++ toString (Issue.count issue) ++ " events"))
    (Issue.lastSeen issue)
    (match Issue.severity issue with
     | resolved => event_completed
     | _ => event_failed
     end)
    (JStr (toString (Issue.affectedUsers issue) ++ " users affected")).

(** The arrow function given to [(deploymentsData.deployments || [])
    .slice(0, 2).map], on [deploy: any].  Its [try] block cannot throw on
    an object: a date that does not parse gives the current time. *)
Definition deploymentEvent (h : Host.t) (deploy : JS)
  : Outcome TimelineEvent.t :=
  let! created := get deploy "created" in
  let timestamp :=
    if truthy created then
      match Host.toISOString h created with
      | Some iso => iso
      | None => Host.now h
      end
    else Host.now h in
  let! target := get deploy "target" in
  let! name := get deploy "name" in
  let! state := get deploy "state" in
  let! creator := get deploy "creator" in
  let! username := get_opt creator "username" in
  Ok (TimelineEvent.mk
        (JStr ("Deployment to " ++ toString (or_else target (JStr "production"))))
        (or_else name (JStr "Deployment"))
        (JStr timestamp)
        (if is_string state "READY" then event_completed else event_in_progress)
        (or_else username (JStr "System"))).

(** The two operands of the spread in [timelineData.events], before the
    page sorts their concatenation by timestamp. *)
Definition issueEvents (threatData : SentryResult.t) : list TimelineEvent.t :=
  map issueEvent (firstn 3 (SentryResult.issues threatData)).

Definition deploymentEvents (h : Host.t) (deploymentsData : Deployments.t)
  : Outcome (list TimelineEvent.t) :=
  mapM (deploymentEvent h)
    (map deploymentObject (firstn 2 (Deployments.deployments deploymentsData))).

(** The three reads of the page, in order. *)
Module PageData.
Record t : Type := mk {
  threatData : SentryResult.t;
  diffData : CommitDiff.t;
  deploymentsData : Deployments.t
}.
End PageData.

Definition pageReads (rev : Revision) (h : Host.t) (e : PageEnv.t)
  : IO PageData.t :=
  threatData <- fetchSentryIssues rev h (SentryOptions.mk None None (Some 10%Z)) ;;
  diffData <-
    fetchGitHubCommitDiff rev h
      (GitHubOptions.mk (env_or (PageEnv.GITHUB_REPO_OWNER e) "vercel")
         (env_or (PageEnv.GITHUB_REPO_NAME e) "next.js")
         (env_or (PageEnv.GITHUB_COMMIT_SHA e) "main") None) ;;
  deploymentsData <-
    try_catch
      (fetchVercelDeployments h (VercelOptions.mk (vercelProjectName e) (Some 5%Z)))
      (fun _ => ret (Deployments.mk [])) ;;
  ret (PageData.mk threatData diffData deploymentsData).

(* ===================================================================== *)
(** * Further properties *)
(* ===================================================================== *)

(** ** The requests each operation makes *)

Definition sentryRequest (authToken org project : string) : Request :=
  mkRequest "GET" (sentryUrl org project) (bearer authToken).

(** The requests [fetchSentryIssues] makes: none without credentials, one
    with them. *)
Definition sentryCalls (h : Host.t) (options : SentryOptions.t) : list Request :=
  match configured (Host.SENTRY_AUTH_TOKEN h),
        configured (Host.SENTRY_ORG h),
        sentryProject h options with
  | Some authToken, Some org, Some project =>
      [sentryRequest authToken org project]
  | _, _, _ => []
  end.

Definition githubRequest (options : GitHubOptions.t) (token : string) : Request :=
  mkRequest "GET" (commitUrl options)
    [("Authorization", "token " ++ token);
     ("Accept", "application/vnd.github.v3+json")].

Definition githubCalls (h : Host.t) (options : GitHubOptions.t) : list Request :=
  match configured (Host.GITHUB_TOKEN h) with
  | Some token => [githubRequest options token]
  | None => []
  end.

Definition listRequest (h : Host.t) (options : VercelOptions.t)
    (token : string) : Request :=
  mkRequest "GET" (deploymentsUrl h options) (bearer token).

Definition vercelCalls (h : Host.t) (options : VercelOptions.t) : list Request :=
  match configured (Host.VERCEL_TOKEN h) with
  | Some token => [listRequest h options token]
  | None => []
  end.

(** The one deployment of the mock listing. *)
Definition mockDeployment (h : Host.t) (projectName : string) : Deployment.t :=
  Deployment.mk (JStr "dpl_mock_current") projectName (JStr "READY")
    ("https://" ++ projectName ++ ".vercel.app") (Host.now h)
    (JStr "mock_sha_123") (JStr "main").

(** The list request of a rollback was answered by a failure: the call
    threw, or the answer was not 2xx. *)
Definition listing_failed (w : World) (log : list Request) (r : Request) : Prop :=
  (exists e, w log r = Throw e)
  \/ (exists response, w log r = Ok response /\ ok response = false).

(** A world in which only promote calls (POST) are answered. *)
Definition list_down_promote_up : World :=
  fun _ r =>
    if String.eqb (req_method r) "POST"
    then Ok (mkResponse true 200 "OK" (Ok (JObj [])))
    else Throw (JsError "TypeError" "fetch failed").

(** A world in which the list is served and the promote is refused. *)
Definition promote_refused (body : JS) : World :=
  fun _ r =>
    if String.eqb (req_method r) "POST"
    then Ok (mkResponse false 403 "Forbidden" (Ok JNull))
    else Ok (mkResponse true 200 "OK" (Ok body)).

(** ** The page *)

(** What every deployment event of the timeline looks like. *)
Definition placeholderEvent (h : Host.t) : TimelineEvent.t :=
  TimelineEvent.mk (JStr "Deployment to production") (JStr "Deployment")
    (JStr (Host.now h)) event_in_progress (JStr "System").

Definition is_critical (i : Issue.t) : bool := is_severity critical i.

Definition bare_page : PageEnv.t := PageEnv.mk None None None None None.

(** ** Patches *)

(** A line that gives a record: it starts with [+], [-] or a space. *)
Definition is_change_line (line : string) : bool :=
  Str.startsWith line "+" || Str.startsWith line "-" || Str.startsWith line " ".

(** The character a record's line started with. *)
Definition marker (t : ChangeType) : ascii :=
  match t with
  | add => "+"
  | remove => "-"
  | context => " "
  end%char.

(** The line a record was read from. *)
Definition line_of (c : ChangeLine.t) : string :=
  String (marker (ChangeLine.type c)) (ChangeLine.content c).

(** A record after which the counter has moved on. *)
Definition advances (c : ChangeLine.t) : bool :=
  match ChangeLine.type c with
  | remove => false
  | _ => true
  end.

(** A string without a line feed. *)
Definition one_line (s : string) : bool :=
  forallb (fun a => negb (Ascii.eqb a Str.LF)) (list_ascii_of_string s).

(** [",b"] or nothing: the optional line count of a hunk header. *)
Definition opt_count (b : option N) : string :=
  match b with
  | Some n => "," ++ Str.decimal (Z.of_N n)
  | None => ""
  end.

(** The text of a hunk header. *)
Definition hunkHeader (a : N) (b : option N) (c : N) (d : option N)
    (tail : string) : string :=
  "@@ -" ++ Str.decimal (Z.of_N a) ++ opt_count b ++ " +"
    ++ Str.decimal (Z.of_N c) ++ opt_count d ++ " @@" ++ tail.

(** ** Advisories and languages *)

(** The four texts [analyzeChanges] can push. *)
Definition debugAdvisory : string :=
  "Debug logging statement added - consider removing before production".
Definition todoAdvisory : string :=
  "TODO/FIXME comments found - incomplete work may exist".
Definition anyAdvisory : string :=
  "TypeScript 'any' type used - consider using specific types".
Definition noIssuesAdvisory : string :=
  "No obvious issues detected - changes appear safe".

(** [needle] occurs somewhere in [hay]. *)
Definition occurs_in (needle hay : string) : Prop :=
  exists before after, hay = before ++ needle ++ after.

(** Some added line of [changes] contains [needle]. *)
Definition added_line_has (changes : list ChangeLine.t) (needle : string) : Prop :=
  exists c,
    In c changes /\ ChangeLine.type c = add
    /\ occurs_in needle (ChangeLine.content c).

(** A string in which the character [c] does not occur. *)
Definition without (c : ascii) (s : string) : bool :=
  forallb (fun a => negb (Ascii.eqb a c)) (list_ascii_of_string s).

(** The extension table of [getLanguageFromFilename]. *)
Definition languages : list (string * string) :=
  [("ts", "typescript"); ("tsx", "typescript"); ("js", "javascript");
   ("jsx", "javascript"); ("py", "python"); ("go", "go"); ("java", "java");
   ("rb", "ruby"); ("php", "php"); ("css", "css"); ("html", "html")].

(** ** Sentry responses *)




(** Twelve well-formed issues followed by a [null]. *)
Definition twelve_and_null : list JS :=
  (repeat (JObj [("id", JStr "1"); ("level", JStr "error"); ("count", JNum 1)]) 12
   ++ [JNull])%list.

(** A limit of two issues. *)
Definition two_at_most : SentryOptions.t :=
  SentryOptions.mk None None (Some 2%Z).


(** ** Vercel responses *)

(** Vercel answered the listing with 2xx and a body whose [deployments]
    is this array. *)
Definition vercel_served (h : Host.t) (options : VercelOptions.t)
    (w : World) (log : list Request) (items : list JS) : Prop :=
  exists token response data,
    configured (Host.VERCEL_TOKEN h) = Some token
    /\ w log (listRequest h options token) = Ok response
    /\ ok response = true
    /\ json response = Ok data
    /\ get data "deployments" = Ok (JArr items).

(** The record is an object (or any value but [null] and [undefined])
    whose [created] the host can print as a date. *)
Definition datable (h : Host.t) (dep : JS) : bool :=
  negb (nullish dep)
  && match Host.toISOString h (field "created" dep) with
     | Some _ => true
     | None => false
     end.

(** The record can be listed: it is datable and its [url] converts to
    text. *)
Definition listable (h : Host.t) (dep : JS) : bool :=
  datable h dep && printable (field "url" dep).

(** A record of the payload, field by field. *)
Definition deploymentView (h : Host.t) (options : VercelOptions.t) (dep : JS)
  : Deployment.t :=
  Deployment.mk (field "uid" dep) (VercelOptions.projectName options)
    (field "state" dep)
    ("https://" ++ toString (field "url" dep))
    match Host.toISOString h (field "created" dep) with
    | Some iso => iso
    | None => EmptyString
    end
    (field "githubCommitSha" (field "meta" dep))
    (field "githubCommitRef" (field "meta" dep)).

(** A listing whose record has an object with a [toString] entry for its
    [url]. *)
Definition object_url_listing : list JS :=
  [JObj [("uid", JStr "dpl_1"); ("state", JStr "READY");
         ("url", JObj [("toString", JNum 1)]); ("created", JNum 1)]].

(** A listing whose second record has no [created]. *)
Definition undated_listing : list JS :=
  [JObj [("uid", JStr "dpl_2"); ("state", JStr "READY");
         ("url", JStr "web-2.vercel.app"); ("created", JNum 2)];
   JObj [("uid", JStr "dpl_1"); ("state", JStr "READY");
         ("url", JStr "web-1.vercel.app")]].

(** ** GitHub responses *)

(** GitHub answered the commit request with 2xx and this body. *)
Definition github_served (h : Host.t) (options : GitHubOptions.t)
    (w : World) (log : list Request) (commitData : JS) : Prop :=
  exists token response,
    configured (Host.GITHUB_TOKEN h) = Some token
    /\ w log (githubRequest options token) = Ok response
    /\ ok response = true
    /\ json response = Ok commitData.

(** The file asked for is not among [files]; with no file asked for,
    [files] is empty. *)
Definition file_missing (options : GitHubOptions.t) (files : list JS) : Prop :=
  match configured (GitHubOptions.fileName options) with
  | Some name =>
      Forall (fun f => is_string (field "filename" f) name = false) files
  | None => files = []
  end.

(** [sample_commit], asking for a file. *)
Definition sample_commit_file (name : string) : GitHubOptions.t :=
  GitHubOptions.mk "vercel" "next.js" "main" (Some name).

(** Twenty context lines and then an added [console.log]. *)
Definition late_debug_patch : string :=
  "@@ -1,20 +1,21 @@"
    ++ String.concat EmptyString (repeat (String Str.LF " x") 20)
    ++ String Str.LF "+console.log(x)".

(* ===================================================================== *)
(** * Verification *)
(* ===================================================================== *)

(** ** Generic facts about [try]/[catch] *)

(** A [try] whose [catch] returns a value always returns: either what the
    body returned, or what the handler made of the exception. *)
Lemma try_catch_returns {A} (body : IO A) (recover : Exn -> A) w log :
  exists a log',
    try_catch body (fun e => ret (recover e)) w log = (Ok a, log')
    /\ (body w log = (Ok a, log')
        \/ exists e, body w log = (Throw e, log') /\ a = recover e).
Proof.
  unfold try_catch, ret.
  destruct (body w log) as [[a | e] log'].
  - exists a, log'. split; [reflexivity | now left].
  - exists (recover e), log'. split; [reflexivity | right; now exists e].
Qed.

Lemma bind_Ok_inv {A B} (c : IO A) (k : A -> IO B) w log b log2 :
  bind c k w log = (Ok b, log2) ->
  exists a log1, c w log = (Ok a, log1) /\ k a w log1 = (Ok b, log2).
Proof.
  unfold bind. destruct (c w log) as [[a | e] log1]; intro H.
  - now exists a, log1.
  - discriminate.
Qed.

Lemma obind_Ok_inv {A B} (c : Outcome A) (k : A -> Outcome B) b :
  obind c k = Ok b -> exists a, c = Ok a /\ k a = Ok b.
Proof.
  destruct c as [a | e]; simpl; intro H; [now exists a | discriminate].
Qed.

(** Inversion of a successful run, one [bind] at a time. *)
Ltac invert_ok H :=
  repeat match type of H with
    | bind _ _ _ _ = (Ok _, _) =>
        let a := fresh "a" in
        let l := fresh "log" in
        let H1 := fresh "Hstep" in
        apply bind_Ok_inv in H; destruct H as (a & l & H1 & H)
    | obind _ _ = Ok _ =>
        let a := fresh "v" in
        let H1 := fresh "Hget" in
        apply obind_Ok_inv in H; destruct H as (a & H1 & H)
    end.

(** ** The rollback result *)

Lemma rollback_try_terminal h options token w log r log' :
  executeVercelRollback_try h options token w log = (Ok r, log') ->
  terminal r.
Proof.
  unfold executeVercelRollback_try. intro H. invert_ok H.
  destruct (find _ _) as [target | ]; [ | discriminate].
  invert_ok H.
  destruct (negb (ok a1)); [discriminate | ].
  invert_ok H.
  inversion H; subst. split; simpl; intro E; [now split | discriminate].
Qed.

Lemma rollbackFailure_terminal h options e : terminal (rollbackFailure h options e).
Proof. split; simpl; intro E; [discriminate | now split]. Qed.

Lemma mockRollback_terminal h options : terminal (getMockRollbackResult h options).
Proof. split; simpl; intro E; [now split | discriminate]. Qed.

(** [executeVercelRollback] returns on every path, and what it returns is
    terminal. *)
Lemma executeVercelRollback_returns h options w log :
  exists r log',
    executeVercelRollback h options w log = (Ok r, log') /\ terminal r.
Proof.
  unfold executeVercelRollback.
  destruct (configured (Host.VERCEL_TOKEN h)) as [token | ].
  - destruct (try_catch_returns (executeVercelRollback_try h options token)
                (rollbackFailure h options) w log)
      as (r & log' & Hrun & [Hok | (e & _ & ->)]).
    + exists r, log'. split; [exact Hrun | ].
      eapply rollback_try_terminal; eassumption.
    + eexists _, log'. split; [exact Hrun | apply rollbackFailure_terminal].
  - exists (getMockRollbackResult h options), log.
    split; [reflexivity | apply mockRollback_terminal].
Qed.

(** The [catch] branch of the server action, if it ever ran, would return
    an object outside the invariant: it carries neither [status] nor
    [progress]. *)
Lemma actionFailure_not_terminal h input e : ~ terminal (actionFailure h input e).
Proof. intros [_ H]. destruct (H eq_refl) as [H1 _]. discriminate. Qed.

(** C1: for every input and every behaviour of the services,
    [executeVercelRollback] returns a result, and so does the server action
    [executeVercelRollbackAction] that wraps it; in both cases
    [success = true] comes with [status = completed] and [progress = 100],
    [success = false] comes with [status = failed] and [progress = 0], and
    the action returns exactly what the client returned (its own [catch]
    branch never runs). *)
Theorem rollback_result_is_terminal :
  forall (h : Host.t) (options : RollbackOptions.t) (input : RollbackInput.t)
         (w : World) (log : list Request),
    (exists r log',
        executeVercelRollback h options w log = (Ok r, log') /\ terminal r)
    /\ (exists r log',
        executeVercelRollbackAction h input w log = (Ok r, log')
        /\ terminal r
        /\ executeVercelRollback h
             (RollbackOptions.mk (RollbackInput.deploymentId input)
                (RollbackInput.projectName input) None None) w log
           = (Ok r, log')).
Proof.
  intros h options input w log. split.
  - apply executeVercelRollback_returns.
  - destruct (executeVercelRollback_returns h
                (RollbackOptions.mk (RollbackInput.deploymentId input)
                   (RollbackInput.projectName input) None None) w log)
      as (r & log' & Hrun & Hterm).
    exists r, log'. unfold executeVercelRollbackAction, try_catch.
    rewrite Hrun. auto.
Qed.

(** ** Rollback without a token *)

(** C10: when [VERCEL_TOKEN] is missing, [executeVercelRollback] makes no
    request (the log of calls is unchanged) and still returns
    [success = true], [status = completed], [progress = 100] and
    [previousDeploymentId = "dpl_mock_previous"]. *)
Theorem rollback_without_token_reports_success :
  forall (h : Host.t) (options : RollbackOptions.t) (w : World)
         (log : list Request),
    configured (Host.VERCEL_TOKEN h) = None ->
    exists r,
      executeVercelRollback h options w log = (Ok r, log)
      /\ RollbackResult.success r = true
      /\ RollbackResult.status r = Some completed
      /\ RollbackResult.progress r = Some 100%Z
      /\ RollbackResult.previousDeploymentId r = Some (JStr "dpl_mock_previous")
      /\ RollbackResult.deploymentId r = RollbackOptions.deploymentId options.
Proof.
  intros h options w log Htoken. unfold executeVercelRollback.
  rewrite Htoken. exists (getMockRollbackResult h options).
  repeat split.
Qed.

Lemma rollback_without_token_witness :
  exists r,
    executeVercelRollback bare_host sample_rollback offline [] = (Ok r, [])
    /\ RollbackResult.success r = true
    /\ RollbackResult.status r = Some completed
    /\ RollbackResult.progress r = Some 100%Z
    /\ RollbackResult.previousDeploymentId r = Some (JStr "dpl_mock_previous")
    /\ RollbackResult.deploymentId r = "dpl_current".
Proof.
  apply (rollback_without_token_reports_success bare_host sample_rollback offline []).
  reflexivity.
Defined.

(** ** Sentry without credentials *)

(** With a credential missing, either revision returns its mock and leaves
    the log of calls as it was. *)
Lemma fetchSentryIssues_unconfigured rev h options w log :
  sentry_credentials_missing h options ->
  fetchSentryIssues rev h options w log = (Ok (getMockSentryData rev h), log).
Proof.
  unfold sentry_credentials_missing, fetchSentryIssues.
  intros [H | [H | H]]; rewrite H.
  - reflexivity.
  - now destruct (configured (Host.SENTRY_AUTH_TOKEN h)).
  - now destruct (configured (Host.SENTRY_AUTH_TOKEN h)),
                 (configured (Host.SENTRY_ORG h)).
Qed.

(** C9, as stated, fails on part_001: with nothing configured its mock
    summary is not [warning = 1], [critical = 0]. *)
Lemma unconfigured_mock_summary_counterexample :
  ~ (exists r,
        result_of (fetchSentryIssues part_001 bare_host no_options) offline = Ok r
        /\ IssueSummary.warning (SentryResult.summary r) = 1
        /\ IssueSummary.critical (SentryResult.summary r) = 0).
Proof.
  intros (r & Hrun & Hwarning & _).
  unfold result_of in Hrun. simpl in Hrun.
  inversion Hrun; subst. simpl in Hwarning. discriminate.
Qed.

(** C9, amended: with a Sentry credential missing, [fetchSentryIssues]
    makes no request and returns the mock of its revision; the summary of
    that mock has [warning = 1], [critical = 0] in part_000 and
    [critical = 1], [warning = 0], [totalEvents = 6] in part_001. *)
Theorem unconfigured_sentry_returns_mock :
  forall (h : Host.t) (options : SentryOptions.t) (w : World)
         (log : list Request),
    sentry_credentials_missing h options ->
    (exists r,
        fetchSentryIssues part_000 h options w log = (Ok r, log)
        /\ r = getMockSentryData_000 h
        /\ IssueSummary.warning (SentryResult.summary r) = 1
        /\ IssueSummary.critical (SentryResult.summary r) = 0)
    /\ (exists r,
        fetchSentryIssues part_001 h options w log = (Ok r, log)
        /\ r = getMockSentryData_001 h
        /\ IssueSummary.critical (SentryResult.summary r) = 1
        /\ IssueSummary.warning (SentryResult.summary r) = 0
        /\ IssueSummary.totalEvents (SentryResult.summary r) = JNum 6).
Proof.
  intros h options w log Hmissing. split.
  - exists (getMockSentryData_000 h).
    rewrite (fetchSentryIssues_unconfigured part_000 h options w log Hmissing).
    repeat split.
  - exists (getMockSentryData_001 h).
    rewrite (fetchSentryIssues_unconfigured part_001 h options w log Hmissing).
    repeat split.
Qed.

Lemma unconfigured_sentry_witness :
  sentry_credentials_missing bare_host no_options
  /\ (exists r,
        fetchSentryIssues part_000 bare_host no_options offline [] = (Ok r, [])
        /\ r = getMockSentryData_000 bare_host
        /\ IssueSummary.warning (SentryResult.summary r) = 1
        /\ IssueSummary.critical (SentryResult.summary r) = 0)
  /\ (exists r,
        fetchSentryIssues part_001 bare_host no_options offline [] = (Ok r, [])
        /\ r = getMockSentryData_001 bare_host
        /\ IssueSummary.critical (SentryResult.summary r) = 1
        /\ IssueSummary.warning (SentryResult.summary r) = 0
        /\ IssueSummary.totalEvents (SentryResult.summary r) = JNum 6).
Proof.
  assert (H : sentry_credentials_missing bare_host no_options)
    by (left; reflexivity).
  split; [exact H | ].
  exact (unconfigured_sentry_returns_mock bare_host no_options offline [] H).
Defined.

(** ** The regression case of [parsePatch] *)

(** C7, as stated, fails: the line numbers of the four records are not
    [5, 5, 6, 6]. *)
Lemma regression_case_counterexample :
  map ChangeLine.lineNumber (parsePatch regression_patch)
  <> map Num.Fin [5; 5; 6; 6]%Z.
Proof. vm_compute. discriminate. Qed.

(** C7, amended: on the hunk header [@@ -1,3 +5,3 @@] followed by [ a],
    [-b], [+c], [ d], [parsePatch] emits four records of types context,
    remove, add, context with line numbers [5, 6, 6, 7]: the context line
    takes 5 and advances the counter, so the removed line shows 6. *)
Theorem regression_case_line_numbers :
  parsePatch regression_patch
  = [ChangeLine.mk (Num.Fin 5) context "a"; ChangeLine.mk (Num.Fin 6) remove "b";
     ChangeLine.mk (Num.Fin 6) add "c"; ChangeLine.mk (Num.Fin 7) context "d"].
Proof. vm_compute. reflexivity. Qed.

(** ** Rollback target selection *)

Lemma fetchVercelDeployments_returns h options w log :
  exists ds log',
    fetchVercelDeployments h options w log = (Ok ds, log').
Proof.
  unfold fetchVercelDeployments.
  destruct (configured (Host.VERCEL_TOKEN h)) as [token | ].
  - destruct (try_catch_returns (fetchVercelDeployments_try h options token)
                (fun _ => getMockVercelDeployments h options) w log)
      as (ds & log' & Hrun & _).
    now exists ds, log'.
  - now exists (getMockVercelDeployments h options), log.
Qed.

Lemma find_first_match {A} (p : A -> bool) ds target :
  first_match p ds target -> find p ds = Some target.
Proof.
  intros (before & after & -> & Hbefore & Htarget).
  induction Hbefore as [ | d before Hd _ IH]; simpl.
  - now rewrite Htarget.
  - now rewrite Hd.
Qed.

Lemma find_is_first_match {A} (p : A -> bool) ds target :
  find p ds = Some target -> first_match p ds target.
Proof.
  induction ds as [ | d ds IH]; simpl; [discriminate | ].
  destruct (p d) eqn:Hd.
  - intros [= ->]. exists [], ds. auto.
  - intros H. destruct (IH H) as (before & after & -> & Hbefore & Htarget).
    exists (d :: before), after. auto.
Qed.

Lemma only_match_is_first {A} (p : A -> bool) ds target :
  filter p ds = [target] -> first_match p ds target.
Proof.
  intro H. apply find_is_first_match.
  induction ds as [ | d ds IH]; simpl in *; [discriminate | ].
  destruct (p d); [now inversion H | auto].
Qed.

Lemma no_match_find_none {A} (p : A -> bool) ds :
  filter p ds = [] -> find p ds = None.
Proof.
  induction ds as [ | d ds IH]; simpl; [reflexivity | ].
  destruct (p d); [discriminate | exact IH].
Qed.

Lemma eligible_ready_elsewhere deploymentId d :
  eligible deploymentId d = true <-> ready_elsewhere deploymentId d.
Proof.
  unfold eligible, ready_elsewhere. rewrite andb_true_iff, negb_true_iff.
  split; intros [Hid Hstatus]; split.
  - intro E. rewrite E in Hid. simpl in Hid. now rewrite String.eqb_refl in Hid.
  - destruct (Deployment.status d); try discriminate Hstatus.
    simpl in Hstatus. apply String.eqb_eq in Hstatus. now subst.
  - destruct (Deployment.id d); try reflexivity. simpl.
    apply String.eqb_neq. congruence.
  - rewrite Hstatus. reflexivity.
Qed.

Lemma eligible_not_ready_elsewhere deploymentId d :
  eligible deploymentId d = false <-> ~ ready_elsewhere deploymentId d.
Proof.
  rewrite <- eligible_ready_elsewhere.
  destruct (eligible deploymentId d); split; congruence.
Qed.

(** [find] with the predicate of the rollback gives the rollback target. *)
Lemma find_rollback_target deploymentId ds target :
  rollback_target deploymentId ds target ->
  find (eligible deploymentId) ds = Some target.
Proof.
  intros (before & after & -> & Hbefore & Htarget).
  apply find_first_match. exists before, after. split; [reflexivity | ].
  split.
  - eapply Forall_impl; [ | exact Hbefore].
    intros d Hd. now apply eligible_not_ready_elsewhere.
  - now apply eligible_ready_elsewhere.
Qed.

Lemma rollback_target_of_find deploymentId ds target :
  find (eligible deploymentId) ds = Some target ->
  rollback_target deploymentId ds target.
Proof.
  intro H. destruct (find_is_first_match _ _ _ H)
    as (before & after & -> & Hbefore & Htarget).
  exists before, after. split; [reflexivity | ]. split.
  - eapply Forall_impl; [ | exact Hbefore].
    intros d Hd. now apply eligible_not_ready_elsewhere.
  - now apply eligible_ready_elsewhere.
Qed.

Lemma find_no_rollback_target deploymentId ds :
  no_rollback_target deploymentId ds <-> find (eligible deploymentId) ds = None.
Proof.
  unfold no_rollback_target. split.
  - induction 1 as [ | d ds Hd _ IH]; cbn [find]; [reflexivity | ].
    apply eligible_not_ready_elsewhere in Hd. now rewrite Hd.
  - induction ds as [ | d ds IH]; cbn [find]; intro H; [constructor | ].
    destruct (eligible deploymentId d) eqn:Hd; [discriminate | ].
    constructor; [now apply eligible_not_ready_elsewhere | now apply IH].
Qed.

(** The three ways a rollback ends once a target is found and its id has
    been written into the promote URL. *)
Definition promoted (h : Host.t) (options : RollbackOptions.t)
    (target : Deployment.t) (answer : Outcome Response) : RollbackResult.t :=
  match answer with
  | Ok response =>
      if ok response
      then RollbackResult.mk true
             (RollbackOptions.deploymentId options)
             (Some (Deployment.id target)) (Some completed) (Some 100%Z)
             ("Successfully rolled back "
                ++ RollbackOptions.projectName options
                ++ " to deployment " ++ toString (Deployment.id target))
             (Host.now h)
      else rollbackFailure h options
             (JsError "Error" ("Vercel rollback error: " ++ statusText response))
  | Throw e => rollbackFailure h options e
  end.

(** What [executeVercelRollback] does once the list is in hand. *)
Lemma executeVercelRollback_after_listing h options token w log ds log1 :
  configured (Host.VERCEL_TOKEN h) = Some token ->
  fetchVercelDeployments h (rollbackListing options) w log = (Ok ds, log1) ->
  executeVercelRollback h options w log
  = match find (eligible (RollbackOptions.deploymentId options))
            (Deployments.deployments ds) with
    | None =>
        (Ok (rollbackFailure h options
               (JsError "Error" "No suitable deployment found for rollback")),
         log1)
    | Some target =>
        if printable (Deployment.id target)
        then (Ok (promoted h options target
                    (w log1 (promoteRequest h token target))),
              (log1 ++ [promoteRequest h token target])%list)
        else (Ok (rollbackFailure h options
                    (JsError "TypeError"
                       "Cannot convert object to primitive value")),
              log1)
    end.
Proof.
  intros Htoken Hlist.
  unfold executeVercelRollback. rewrite Htoken.
  unfold try_catch, executeVercelRollback_try, bind.
  fold (rollbackListing options). rewrite Hlist.
  destruct (find _ _) as [target | ]; [ | reflexivity].
  unfold promoteUrl, template, lift.
  destruct (printable (Deployment.id target)); [ | reflexivity].
  cbn [obind]. unfold fetch, promoteRequest, promoted.
  destruct (w log1 _) as [response | e]; [ | reflexivity].
  now destruct (ok response).
Qed.

Lemma only_target_is_first deploymentId ds target :
  only_rollback_target deploymentId ds target ->
  rollback_target deploymentId ds target.
Proof.
  intros (Hin & Hready & Honly).
  destruct (find (eligible deploymentId) ds) as [d | ] eqn:Hfind.
  - pose proof (rollback_target_of_find _ _ _ Hfind) as Hd.
    apply find_some in Hfind. destruct Hfind as [Hind Hd'].
    apply eligible_ready_elsewhere in Hd'.
    now rewrite <- (Honly d Hind Hd').
  - apply find_no_rollback_target in Hfind.
    unfold no_rollback_target in Hfind. rewrite Forall_forall in Hfind.
    now destruct (Hfind target Hin).
Qed.

(** C3: [executeVercelRollback] lists the deployments (unless no token
    is configured: then it lists nothing, selects nothing and returns the
    mock result) and takes as target the first one, in list order, whose
    id differs from [deploymentId] and whose status is ["READY"] (with
    exactly one such deployment in the list, that one).  It writes the
    target's id into the promote URL and makes the promote call; when
    that call succeeds the result has [success = true],
    [status = completed], [progress = 100] and carries the target's id as
    [previousDeploymentId].  A target whose id does not convert to text
    makes the URL template throw: no promote call is made and the result
    is a failure.  When the list has no such deployment the result is
    [success = false], [status = failed], [progress = 0], with a message
    that contains ["No suitable deployment found for rollback"], and no
    promote call is made. *)
Theorem rollback_selects_first_ready_deployment :
  forall (h : Host.t) (options : RollbackOptions.t) (w : World)
         (log : list Request),
    match configured (Host.VERCEL_TOKEN h) with
    | None =>
        executeVercelRollback h options w log
        = (Ok (getMockRollbackResult h options), log)
    | Some token =>
        exists ds log1,
          fetchVercelDeployments h (rollbackListing options) w log = (Ok ds, log1)
          /\ (forall target,
                 rollback_target (RollbackOptions.deploymentId options)
                   (Deployments.deployments ds) target ->
                 printable (Deployment.id target) = true ->
                 snd (executeVercelRollback h options w log)
                 = (log1 ++ [promoteRequest h token target])%list
                 /\ forall response,
                     w log1 (promoteRequest h token target) = Ok response ->
                     ok response = true ->
                     exists r,
                       fst (executeVercelRollback h options w log) = Ok r
                       /\ RollbackResult.success r = true
                       /\ RollbackResult.status r = Some completed
                       /\ RollbackResult.progress r = Some 100%Z
                       /\ RollbackResult.previousDeploymentId r
                          = Some (Deployment.id target))
          /\ (forall target,
                 rollback_target (RollbackOptions.deploymentId options)
                   (Deployments.deployments ds) target ->
                 printable (Deployment.id target) = false ->
                 exists r,
                   executeVercelRollback h options w log = (Ok r, log1)
                   /\ RollbackResult.success r = false
                   /\ RollbackResult.status r = Some failed
                   /\ RollbackResult.progress r = Some 0%Z
                   /\ RollbackResult.message r
                      = "Rollback failed: Cannot convert object to primitive value")
          /\ (forall target,
                 only_rollback_target (RollbackOptions.deploymentId options)
                   (Deployments.deployments ds) target ->
                 rollback_target (RollbackOptions.deploymentId options)
                   (Deployments.deployments ds) target)
          /\ (no_rollback_target (RollbackOptions.deploymentId options)
                (Deployments.deployments ds) ->
              exists r,
                executeVercelRollback h options w log = (Ok r, log1)
                /\ RollbackResult.success r = false
                /\ RollbackResult.status r = Some failed
                /\ RollbackResult.progress r = Some 0%Z
                /\ RollbackResult.message r
                   = "Rollback failed: No suitable deployment found for rollback"
                /\ Str.includes (RollbackResult.message r)
                     "No suitable deployment found for rollback" = true)
    end.
Proof.
  intros h options w log.
  destruct (configured (Host.VERCEL_TOKEN h)) as [token | ] eqn:Htoken;
    [ | unfold executeVercelRollback; now rewrite Htoken].
  destruct (fetchVercelDeployments_returns h (rollbackListing options) w log)
    as (ds & log1 & Hlist).
  exists ds, log1. split; [exact Hlist | ].
  pose proof (executeVercelRollback_after_listing h options token w log ds log1 Htoken Hlist)
    as Hrun.
  split; [ | split; [ | split]].
  - intros target Htarget Hprintable.
    rewrite (find_rollback_target _ _ _ Htarget), Hprintable in Hrun.
    rewrite Hrun. split; [reflexivity | ].
    intros response Hresponse Hok. rewrite Hresponse.
    unfold promoted. rewrite Hok.
    eexists. split; [reflexivity | ]. repeat split.
  - intros target Htarget Hprintable.
    rewrite (find_rollback_target _ _ _ Htarget), Hprintable in Hrun.
    eexists. split; [exact Hrun | ]. repeat split.
  - intros target. apply only_target_is_first.
  - intros Hnone. apply find_no_rollback_target in Hnone.
    rewrite Hnone in Hrun.
    eexists. split; [exact Hrun | ]. repeat split.
Qed.

(** The services answer every request 200 and list three deployments: the
    rollback from [dpl_current] skips it and the failed one, promotes
    [dpl_previous], and reports it. *)
Example rollback_promotes_previous :
  executeVercelRollback live_host sample_rollback (serving two_deployments) []
  = (Ok (RollbackResult.mk true "dpl_current" (Some (JStr "dpl_previous"))
           (Some completed) (Some 100%Z)
           "Successfully rolled back web to deployment dpl_previous"
           "2026-01-01T00:00:00.000Z"),
     [mkRequest "GET"
        "https://api.vercel.com/v6/deployments?projectId=web&limit=10"
        [("Authorization", "Bearer vercel-token")];
      mkRequest "POST"
        "https://api.vercel.com/v13/deployments/dpl_previous/promote"
        [("Authorization", "Bearer vercel-token")]]).
Proof. vm_compute. reflexivity. Qed.

(** A listing whose first ready deployment has an object for its id. *)
Definition object_id_listing : JS :=
  JObj [("deployments",
         JArr [JObj [("uid", JObj [("toString", JNum 1)]); ("state", JStr "READY");
                     ("url", JStr "web-1.vercel.app"); ("created", JNum 1)]])].

(** That target is selected, its id cannot be written into the promote
    URL, and the rollback fails after the list request alone. *)
Example rollback_to_object_id :
  executeVercelRollback live_host sample_rollback (serving object_id_listing) []
  = (Ok (RollbackResult.mk false "dpl_current" None (Some failed) (Some 0%Z)
           "Rollback failed: Cannot convert object to primitive value"
           "2026-01-01T00:00:00.000Z"),
     [mkRequest "GET"
        "https://api.vercel.com/v6/deployments?projectId=web&limit=10"
        [("Authorization", "Bearer vercel-token")]]).
Proof. vm_compute. reflexivity. Qed.

Lemma rollback_selection_witness :
  exists ds log1,
    fetchVercelDeployments live_host (rollbackListing sample_rollback)
      (serving two_deployments) [] = (Ok ds, log1)
    /\ (forall target,
           rollback_target "dpl_current" (Deployments.deployments ds) target ->
           printable (Deployment.id target) = true ->
           snd (executeVercelRollback live_host sample_rollback
                  (serving two_deployments) [])
           = (log1 ++ [promoteRequest live_host "vercel-token" target])%list
           /\ forall response,
               serving two_deployments log1
                 (promoteRequest live_host "vercel-token" target) = Ok response ->
               ok response = true ->
               exists r,
                 fst (executeVercelRollback live_host sample_rollback
                        (serving two_deployments) []) = Ok r
                 /\ RollbackResult.success r = true
                 /\ RollbackResult.status r = Some completed
                 /\ RollbackResult.progress r = Some 100%Z
                 /\ RollbackResult.previousDeploymentId r
                    = Some (Deployment.id target))
    /\ (forall target,
           rollback_target "dpl_current" (Deployments.deployments ds) target ->
           printable (Deployment.id target) = false ->
           exists r,
             executeVercelRollback live_host sample_rollback
               (serving two_deployments) [] = (Ok r, log1)
             /\ RollbackResult.success r = false
             /\ RollbackResult.status r = Some failed
             /\ RollbackResult.progress r = Some 0%Z
             /\ RollbackResult.message r
                = "Rollback failed: Cannot convert object to primitive value")
    /\ (forall target,
           only_rollback_target "dpl_current" (Deployments.deployments ds) target ->
           rollback_target "dpl_current" (Deployments.deployments ds) target)
    /\ (no_rollback_target "dpl_current" (Deployments.deployments ds) ->
        exists r,
          executeVercelRollback live_host sample_rollback
            (serving two_deployments) [] = (Ok r, log1)
          /\ RollbackResult.success r = false
          /\ RollbackResult.status r = Some failed
          /\ RollbackResult.progress r = Some 0%Z
          /\ RollbackResult.message r
             = "Rollback failed: No suitable deployment found for rollback"
          /\ Str.includes (RollbackResult.message r)
               "No suitable deployment found for rollback" = true).
Proof.
  exact (rollback_selects_first_ready_deployment live_host sample_rollback
           (serving two_deployments) []).
Defined.

(** ** Severity classification *)

Lemma is_string_true v lit : is_string v lit = true <-> v = JStr lit.
Proof.
  destruct v; simpl; try (split; [discriminate | intros [=]]).
  rewrite String.eqb_eq. split; [now intros -> | now intros [= ->]].
Qed.

Lemma severity_of_level_critical level :
  error_or_fatal level -> severity_of_level level = critical.
Proof. intros [-> | ->]; reflexivity. Qed.

Lemma severity_of_level_warning level :
  ~ error_or_fatal level -> severity_of_level level = warning.
Proof.
  intro H. unfold severity_of_level.
  destruct (is_string level "error") eqn:E1.
  - apply is_string_true in E1. exfalso. apply H. now left.
  - destruct (is_string level "fatal") eqn:E2; [ | reflexivity].
    apply is_string_true in E2. exfalso. apply H. now right.
Qed.

Lemma severity_of_level_not_resolved level : severity_of_level level <> resolved.
Proof.
  unfold severity_of_level.
  destruct (is_string level "error" || is_string level "fatal"); discriminate.
Qed.

Lemma transformIssue_000_fields project issue i :
  transformIssue_000 project issue = Ok i ->
  exists level count,
    get issue "level" = Ok level
    /\ get issue "count" = Ok count
    /\ Issue.severity i = severity_of_level level
    /\ Issue.count i = or_else count (JNum 0).
Proof.
  unfold transformIssue_000. intro H. invert_ok H.
  inversion H; subst; simpl. eauto 10.
Qed.

Lemma or_elseM_Ok_inv a b v :
  or_elseM a b = Ok v ->
  (truthy a = true /\ v = a) \/ (truthy a = false /\ b = Ok v).
Proof.
  unfold or_elseM. destruct (truthy a); intro H.
  - left. now inversion H.
  - now right.
Qed.

Lemma transformIssue_001_fields project issue i :
  transformIssue_001 project issue = Ok i ->
  exists level count,
    get issue "level" = Ok level
    /\ get issue "count" = Ok count
    /\ Issue.severity i = severity_of_level level
    /\ Issue.count i = or_else count (JNum 0).
Proof.
  unfold transformIssue_001. intro H. invert_ok H.
  inversion H; subst; simpl. eauto 10.
Qed.

Lemma transformIssue_fields rev project issue i :
  In rev revisions ->
  transformIssue rev project issue = Ok i ->
  exists level count,
    get issue "level" = Ok level
    /\ get issue "count" = Ok count
    /\ Issue.severity i = severity_of_level level
    /\ Issue.count i = or_else count (JNum 0).
Proof.
  intros [<- | [<- | []]]; simpl.
  - apply transformIssue_000_fields.
  - apply transformIssue_001_fields.
Qed.

(** Reading a property of anything but [undefined] and [null] returns. *)
Lemma get_returns v k : nullish v = false -> exists x, get v k = Ok x.
Proof. destruct v; simpl; intro H; try discriminate; eauto. Qed.

Lemma get_opt_returns v k : exists x, get_opt v k = Ok x.
Proof.
  unfold get_opt. destruct (nullish v) eqn:E; [eauto | now apply get_returns].
Qed.

(** The older transform returns for every issue that is not [null]. *)
Lemma transformIssue_000_returns project issue :
  nullish issue = false -> exists i, transformIssue_000 project issue = Ok i.
Proof.
  intro Hissue. unfold transformIssue_000, titleOf, or_elseM.
  destruct (get_returns issue "id" Hissue) as (id & ->).
  destruct (get_returns issue "title" Hissue) as (title & ->).
  destruct (get_returns issue "level" Hissue) as (level & ->).
  destruct (get_returns issue "count" Hissue) as (count & ->).
  destruct (get_returns issue "lastSeen" Hissue) as (lastSeen & ->).
  destruct (get_returns issue "userCount" Hissue) as (userCount & ->).
  destruct (get_returns issue "metadata" Hissue) as (metadata & ->).
  destruct (get_opt_returns metadata "type") as (type & Htype).
  destruct (get_opt_returns metadata "value") as (value & Hvalue).
  simpl. destruct (truthy title); simpl; rewrite ?Htype; simpl;
    rewrite Hvalue; simpl; eauto.
Qed.

(** C4: for every raw issue that either revision of [fetchSentryIssues]
    transforms, the severity is [critical] when the raw [level] is the
    string ["error"] or ["fatal"], and [warning] for every other level, an
    absent one included; it is never [resolved]. *)
Theorem severity_follows_level :
  forall (rev : Revision) (project : string) (issue : JS) (i : Issue.t),
    In rev revisions ->
    transformIssue rev project issue = Ok i ->
    exists level,
      get issue "level" = Ok level
      /\ (error_or_fatal level -> Issue.severity i = critical)
      /\ (~ error_or_fatal level -> Issue.severity i = warning)
      /\ (forall props, issue = JObj props -> lookup "level" props = None ->
          Issue.severity i = warning)
      /\ Issue.severity i <> resolved.
Proof.
  intros rev project issue i Hrev Hrun.
  destruct (transformIssue_fields rev project issue i Hrev Hrun)
    as (level & count & Hlevel & _ & Hseverity & _).
  exists level. rewrite Hseverity. split; [exact Hlevel | ].
  split; [apply severity_of_level_critical | ].
  split; [apply severity_of_level_warning | ].
  split; [ | apply severity_of_level_not_resolved].
  intros props -> Habsent. simpl in Hlevel. rewrite Habsent in Hlevel.
  inversion Hlevel; subst. reflexivity.
Qed.

Lemma severity_follows_level_witness :
  exists level,
    get (JObj [("id", JStr "1"); ("level", JStr "fatal")]) "level" = Ok level
    /\ (error_or_fatal level ->
        Issue.severity
          (Issue.mk (JStr "1") (JStr "Unknown error") critical (JNum 0) JUndefined
             "web" (JNum 0) (JStr "undefined (no stack trace available)"))
        = critical)
    /\ (~ error_or_fatal level ->
        Issue.severity
          (Issue.mk (JStr "1") (JStr "Unknown error") critical (JNum 0) JUndefined
             "web" (JNum 0) (JStr "undefined (no stack trace available)"))
        = warning)
    /\ (forall props,
          JObj [("id", JStr "1"); ("level", JStr "fatal")] = JObj props ->
          lookup "level" props = None ->
          Issue.severity
            (Issue.mk (JStr "1") (JStr "Unknown error") critical (JNum 0) JUndefined
               "web" (JNum 0) (JStr "undefined (no stack trace available)"))
          = warning)
    /\ Issue.severity
         (Issue.mk (JStr "1") (JStr "Unknown error") critical (JNum 0) JUndefined
            "web" (JNum 0) (JStr "undefined (no stack trace available)"))
       <> resolved.
Proof.
  apply (severity_follows_level part_001 "web"
           (JObj [("id", JStr "1"); ("level", JStr "fatal")])).
  - right; left; reflexivity.
  - reflexivity.
Defined.

(** ** The issue summary *)

Lemma mapM_Forall2 {A B} (f : A -> Outcome B) xs ys :
  mapM f xs = Ok ys -> Forall2 (fun x y => f x = Ok y) xs ys.
Proof.
  revert ys. induction xs as [ | x xs IH]; simpl; intros ys H.
  - inversion H. constructor.
  - invert_ok H. inversion H; subst. constructor; auto.
Qed.


(** Integers up to 2^53 in absolute value are doubles: rounding leaves
    them alone. *)
Lemma round53_exact z :
  (Z.abs z <= Num.exact_bound)%Z -> Num.round53 z = z.
Proof.
  unfold Num.exact_bound, Num.round53. intro Hz. cbv zeta.
  destruct (Z.eq_dec (Z.abs z) (2 ^ 53)) as [Hmax | Hbelow].
  - rewrite Hmax. change (Z.log2 (2 ^ 53) + 1 - 53 <=? 0)%Z with false.
    cbv iota.
    change (2 ^ (Z.log2 (2 ^ 53) + 1 - 53))%Z with 2%Z.
    change (2 ^ 53 mod 2)%Z with 0%Z. change (2 ^ 53 / 2)%Z with (2 ^ 52)%Z.
    change (2 * 0 <? 2)%Z with true. cbv iota.
    change (2 ^ 52 * 2)%Z with (2 ^ 53)%Z. rewrite <- Hmax.
    rewrite Z.mul_comm. apply Z.abs_sgn.
  - assert (Hlog : (Z.log2 (Z.abs z) + 1 - 53 <= 0)%Z).
    { destruct (Z.eq_dec (Z.abs z) 0) as [-> | Hpos]; [cbn; lia | ].
      assert (Z.log2 (Z.abs z) < 53)%Z; [ | lia].
      apply Z.log2_lt_pow2; lia. }
    apply Z.leb_le in Hlog. now rewrite Hlog.
Qed.

Lemma of_Z_exact z :
  (Z.abs z <= Num.exact_bound)%Z -> Num.of_Z z = Num.Fin z.
Proof.
  intro Hz. unfold Num.of_Z. cbv zeta. rewrite (round53_exact z Hz).
  replace (2 ^ 1024 <=? Z.abs z)%Z with false; [reflexivity | ].
  symmetry. apply Z.leb_gt. unfold Num.exact_bound in Hz.
  assert (2 ^ 53 < 2 ^ 1024)%Z by (apply Z.pow_lt_mono_r; lia).
  lia.
Qed.

Lemma summarize_counters issues s :
  summarize issues = Ok s ->
  IssueSummary.critical s
  = List.length (filter (is_severity critical) issues)
  /\ IssueSummary.warning s
     = List.length (filter (is_severity warning) issues)
  /\ IssueSummary.resolved s = 0
  /\ reduceM (fun sum i => Js.add sum (Issue.count i)) issues (JNum 0)
     = Ok (IssueSummary.totalEvents s).
Proof.
  unfold summarize. cbv zeta. intro H. invert_ok H.
  inversion H; subst s. cbn. auto.
Qed.

Lemma severities_partition issues :
  Forall (fun i => Issue.severity i <> resolved) issues ->
  List.length (filter (is_severity critical) issues)
  + List.length (filter (is_severity warning) issues)
  = List.length issues.
Proof.
  induction 1 as [ | i issues Hi _ IH]; [reflexivity | ].
  assert (Hi' : (is_severity critical i = true /\ is_severity warning i = false)
                \/ (is_severity critical i = false /\ is_severity warning i = true)).
  { unfold is_severity. destruct (Issue.severity i); auto; now contradiction Hi. }
  cbn [filter]. destruct Hi' as [[-> ->] | [-> ->]]; cbn [List.length]; lia.
Qed.

(** The two counters partition a list that has no resolved issue. *)
Lemma summarize_partition issues s :
  summarize issues = Ok s ->
  Forall (fun i => Issue.severity i <> resolved) issues ->
  IssueSummary.critical s + IssueSummary.warning s = List.length issues.
Proof.
  intros Hs Hall. destruct (summarize_counters issues s Hs) as (-> & -> & _).
  now apply severities_partition.
Qed.

Lemma sum_counts_nonnegative issues :
  Forall whole_count issues -> (0 <= sum_counts issues)%Z.
Proof.
  induction 1 as [ | i issues (n & Hn & Hpos) _ IH]; [cbn; lia | ].
  unfold sum_counts. cbn [fold_right]. fold (sum_counts issues).
  unfold count_number. rewrite Hn. lia.
Qed.

Lemma totalEvents_fold issues acc :
  Forall whole_count issues ->
  (0 <= acc)%Z ->
  (acc + sum_counts issues <= Num.exact_bound)%Z ->
  reduceM (fun sum i => Js.add sum (Issue.count i)) issues (JNum acc)
  = Ok (JNum (acc + sum_counts issues)).
Proof.
  intro H. revert acc.
  induction H as [ | i issues (n & Hn & Hpos) Hrest IH]; intros acc Hacc Hsum.
  - cbn. do 2 f_equal. lia.
  - pose proof (sum_counts_nonnegative issues Hrest) as Hnonneg.
    unfold sum_counts in Hsum. cbn [fold_right] in Hsum.
    fold (sum_counts issues) in Hsum.
    unfold count_number in Hsum. rewrite Hn in Hsum.
    cbn [reduceM]. rewrite Hn.
    unfold Js.add. cbn [stringy orb toNumber Num.add].
    rewrite of_Z_exact by (rewrite Z.abs_eq; lia).
    cbn [ofNumber obind]. rewrite IH by lia.
    unfold sum_counts at 2. cbn [fold_right]. fold (sum_counts issues).
    unfold count_number at 1. rewrite Hn. do 2 f_equal. lia.
Qed.

(** With whole counts that add up within 2^53, [totalEvents] is their
    arithmetic sum. *)
Lemma summarize_totalEvents_numeric issues s :
  summarize issues = Ok s ->
  exact_counts issues ->
  IssueSummary.totalEvents s = JNum (sum_counts issues).
Proof.
  intros Hs [Hwhole Hsum].
  destruct (summarize_counters issues s Hs) as (_ & _ & _ & Hfold).
  rewrite (totalEvents_fold issues 0 Hwhole) in Hfold by lia.
  now inversion Hfold.
Qed.

Lemma transformed_not_resolved rev project items issues :
  In rev revisions ->
  mapM (transformIssue rev project) items = Ok issues ->
  Forall (fun i => Issue.severity i <> resolved) issues.
Proof.
  intros Hrev H. apply mapM_Forall2 in H.
  induction H as [ | raw i items issues Hi _ IH]; [constructor | ].
  constructor; [ | exact IH].
  destruct (transformIssue_fields rev project raw i Hrev Hi)
    as (level & _ & _ & _ & -> & _).
  apply severity_of_level_not_resolved.
Qed.

(** The successful run of the [try] block of [fetchSentryIssues]. *)
Lemma fetchSentryIssues_try_Ok rev h options authToken org project w log r log' :
  fetchSentryIssues_try rev h options authToken org project w log = (Ok r, log') ->
  exists response items,
    w log (mkRequest "GET" (sentryUrl org project) (bearer authToken)) = Ok response
    /\ ok response = true
    /\ json response = Ok (JArr items)
    /\ mapM (transformIssue rev project)
         (Str.slice0 (number_or (SentryOptions.limit options) 10) items)
       = Ok (SentryResult.issues r)
    /\ summarize (SentryResult.issues r) = Ok (SentryResult.summary r)
    /\ SentryResult.timestamp r = Host.now h.
Proof.
  unfold fetchSentryIssues_try. intro H. invert_ok H.
  unfold fetch in Hstep. inversion Hstep as [[Hw Hlog]]; clear Hstep.
  destruct (ok a) eqn:Hok; simpl in H; [ | discriminate].
  invert_ok H. unfold lift in Hstep. inversion Hstep; subst; clear Hstep.
  destruct a0; try discriminate.
  invert_ok H. unfold lift in Hstep, Hstep0.
  inversion Hstep; subst; clear Hstep. inversion Hstep0; subst; clear Hstep0.
  inversion H; subst; simpl.
  exists a, items. repeat split; auto.
Qed.

(** [fetchSentryIssues] returns on every path: the mock of its revision, or
    the transformed issues of a 2xx array response with their summary. *)
Lemma fetchSentryIssues_cases rev h options w log :
  exists r log',
    fetchSentryIssues rev h options w log = (Ok r, log')
    /\ (r = getMockSentryData rev h
        \/ exists project items,
            mapM (transformIssue rev project) items = Ok (SentryResult.issues r)
            /\ summarize (SentryResult.issues r) = Ok (SentryResult.summary r)
            /\ SentryResult.timestamp r = Host.now h).
Proof.
  unfold fetchSentryIssues.
  destruct (configured (Host.SENTRY_AUTH_TOKEN h)) as [authToken | ];
    [ | exists (getMockSentryData rev h), log; auto].
  destruct (configured (Host.SENTRY_ORG h)) as [org | ];
    [ | exists (getMockSentryData rev h), log; auto].
  destruct (sentryProject h options) as [project | ];
    [ | exists (getMockSentryData rev h), log; auto].
  destruct (try_catch_returns
              (fetchSentryIssues_try rev h options authToken org project)
              (fun _ => getMockSentryData rev h) w log)
    as (r & log' & Hrun & [Hok | (e & _ & ->)]).
  - exists r, log'. split; [exact Hrun | right].
    apply fetchSentryIssues_try_Ok in Hok.
    destruct Hok as (response & items & _ & _ & _ & Hmap & Hsummary & Htime).
    exists project, (Str.slice0 (number_or (SentryOptions.limit options) 10) items).
    auto.
  - eexists _, log'. split; [exact Hrun | now left].
Qed.

(** What does hold of every summary [fetchSentryIssues] returns: the two
    counters add up to the number of issues, [resolved] is 0, and with
    whole counts that add up within 2^53 [totalEvents] is their sum. *)
Lemma fetched_summary rev h options w log r log' :
  In rev revisions ->
  fetchSentryIssues rev h options w log = (Ok r, log') ->
  IssueSummary.critical (SentryResult.summary r)
    + IssueSummary.warning (SentryResult.summary r)
  = List.length (SentryResult.issues r)
  /\ IssueSummary.resolved (SentryResult.summary r) = 0
  /\ (exact_counts (SentryResult.issues r) ->
      IssueSummary.totalEvents (SentryResult.summary r)
      = JNum (sum_counts (SentryResult.issues r))).
Proof.
  intros Hrev Hrun.
  destruct (fetchSentryIssues_cases rev h options w log)
    as (r0 & log0 & Hrun0 & Hcases).
  rewrite Hrun in Hrun0. inversion Hrun0; subst r0 log0; clear Hrun0.
  destruct Hcases as [-> | (project & items & Hmap & Hsummary & _)].
  - destruct Hrev as [<- | [<- | []]]; simpl; repeat split.
  - split; [ | split].
    + apply (summarize_partition _ _ Hsummary).
      eapply transformed_not_resolved; eassumption.
    + now destruct (summarize_counters _ _ Hsummary) as (_ & _ & H0 & _).
    + now apply summarize_totalEvents_numeric.
Qed.

(** C5, on a response whose counts are strings (as Sentry sends them):
    both revisions return the two issues with their counts untouched, the
    severity counters add up to the number of issues and [resolved] is 0,
    but [totalEvents] is the text ["0613"], the concatenation of [0], ["6"]
    and ["13"], not the sum 19. *)
Theorem string_counts_are_concatenated :
  Forall
    (fun rev =>
       exists r,
         result_of (fetchSentryIssues rev live_host no_options)
           (serving string_count_body) = Ok r
         /\ map Issue.count (SentryResult.issues r) = [JStr "6"; JStr "13"]
         /\ IssueSummary.critical (SentryResult.summary r)
              + IssueSummary.warning (SentryResult.summary r)
            = List.length (SentryResult.issues r)
         /\ IssueSummary.resolved (SentryResult.summary r) = 0
         /\ IssueSummary.totalEvents (SentryResult.summary r) = JStr "0613")
    revisions.
Proof.
  repeat constructor; eexists; (split; [vm_compute; reflexivity | ]);
    repeat split.
Qed.

(** The same response with numeric counts sums to 19. *)
Example numeric_counts_are_summed :
  Forall
    (fun rev =>
       exists r,
         result_of (fetchSentryIssues rev live_host no_options)
           (serving numeric_count_body) = Ok r
         /\ IssueSummary.totalEvents (SentryResult.summary r) = JNum 19)
    revisions.
Proof.
  repeat constructor; eexists; (split; [vm_compute; reflexivity | ]);
    reflexivity.
Qed.

(** ** The stack-trace fallback chain *)

(** A conversion that succeeds gives the text of [toString]. *)
Lemma template_Ok v text : template v = Ok text -> text = toString v.
Proof.
  unfold template. destruct (printable v); [now intros [= <-] | discriminate].
Qed.

Lemma template_printable v :
  printable v = true -> template v = Ok (toString v).
Proof. unfold template. now intros ->. Qed.

Lemma template_unprintable v :
  printable v = false ->
  template v = TypeError "Cannot convert object to primitive value".
Proof. unfold template. now intros ->. Qed.

Lemma get_field v k x : get v k = Ok x -> field k v = x.
Proof.
  intro H. unfold field, get_opt.
  destruct (nullish v) eqn:E; [ | now rewrite H].
  destruct v; try discriminate E; discriminate H.
Qed.

Lemma get_opt_field v k x : get_opt v k = Ok x -> field k v = x.
Proof. intro H. unfold field. now rewrite H. Qed.

Lemma formatFrame_frame_line frame line :
  formatFrame frame = Ok line -> line = frame_line frame.
Proof.
  unfold formatFrame. intro H. invert_ok H.
  inversion H; subst. unfold frame_line.
  rewrite (get_field _ _ _ Hget), (get_field _ _ _ Hget1),
    (get_field _ _ _ Hget3), (get_field _ _ _ Hget5).
  now rewrite (template_Ok _ _ Hget0), (template_Ok _ _ Hget2),
    (template_Ok _ _ Hget4), (template_Ok _ _ Hget6).
Qed.

Lemma mapM_formatFrame frames lines :
  mapM formatFrame frames = Ok lines -> lines = map frame_line frames.
Proof.
  intro H. apply mapM_Forall2 in H.
  induction H as [ | f l fs ls Hf _ IH]; simpl; [reflexivity | ].
  now rewrite (formatFrame_frame_line f l Hf), IH.
Qed.

Lemma findM_exception_entry entries r :
  findM is_exception_entry entries = Ok r ->
  find (fun e => is_string (field "type" e) "exception") entries = r.
Proof.
  induction entries as [ | e entries IH]; simpl; intro H.
  - now inversion H.
  - invert_ok H. unfold is_exception_entry in Hget. invert_ok Hget.
    inversion Hget; subst. rewrite (get_field _ _ _ Hget0).
    destruct (is_string v0 "exception"); [now inversion H | auto].
Qed.

(** A falsy value has no array of frames. *)
Lemma falsy_has_no_frames v :
  truthy v = false -> match field "frames" v with JArr _ => False | _ => True end.
Proof.
  destruct v as [ | | [ | ] | n | | s | items | props | name | negative]; simpl;
    try discriminate; try (intros _; exact I).
Qed.

Lemma extractStackTrace_chain issue st :
  extractStackTrace issue = Ok st ->
  or_else st (no_stack_trace issue) = chain_stackTrace issue.
Proof.
  unfold extractStackTrace, chain_stackTrace. intro H. invert_ok H.
  rewrite (get_field _ _ _ Hget), (get_opt_field _ _ _ Hget0).
  destruct (truthy v0) eqn:Hvalue.
  { inversion H; subst. unfold or_else. now rewrite Hvalue. }
  invert_ok H. rewrite (get_field _ _ _ Hget1).
  destruct (truthy v1) eqn:Hculprit.
  { invert_ok H. rewrite (template_Ok _ _ Hget2) in H.
    inversion H; subst. reflexivity. }
  invert_ok H. unfold exception_entry.
  rewrite (get_field _ _ _ Hget2), (get_opt_field _ _ _ Hget3).
  destruct (truthy v3) eqn:Hentries.
  2: { inversion H; subst. destruct v3; try reflexivity. discriminate Hentries. }
  invert_ok H. destruct v3; try discriminate Hget4.
  simpl in Hget4. invert_ok Hget4.
  rewrite (findM_exception_entry _ _ Hget9).
  inversion Hget4; subst v4; clear Hget4.
  destruct v3 as [entry | ].
  2: { simpl in *. inversion Hget5; subst. inversion Hget6; subst.
       inversion Hget7; subst. inversion Hget8; subst. simpl in H.
       inversion H; subst. reflexivity. }
  unfold rendered_frames, frames_of.
  rewrite (get_opt_field _ _ _ Hget5), (get_opt_field _ _ _ Hget6),
    (get_opt_field _ _ _ Hget7), (get_opt_field _ _ _ Hget8).
  destruct (truthy v8) eqn:Hstacktrace.
  - invert_ok H. rewrite (get_field _ _ _ Hget4).
    unfold or_else in H. destruct (truthy v3) eqn:Hframes.
    + destruct v3; try discriminate H. simpl in H. invert_ok H.
      inversion H; subst st. rewrite (mapM_formatFrame _ _ Hget10).
      unfold or_else. simpl.
      now destruct (String.eqb _ "").
    + simpl in H. inversion H; subst st.
      destruct v3; try discriminate Hframes; reflexivity.
  - inversion H; subst st.
    pose proof (falsy_has_no_frames v8 Hstacktrace) as Hnone.
    destruct (field "frames" v8); try contradiction; reflexivity.
Qed.

Lemma transformIssue_001_stackTrace project issue i :
  transformIssue_001 project issue = Ok i ->
  Issue.stackTrace i = chain_stackTrace issue.
Proof.
  unfold transformIssue_001. intro H. invert_ok H.
  inversion H; subst; simpl.
  rewrite <- (extractStackTrace_chain issue v Hget).
  apply or_elseM_Ok_inv in Hget6. unfold or_else.
  destruct Hget6 as [[-> ->] | [-> Hfallback]]; [reflexivity | ].
  invert_ok Hfallback. inversion Hfallback; subst.
  unfold no_stack_trace.
  now rewrite (get_field _ _ _ Hget6), (template_Ok _ _ Hget7).
Qed.

Lemma transformIssue_000_stackTrace project issue i :
  transformIssue_000 project issue = Ok i ->
  Issue.stackTrace i = value_or_empty issue.
Proof.
  unfold transformIssue_000. intro H. invert_ok H.
  inversion H; subst; simpl. unfold value_or_empty.
  now rewrite (get_field _ _ _ Hget5), (get_opt_field _ _ _ Hget6).
Qed.

(** C8, as stated, fails on both revisions.  On part_001 an exception
    entry whose frames are empty does not yield the (empty) join of its
    frames but the no-stack-trace text; on part_000 a culprit is not used
    at all. *)
Lemma stackTrace_chain_counterexample :
  (exists i,
      transformIssue part_001 "web" empty_frames_issue = Ok i
      /\ exception_entry empty_frames_issue <> None
      /\ claimed_stackTrace empty_frames_issue = JStr ""
      /\ Issue.stackTrace i = JStr "Boom (no stack trace available)"
      /\ Issue.stackTrace i <> claimed_stackTrace empty_frames_issue)
  /\ (exists i,
      transformIssue part_000 "web" culprit_issue = Ok i
      /\ claimed_stackTrace culprit_issue = JStr "at handleSubmit"
      /\ Issue.stackTrace i = JStr ""
      /\ Issue.stackTrace i <> claimed_stackTrace culprit_issue).
Proof.
  split; eexists; (split; [vm_compute; reflexivity | ]);
    repeat split; try (vm_compute; discriminate).
Qed.

(** The last five of seven frames, the anonymous one included. *)
Example last_five_frames :
  exists i,
    transformIssue part_001 "web" seven_frames_issue = Ok i
    /\ Issue.stackTrace i
       = JStr (Str.join (String Str.LF EmptyString)
                 ["at f (app.js:3:1)"; "at anonymous (lib.js:4:1)";
                  "at f (app.js:5:1)"; "at f (app.js:6:1)"; "at f (app.js:7:1)"]).
Proof. eexists. split; [vm_compute; reflexivity | reflexivity]. Qed.

(** C8, amended: for every raw issue that part_001 transforms, the
    [stackTrace] is the first that applies of: the metadata value, when
    truthy; ["at "] followed by the culprit, when truthy; the last 5 stack
    frames of the first exception entry of the last event, joined as
    ["at {function|anonymous} ({filename}:{line}:{col})"] lines, when there
    is such an entry and the joined text is not empty; and otherwise the
    raw title followed by [" (no stack trace available)"].  For every raw
    issue that part_000 transforms, it is the metadata value when truthy
    and the empty string otherwise. *)
Theorem stackTrace_fallback_chain :
  forall (project : string) (issue : JS) (i : Issue.t),
    (transformIssue part_001 project issue = Ok i ->
     Issue.stackTrace i = chain_stackTrace issue)
    /\ (transformIssue part_000 project issue = Ok i ->
        Issue.stackTrace i = value_or_empty issue).
Proof.
  intros project issue i. split.
  - apply transformIssue_001_stackTrace.
  - apply transformIssue_000_stackTrace.
Qed.

Lemma stackTrace_fallback_chain_witness :
  Issue.stackTrace
    (Issue.mk (JStr "9") (JStr "Boom") warning (JNum 0) JUndefined "web" (JNum 0)
       (JStr "at handleSubmit"))
  = chain_stackTrace culprit_issue
  /\ Issue.stackTrace
       (Issue.mk (JStr "9") (JStr "Boom") warning (JNum 0) JUndefined "web" (JNum 0)
          (JStr ""))
     = value_or_empty culprit_issue.
Proof.
  split.
  - apply (proj1 (stackTrace_fallback_chain "web" culprit_issue _)).
    reflexivity.
  - apply (proj2 (stackTrace_fallback_chain "web" culprit_issue _)).
    reflexivity.
Defined.

(** ** The header pattern on a well-formed hunk header *)

Lemma digit_run_app ds rest :
  all_digits ds = true -> ends_run rest ->
  Regex.digit_run (ds ++ rest) = String.length ds.
Proof.
  unfold all_digits. induction ds as [ | a ds IH]; simpl; intros Hds Hrest.
  - destruct rest as [ | b rest]; simpl in *; [reflexivity | now rewrite Hrest].
  - apply andb_prop in Hds. destruct Hds as [Ha Hds].
    rewrite Ha. f_equal. now apply IH.
Qed.

Lemma drop_app ds rest : Regex.drop (String.length ds) (ds ++ rest) = rest.
Proof. induction ds as [ | a ds IH]; simpl; [now destruct rest | exact IH]. Qed.

Lemma take_app ds rest : Regex.take (String.length ds) (ds ++ rest) = ds.
Proof.
  induction ds as [ | a ds IH]; simpl; [now destruct rest | now rewrite IH].
Qed.

(** The longest run is tried first, and taken when the rest matches. *)
Lemma try_runs_longest k least capture s n caps :
  (least <=? n)%nat = true ->
  k (Regex.drop n s) = Some caps ->
  Regex.try_runs k least capture s n
  = Some (if capture then Regex.take n s :: caps else caps).
Proof. intros H1 H2. destruct n; cbn [Regex.try_runs]; now rewrite H1, H2. Qed.

Lemma matchHere_digits p least capture ds rest caps :
  all_digits ds = true ->
  (least <=? String.length ds)%nat = true ->
  ends_run rest ->
  Regex.matchHere p rest = Some caps ->
  Regex.matchHere (Regex.Digits least capture :: p) (ds ++ rest)
  = Some (if capture then ds :: caps else caps).
Proof.
  intros Hds Hleast Hrest Hp.
  change (Regex.matchHere (Regex.Digits least capture :: p) (ds ++ rest))
    with (Regex.try_runs (Regex.matchHere p) least capture (ds ++ rest)
            (Regex.digit_run (ds ++ rest))).
  rewrite (digit_run_app ds rest Hds Hrest).
  rewrite (try_runs_longest (Regex.matchHere p) least capture (ds ++ rest)
             (String.length ds) caps Hleast).
  - now rewrite take_app.
  - now rewrite drop_app.
Qed.

Lemma search_here p s caps :
  Regex.matchHere p s = Some caps -> Regex.search p s = Some caps.
Proof. intro H. destruct s; simpl; now rewrite H. Qed.

Lemma nonempty_length s : s <> "" -> (1 <=? String.length s)%nat = true.
Proof. destruct s; [congruence | reflexivity]. Qed.

Lemma matchHere_lit p c s :
  Regex.matchHere (Regex.Lit c :: p) (String c s) = Regex.matchHere p s.
Proof. cbn [Regex.matchHere]. now rewrite Ascii.eqb_refl. Qed.

Lemma matchHere_opt_taken p c s caps :
  Regex.matchHere p s = Some caps ->
  Regex.matchHere (Regex.OptLit c :: p) (String c s) = Some caps.
Proof. intro H. cbn [Regex.matchHere]. now rewrite Ascii.eqb_refl, H. Qed.

(** On [@@ -a,b +c,d @@], whatever follows, the groups are [a] and [c]. *)
Lemma hunk_header_groups a b c d tail :
  all_digits a = true -> all_digits b = true ->
  all_digits c = true -> all_digits d = true ->
  a <> "" -> c <> "" ->
  Regex.search Regex.hunk_header
    ("@@ -" ++ a ++ "," ++ b ++ " +" ++ c ++ "," ++ d ++ " @@" ++ tail)
  = Some [a; c].
Proof.
  intros Ha Hb Hc Hd Hna Hnc. apply search_here.
  unfold Regex.hunk_header. cbn [append].
  rewrite !matchHere_lit.
  apply (matchHere_digits _ 1 true a _ [c] Ha (nonempty_length a Hna));
    [reflexivity | ].
  apply matchHere_opt_taken.
  apply (matchHere_digits _ 0 false b _ [c] Hb eq_refl); [reflexivity | ].
  rewrite !matchHere_lit.
  apply (matchHere_digits _ 1 true c _ [] Hc (nonempty_length c Hnc));
    [reflexivity | ].
  apply matchHere_opt_taken.
  apply (matchHere_digits _ 0 false d _ [] Hd eq_refl); [reflexivity | ].
  rewrite !matchHere_lit. reflexivity.
Qed.

(** *** Decimal rendering and [parseInt] *)

Lemma parse_of_uint d acc :
  fold_left (fun acc a => (10 * acc + Str.digit_value a)%Z)
    (list_ascii_of_string (NilEmpty.string_of_uint d)) acc
  = uint_value d acc.
Proof.
  revert acc. induction d; intro acc; simpl; try reflexivity; apply IHd.
Qed.

Lemma of_uint_acc_value d acc :
  Z.pos (Pos.of_uint_acc d acc) = uint_value d (Z.pos acc).
Proof.
  revert acc.
  induction d; intro acc; cbn [Pos.of_uint_acc uint_value]; try reflexivity;
    rewrite IHd; f_equal; lia.
Qed.

Lemma of_uint_value d : Z.of_N (Pos.of_uint d) = uint_value d 0.
Proof.
  induction d; cbn [Pos.of_uint uint_value]; try reflexivity; try exact IHd;
    cbn [Z.of_N]; apply of_uint_acc_value.
Qed.

Lemma uint_digits d : all_digits (NilEmpty.string_of_uint d) = true.
Proof. unfold all_digits. induction d; simpl; auto. Qed.

Lemma decimal_pos p :
  Str.decimal (Z.pos p) = NilEmpty.string_of_uint (Pos.to_uint p).
Proof.
  unfold Str.decimal. simpl. unfold NilZero.string_of_uint.
  destruct (Pos.to_uint p) eqn:E; try reflexivity.
  now destruct (DecimalPos.Unsigned.to_uint_nonnil p).
Qed.

(** The decimal text of a natural number is a non-empty string of digits
    that [parseInt] reads back. *)
Lemma decimal_spec (n : N) :
  all_digits (Str.decimal (Z.of_N n)) = true
  /\ Str.decimal (Z.of_N n) <> ""
  /\ Str.parseDigits (Str.decimal (Z.of_N n)) = Z.of_N n.
Proof.
  destruct n as [ | p]; [repeat split; discriminate | ].
  cbn [Z.of_N]. rewrite decimal_pos. split; [apply uint_digits | ]. split.
  - pose proof (DecimalPos.Unsigned.to_uint_nonnil p) as Hnil.
    destruct (Pos.to_uint p); try discriminate. now contradiction Hnil.
  - unfold Str.parseDigits. rewrite parse_of_uint, <- of_uint_value.
    now rewrite DecimalPos.Unsigned.of_to.
Qed.

(** On the header [@@ -a,b +c,d @@] the counter becomes the double
    nearest to [c]. *)
Lemma hunk_header_sets_counter (a b c d : N) tail n acc :
  parseLine (n, acc)
    ("@@ -" ++ Str.decimal (Z.of_N a) ++ "," ++ Str.decimal (Z.of_N b)
       ++ " +" ++ Str.decimal (Z.of_N c) ++ "," ++ Str.decimal (Z.of_N d)
       ++ " @@" ++ tail)
  = (Num.of_Z (Z.of_N c), acc).
Proof.
  destruct (decimal_spec a) as (Ha & Hna & _).
  destruct (decimal_spec b) as (Hb & _ & _).
  destruct (decimal_spec c) as (Hc & Hnc & Hparse).
  destruct (decimal_spec d) as (Hd & _ & _).
  unfold parseLine.
  rewrite (hunk_header_groups _ _ _ _ tail Ha Hb Hc Hd Hna Hnc).
  cbn [nth]. unfold Num.parseInt. now rewrite Hparse.
Qed.

(** Below 2^53 a counter advances by one. *)
Lemma succ_exact k :
  (0 <= k < Num.exact_bound)%Z -> Num.succ (Num.Fin k) = Num.Fin (k + 1).
Proof.
  intro Hk. cbn [Num.succ]. apply of_Z_exact. rewrite Z.abs_eq; lia.
Qed.

Lemma of_N_exact (c : N) :
  (Z.of_N c <= Num.exact_bound)%Z -> Num.of_Z (Z.of_N c) = Num.Fin (Z.of_N c).
Proof. intro Hc. apply of_Z_exact. rewrite Z.abs_eq; lia. Qed.

(** ** The line counter of [parsePatch] *)

(** The loop is the single counter of [emitted]. *)
Lemma parseLines_emitted lines n acc :
  parseLines lines (n, acc)
  = (counter_after n lines, (acc ++ emitted n lines)%list).
Proof.
  unfold parseLines. revert n acc.
  induction lines as [ | line rest IH]; intros n acc; simpl.
  - now rewrite app_nil_r.
  - unfold reset_to, newFileStart.
    destruct (Str.startsWith line "@@").
    { destruct (Regex.search Regex.hunk_header line); apply IH. }
    destruct (Str.startsWith line "+").
    { rewrite IH, <- app_assoc. reflexivity. }
    destruct (Str.startsWith line "-").
    { rewrite IH, <- app_assoc. reflexivity. }
    destruct (Str.startsWith line " ").
    { rewrite IH, <- app_assoc. reflexivity. }
    apply IH.
Qed.

Lemma parsePatch_emitted patch :
  parsePatch patch = firstn 20 (emitted (Num.Fin 0) (Str.split Str.LF patch)).
Proof. unfold parsePatch. now rewrite parseLines_emitted. Qed.

(** A run of removed lines repeats the counter on every record and leaves
    it where it was. *)
Lemma removed_run_repeats texts n acc :
  parseLines (map (String "-") texts) (n, acc)
  = (n, (acc ++ map (ChangeLine.mk n remove) texts)%list).
Proof.
  rewrite parseLines_emitted. f_equal.
  - induction texts as [ | text texts IH]; simpl; [reflexivity | ].
    now destruct text.
  - f_equal. induction texts as [ | text texts IH]; simpl; [reflexivity | ].
    rewrite IH. now destruct text.
Qed.

(** A hunk that starts at line 2^53 + 1, with two added lines. *)
Definition unsafe_patch : string :=
  "@@ -1 +9007199254740993 @@" ++ String Str.LF "+a" ++ String Str.LF "+b".

(** C6, as stated, fails where JavaScript numbers stop counting: the
    header announces 2^53 + 1, the counter is set to 2^53 (the nearest
    double), and the second added line repeats the number of the first
    instead of the next one. *)
Lemma line_counter_counterexample :
  map ChangeLine.type (parsePatch unsafe_patch) = [add; add]
  /\ map ChangeLine.lineNumber (parsePatch unsafe_patch)
     = map Num.Fin [9007199254740992; 9007199254740992]%Z
  /\ map ChangeLine.lineNumber (parsePatch unsafe_patch)
     <> map Num.Fin [9007199254740993; 9007199254740994]%Z.
Proof. vm_compute. repeat split; discriminate. Qed.

(** C6, amended: [parsePatch] keeps one new-file line counter, a
    JavaScript number.  A hunk header sets it to its new-file start line
    as [parseInt] reads it (on [@@ -a,b +c,d @@] that is [c] itself up to
    2^53, and the nearest double beyond; a line that starts with [@@]
    without matching the header pattern leaves it alone) and emits
    nothing; a line prefixed [+] or a space emits a record (add, context)
    with the counter and then applies [++] to it, which adds one below
    2^53; a line prefixed [-] emits a remove record with the counter and
    leaves it, so that a run of removed lines repeats the same number;
    the output is the first 20 of the records so emitted. *)
Theorem parsePatch_line_counter :
  (forall patch,
      parsePatch patch
      = firstn 20 (emitted (Num.Fin 0) (Str.split Str.LF patch)))
  /\ (forall lines n acc,
      parseLines lines (n, acc)
      = (counter_after n lines, (acc ++ emitted n lines)%list))
  /\ (forall n acc rest,
      parseLine (n, acc) ("@@" ++ rest) = (reset_to ("@@" ++ rest) n, acc))
  /\ (forall (a b c d : N) tail n acc,
      parseLine (n, acc)
        ("@@ -" ++ Str.decimal (Z.of_N a) ++ "," ++ Str.decimal (Z.of_N b)
           ++ " +" ++ Str.decimal (Z.of_N c) ++ "," ++ Str.decimal (Z.of_N d)
           ++ " @@" ++ tail)
      = (Num.of_Z (Z.of_N c), acc)
      /\ ((Z.of_N c <= Num.exact_bound)%Z ->
          Num.of_Z (Z.of_N c) = Num.Fin (Z.of_N c)))
  /\ (forall n acc text,
      parseLine (n, acc) ("+" ++ text)
      = (Num.succ n, (acc ++ [ChangeLine.mk n add text])%list))
  /\ (forall n acc text,
      parseLine (n, acc) (" " ++ text)
      = (Num.succ n, (acc ++ [ChangeLine.mk n context text])%list))
  /\ (forall k,
      (0 <= k < Num.exact_bound)%Z ->
      Num.succ (Num.Fin k) = Num.Fin (k + 1))
  /\ (forall n acc text,
      parseLine (n, acc) ("-" ++ text)
      = (n, (acc ++ [ChangeLine.mk n remove text])%list))
  /\ (forall n acc texts,
      parseLines (map (String "-") texts) (n, acc)
      = (n, (acc ++ map (ChangeLine.mk n remove) texts)%list)).
Proof.
  split; [exact parsePatch_emitted | ].
  split; [exact parseLines_emitted | ].
  split.
  { intros n acc rest. unfold parseLine, reset_to, newFileStart.
    change (Str.startsWith ("@@" ++ rest) "@@") with (String.prefix "" rest).
    replace (String.prefix "" rest) with true by (now destruct rest).
    now destruct (Regex.search _ _). }
  split.
  { intros a b c d tail n acc.
    split; [apply hunk_header_sets_counter | apply of_N_exact]. }
  split; [intros n acc text; unfold parseLine; simpl; now destruct text | ].
  split; [intros n acc text; unfold parseLine; simpl; now destruct text | ].
  split; [exact succ_exact | ].
  split; [intros n acc text; unfold parseLine; simpl; now destruct text | ].
  intros n acc texts. apply removed_run_repeats.
Qed.

(** The regression hunk, counted by the amended rules: the header sets
    the counter to 5 and the two lines that advance it add one each. *)
Lemma parsePatch_line_counter_witness :
  parseLine (Num.Fin 0, []) "@@ -1,3 +5,3 @@" = (Num.Fin 5, [])
  /\ Num.succ (Num.Fin 5) = Num.Fin 6.
Proof.
  destruct parsePatch_line_counter
    as (_ & _ & _ & Hheader & _ & _ & Hsucc & _).
  split.
  - destruct (Hheader 1%N 3%N 5%N 3%N "" (Num.Fin 0) []) as [Hset Hexact].
    rewrite Hexact in Hset by (apply Z.leb_le; reflexivity). exact Hset.
  - apply (Hsucc 5%Z). split; [apply Z.leb_le | apply Z.ltb_lt]; reflexivity.
Defined.

(** Two hunks: the second header sets the counter again, and the two
    removed lines of the first hunk both show 11. *)
Example two_hunks :
  parsePatch
    (Str.join (String Str.LF EmptyString)
       ["diff metadata"; "@@ -10,4 +10,3 @@ function f() {"; " keep"; "-old 1";
        "-old 2"; "+new"; "@@ -40 +39,2 @@"; "+tail"; "\ No newline at end of file"])
  = [ChangeLine.mk (Num.Fin 10) context "keep"; ChangeLine.mk (Num.Fin 11) remove "old 1";
     ChangeLine.mk (Num.Fin 11) remove "old 2"; ChangeLine.mk (Num.Fin 11) add "new";
     ChangeLine.mk (Num.Fin 39) add "tail"].
Proof. vm_compute. reflexivity. Qed.

(** ** The read operations never throw *)

Lemma lift_Ok_inv {A} (o : Outcome A) w log a log' :
  lift o w log = (Ok a, log') -> o = Ok a /\ log' = log.
Proof. unfold lift. now intros [= -> ->]. Qed.

Lemma ret_Ok_inv {A} (x : A) w log a log' :
  ret x w log = (Ok a, log') -> a = x /\ log' = log.
Proof. unfold ret. now intros [= -> ->]. Qed.

(** *** Sentry *)

Lemma projectOf_nonempty project : projectOf project <> "".
Proof.
  unfold projectOf. destruct (String.eqb project "") eqn:E; [discriminate | ].
  now apply String.eqb_neq.
Qed.

Lemma transformIssue_project rev project issue i :
  In rev revisions ->
  transformIssue rev project issue = Ok i ->
  Issue.project i = projectOf project.
Proof.
  intros [<- | [<- | []]]; simpl; intro H.
  - unfold transformIssue_000 in H. invert_ok H. now inversion H.
  - unfold transformIssue_001 in H. invert_ok H. now inversion H.
Qed.

Lemma mock_issues_well_formed rev h :
  In rev revisions -> well_formed_issues (getMockSentryData rev h).
Proof.
  intros [<- | [<- | []]]; repeat split; repeat constructor; discriminate.
Qed.

Lemma fetched_issues_well_formed rev h options authToken org project w log r log' :
  In rev revisions ->
  fetchSentryIssues_try rev h options authToken org project w log = (Ok r, log') ->
  well_formed_issues r.
Proof.
  intros Hrev H. apply fetchSentryIssues_try_Ok in H.
  destruct H as (response & items & _ & _ & _ & Hmap & Hsummary & _).
  unfold well_formed_issues. split; [ | split].
  - now destruct (summarize_counters _ _ Hsummary) as (_ & _ & H0 & _).
  - apply (summarize_partition _ _ Hsummary).
    eapply transformed_not_resolved; eassumption.
  - apply mapM_Forall2 in Hmap. clear Hsummary.
    induction Hmap as [ | raw i raws issues Hi _ IH]; [constructor | ].
    constructor; [ | exact IH].
    rewrite (transformIssue_project rev project raw i Hrev Hi).
    apply projectOf_nonempty.
Qed.

Lemma fetchSentryIssues_real_or_mock rev h options w log :
  exists r log',
    fetchSentryIssues rev h options w log = (Ok r, log')
    /\ real_or_mock (sentry_attempt rev h options) (getMockSentryData rev h)
         w log r log'.
Proof.
  unfold fetchSentryIssues, sentry_attempt, real_or_mock.
  destruct (configured (Host.SENTRY_AUTH_TOKEN h)) as [authToken | ];
    [ | exists (getMockSentryData rev h), log; auto].
  destruct (configured (Host.SENTRY_ORG h)) as [org | ];
    [ | exists (getMockSentryData rev h), log; auto].
  destruct (sentryProject h options) as [project | ];
    [ | exists (getMockSentryData rev h), log; auto].
  destruct (try_catch_returns
              (fetchSentryIssues_try rev h options authToken org project)
              (fun _ => getMockSentryData rev h) w log)
    as (r & log' & Hrun & [Hok | (e & _ & ->)]).
  - exists r, log'. split; [exact Hrun | right]. eauto.
  - eexists _, log'. split; [exact Hrun | now left].
Qed.

(** *** GitHub *)

Lemma parsePatch_at_most_20 patch : List.length (parsePatch patch) <= 20.
Proof. unfold parsePatch. apply firstn_le_length. Qed.

Lemma analyzeChanges_nonempty changes filename :
  analyzeChanges changes filename <> [].
Proof.
  unfold analyzeChanges.
  set (addedLines := map ChangeLine.content (filter is_add changes)).
  destruct (existsb (fun line => Str.includes line "console.log") addedLines);
    destruct (existsb (fun line => Str.includes line "TODO" || Str.includes line "FIXME")
                addedLines);
    destruct (existsb (fun line => Str.includes line "any") addedLines);
    simpl; discriminate.
Qed.

Lemma fetched_diff_well_formed options token w log r log' :
  fetchGitHubCommitDiff_try options token w log = (Ok r, log') ->
  well_formed_diff r.
Proof.
  unfold fetchGitHubCommitDiff_try. intro H. invert_ok H.
  destruct (negb (ok a)); [discriminate | ].
  invert_ok H.
  destruct (negb (truthy a1)); [discriminate | ].
  invert_ok H.
  apply lift_Ok_inv in Hstep3. destruct Hstep3 as [Hparse _].
  apply lift_Ok_inv in H. destruct H as [Hbuild _].
  unfold buildCommitDiff in Hbuild. invert_ok Hbuild.
  inversion Hbuild; subst r; simpl. clear Hbuild.
  repeat split.
  - unfold parsePatchOf in Hparse.
    destruct (or_else a2 (JStr "")); try discriminate.
    inversion Hparse; subst. apply parsePatch_at_most_20.
  - apply analyzeChanges_nonempty.
Qed.

Lemma mock_diff_well_formed rev h options :
  In rev revisions -> well_formed_diff (getMockGitHubData rev h options).
Proof.
  intros [<- | [<- | []]]; repeat split; simpl; try lia; discriminate.
Qed.

Lemma fetchGitHubCommitDiff_real_or_mock rev h options w log :
  exists r log',
    fetchGitHubCommitDiff rev h options w log = (Ok r, log')
    /\ real_or_mock (github_attempt h options) (getMockGitHubData rev h options)
         w log r log'.
Proof.
  unfold fetchGitHubCommitDiff, github_attempt, real_or_mock.
  destruct (configured (Host.GITHUB_TOKEN h)) as [token | ]; simpl;
    [ | exists (getMockGitHubData rev h options), log; auto].
  destruct (try_catch_returns (fetchGitHubCommitDiff_try options token)
              (fun _ => getMockGitHubData rev h options) w log)
    as (r & log' & Hrun & [Hok | (e & _ & ->)]).
  - exists r, log'. split; [exact Hrun | right]. eauto.
  - eexists _, log'. split; [exact Hrun | now left].
Qed.

(** *** Vercel *)

Lemma transformDeployment_well_formed h options dep d :
  transformDeployment h options dep = Ok d ->
  Deployment.projectName d = VercelOptions.projectName options
  /\ Str.startsWith (Deployment.url d) "https://" = true.
Proof.
  unfold transformDeployment. intro H. invert_ok H.
  inversion H; subst d; simpl. split; [reflexivity | ].
  unfold Str.startsWith. simpl. now destruct v2.
Qed.

Lemma fetched_deployments_well_formed h options token w log r log' :
  fetchVercelDeployments_try h options token w log = (Ok r, log') ->
  well_formed_deployments options r.
Proof.
  unfold fetchVercelDeployments_try. intro H. invert_ok H.
  destruct (negb (ok a)); [discriminate | ].
  invert_ok H.
  apply lift_Ok_inv in Hstep2. destruct Hstep2 as [Hmap _].
  apply ret_Ok_inv in H. destruct H as [-> _].
  unfold well_formed_deployments; simpl.
  unfold call_map in Hmap. destruct a1; try discriminate.
  apply mapM_Forall2 in Hmap. clear - Hmap.
  induction Hmap as [ | dep d deps ds Hd _ IH]; [constructor | ].
  constructor; [ | exact IH].
  eapply transformDeployment_well_formed; eassumption.
Qed.

Lemma mock_deployments_well_formed h options :
  well_formed_deployments options (getMockVercelDeployments h options).
Proof.
  unfold well_formed_deployments; simpl.
  constructor; [ | constructor]. simpl. split; [reflexivity | ].
  unfold Str.startsWith. simpl.
  now destruct (VercelOptions.projectName options ++ ".vercel.app").
Qed.

Lemma fetchVercelDeployments_real_or_mock h options w log :
  exists r log',
    fetchVercelDeployments h options w log = (Ok r, log')
    /\ real_or_mock (vercel_attempt h options) (getMockVercelDeployments h options)
         w log r log'.
Proof.
  unfold fetchVercelDeployments, vercel_attempt, real_or_mock.
  destruct (configured (Host.VERCEL_TOKEN h)) as [token | ]; simpl;
    [ | exists (getMockVercelDeployments h options), log; auto].
  destruct (try_catch_returns (fetchVercelDeployments_try h options token)
              (fun _ => getMockVercelDeployments h options) w log)
    as (r & log' & Hrun & [Hok | (e & _ & ->)]).
  - exists r, log'. split; [exact Hrun | right]. eauto.
  - eexists _, log'. split; [exact Hrun | now left].
Qed.

Ltac show_declared :=
  repeat match goal with
    | |- _ /\ _ => split
    | |- Forall _ _ => constructor
    | |- a_string _ => eexists; reflexivity
    | |- a_number _ => eexists; reflexivity
    | |- optionally _ _ => right
    end.

Lemma mock_issues_declared rev h :
  In rev revisions -> declared_issues (getMockSentryData rev h).
Proof.
  intros [<- | [<- | []]]; unfold declared_issues, declared_issue; cbn;
    show_declared.
Qed.

Lemma mock_diff_declared rev h options :
  In rev revisions -> declared_diff (getMockGitHubData rev h options).
Proof.
  intros [<- | [<- | []]]; unfold declared_diff; cbn; show_declared.
Qed.

Lemma mock_deployments_declared h options :
  declared_deployments (getMockVercelDeployments h options).
Proof.
  unfold declared_deployments, declared_deployment; cbn; show_declared.
Qed.

(** C2, as stated, fails: a response that has the shape the client asks
    for, and no more, gives a real result whose fields are not of the
    declared types.  The issue has [undefined] for its [id] and its
    [lastSeen], the commit for its [sha], the deployment for its [id]. *)
Lemma read_result_counterexample :
  (exists r,
      result_of (fetchSentryIssues part_001 live_host no_options)
        (serving bare_issues) = Ok r
      /\ map Issue.id (SentryResult.issues r) = [JUndefined]
      /\ map Issue.lastSeen (SentryResult.issues r) = [JUndefined]
      /\ ~ declared_issues r)
  /\ (exists r,
      result_of (fetchGitHubCommitDiff part_001 live_host sample_commit)
        (serving bare_commit) = Ok r
      /\ Commit.sha (CommitDiff.commit r) = JUndefined
      /\ ~ declared_diff r)
  /\ (exists r,
      result_of (fetchVercelDeployments live_host sample_project)
        (serving bare_listing) = Ok r
      /\ map Deployment.id (Deployments.deployments r) = [JUndefined]
      /\ ~ declared_deployments r).
Proof.
  split; [ | split]; eexists; (split; [vm_compute; reflexivity | ]).
  - split; [reflexivity | ]. split; [reflexivity | ].
    intros [Hissues _]. inversion Hissues as [ | i issues [[s Hs] _] _].
    discriminate Hs.
  - split; [reflexivity | ]. intros [[s Hs] _]. discriminate Hs.
  - split; [reflexivity | ].
    intro Hall. inversion Hall as [ | d ds [[s Hs] _] _]. discriminate Hs.
Qed.

(** C2, amended: whatever the inputs, the configuration and the behaviour
    of [fetch] (throwing, answering outside 2xx, answering with a body of
    any shape), each of [fetchSentryIssues], [fetchGitHubCommitDiff] and
    [fetchVercelDeployments], in either revision, returns a value and
    throws nothing; the value is the mock or what the [try] block built
    from the response.  The mock has the declared types throughout.  A
    built result has the shape the client gives it (summary counters
    that agree with the list of issues, and [resolved = 0]; branch
    [main], at most 20 change lines and at least one advisory;
    deployments of the project asked for with [https] URLs), and the
    fields it copies from the payload are whatever the payload had. *)
Theorem read_operations_never_throw :
  forall (h : Host.t) (w : World) (log : list Request),
    Forall
      (fun rev =>
         (forall options,
             exists r log',
               fetchSentryIssues rev h options w log = (Ok r, log')
               /\ real_or_mock (sentry_attempt rev h options)
                    (getMockSentryData rev h) w log r log'
               /\ well_formed_issues r)
         /\ (forall options,
             exists r log',
               fetchGitHubCommitDiff rev h options w log = (Ok r, log')
               /\ real_or_mock (github_attempt h options)
                    (getMockGitHubData rev h options) w log r log'
               /\ well_formed_diff r)
         /\ (forall options,
             exists r log',
               fetchVercelDeployments h options w log = (Ok r, log')
               /\ real_or_mock (vercel_attempt h options)
                    (getMockVercelDeployments h options) w log r log'
               /\ well_formed_deployments options r)
         /\ declared_issues (getMockSentryData rev h)
         /\ (forall options, declared_diff (getMockGitHubData rev h options))
         /\ (forall options,
             declared_deployments (getMockVercelDeployments h options)))
      revisions.
Proof.
  intros h w log.
  apply Forall_forall. intros rev Hrev.
  split; [ | split; [ | split; [ | split; [ | split]]]]; try intro options.
  - destruct (fetchSentryIssues_real_or_mock rev h options w log)
      as (r & log' & Hrun & Hcase).
    exists r, log'. split; [exact Hrun | split; [exact Hcase | ]].
    destruct Hcase as [-> | (body & Hattempt & Hbody)].
    + now apply mock_issues_well_formed.
    + unfold sentry_attempt in Hattempt.
      destruct (configured (Host.SENTRY_AUTH_TOKEN h)); try discriminate.
      destruct (configured (Host.SENTRY_ORG h)); try discriminate.
      destruct (sentryProject h options); try discriminate.
      inversion Hattempt; subst body.
      eapply fetched_issues_well_formed; eassumption.
  - destruct (fetchGitHubCommitDiff_real_or_mock rev h options w log)
      as (r & log' & Hrun & Hcase).
    exists r, log'. split; [exact Hrun | split; [exact Hcase | ]].
    destruct Hcase as [-> | (body & Hattempt & Hbody)].
    + now apply mock_diff_well_formed.
    + unfold github_attempt in Hattempt.
      destruct (configured (Host.GITHUB_TOKEN h)); try discriminate.
      inversion Hattempt; subst body.
      eapply fetched_diff_well_formed; eassumption.
  - destruct (fetchVercelDeployments_real_or_mock h options w log)
      as (r & log' & Hrun & Hcase).
    exists r, log'. split; [exact Hrun | split; [exact Hcase | ]].
    destruct Hcase as [-> | (body & Hattempt & Hbody)].
    + apply mock_deployments_well_formed.
    + unfold vercel_attempt in Hattempt.
      destruct (configured (Host.VERCEL_TOKEN h)); try discriminate.
      inversion Hattempt; subst body.
      eapply fetched_deployments_well_formed; eassumption.
  - now apply mock_issues_declared.
  - now apply mock_diff_declared.
  - apply mock_deployments_declared.
Qed.

(** A 500 from the deployment list gives the mock, after the one call. *)
Example deployments_on_500 :
  fetchVercelDeployments live_host sample_project failing []
  = (Ok (getMockVercelDeployments live_host sample_project),
     [mkRequest "GET" "https://api.vercel.com/v6/deployments?projectId=web&limit=5"
        [("Authorization", "Bearer vercel-token")]]).
Proof. reflexivity. Qed.

(** Bodies of the wrong shape give the mock as well: an object where an
    array is expected, issues that are [null], a commit without files, a
    deployment without a date. *)
Example wrong_shapes_fall_back :
  result_of (fetchSentryIssues part_001 live_host no_options) (serving (JObj []))
  = Ok (getMockSentryData_001 live_host)
  /\ result_of (fetchSentryIssues part_001 live_host no_options)
       (serving (JArr [JNull]))
     = Ok (getMockSentryData_001 live_host)
  /\ result_of (fetchSentryIssues part_001 live_host no_options) garbled
     = Ok (getMockSentryData_001 live_host)
  /\ result_of (fetchSentryIssues part_001 live_host no_options) offline
     = Ok (getMockSentryData_001 live_host)
  /\ result_of (fetchGitHubCommitDiff part_001 live_host sample_commit)
       (serving (JObj [("sha", JStr "f00")]))
     = Ok (getMockGitHubData_001 live_host sample_commit)
  /\ result_of (fetchVercelDeployments live_host sample_project)
       (serving (JObj [("deployments", JArr [JObj [("uid", JStr "dpl_1")]])]))
     = Ok (getMockVercelDeployments live_host sample_project).
Proof. repeat split. Qed.

(** A commit the client does read: the file's language, the parsed patch
    and the advisories, in their fixed order. *)
Example commit_diff_of_one_file :
  exists r,
    result_of (fetchGitHubCommitDiff part_001 live_host sample_commit)
      (serving one_file_commit) = Ok r
    /\ Diff.language (CommitDiff.diff r) = JStr "typescript"
    /\ Diff.changes (CommitDiff.diff r)
       = [ChangeLine.mk (Num.Fin 3) remove "const a: any = 1";
          ChangeLine.mk (Num.Fin 3) add "console.log(1) // TODO"]
    /\ Analysis.severity (CommitDiff.analysis r) = medium
    /\ Analysis.potentialIssues (CommitDiff.analysis r)
       = ["Debug logging statement added - consider removing before production";
          "TODO/FIXME comments found - incomplete work may exist"].
Proof. eexists. split; [vm_compute; reflexivity | repeat split]. Qed.

(** Twenty-five added lines: the first twenty are kept, numbered from 0. *)
Example truncated_to_20 :
  map ChangeLine.lineNumber
    (parsePatch (Str.join (String Str.LF EmptyString) (repeat "+x" 25)))
  = map (fun n => Num.Fin (Z.of_nat n)) (seq 0 20).
Proof. vm_compute. reflexivity. Qed.

(* ===================================================================== *)
(** * Further properties of the clients, the actions and the page *)
(* ===================================================================== *)

(** ** The requests each operation makes *)

Lemma fetchSentryIssues_try_log rev h options authToken org project w log :
  snd (fetchSentryIssues_try rev h options authToken org project w log)
  = (log ++ [sentryRequest authToken org project])%list.
Proof.
  unfold fetchSentryIssues_try, bind, fetch, sentryRequest.
  destruct (w log _) as [response | e]; [ | reflexivity].
  destruct (ok response); simpl; [ | reflexivity].
  unfold lift. destruct (json response) as [issues | e]; [ | reflexivity].
  destruct issues; try reflexivity.
  destruct (mapM _ _); [ | reflexivity].
  destruct (summarize _); reflexivity.
Qed.

Lemma fetchGitHubCommitDiff_try_log options token w log :
  snd (fetchGitHubCommitDiff_try options token w log)
  = (log ++ [githubRequest options token])%list.
Proof.
  unfold fetchGitHubCommitDiff_try, bind, fetch, githubRequest.
  destruct (w log _) as [response | e]; [ | reflexivity].
  destruct (ok response); simpl; [ | reflexivity].
  unfold lift. destruct (json response) as [commitData | e]; [ | reflexivity].
  destruct (selectFile options commitData) as [file | e]; [ | reflexivity].
  destruct (truthy file); simpl; [ | reflexivity].
  destruct (get file "patch") as [patch | e]; [ | reflexivity].
  destruct (parsePatchOf patch) as [changes | e]; [ | reflexivity].
  reflexivity.
Qed.

Lemma fetchVercelDeployments_try_log h options token w log :
  snd (fetchVercelDeployments_try h options token w log)
  = (log ++ [listRequest h options token])%list.
Proof.
  unfold fetchVercelDeployments_try, bind, fetch, listRequest.
  destruct (w log _) as [response | e]; [ | reflexivity].
  destruct (ok response); simpl; [ | reflexivity].
  unfold lift. destruct (json response) as [data | e]; [ | reflexivity].
  destruct (get data "deployments") as [deployments | e]; [ | reflexivity].
  destruct (call_map deployments _); reflexivity.
Qed.

(** A [catch] that returns a value keeps the log of the [try] block. *)
Lemma try_catch_log {A} (body : IO A) (recover : Exn -> A) w log :
  snd (try_catch body (fun e => ret (recover e)) w log) = snd (body w log).
Proof.
  unfold try_catch, ret. now destruct (body w log) as [[a | e] log'].
Qed.

Lemma fetchSentryIssues_log rev h options w log :
  snd (fetchSentryIssues rev h options w log)
  = (log ++ sentryCalls h options)%list.
Proof.
  unfold fetchSentryIssues, sentryCalls.
  destruct (configured (Host.SENTRY_AUTH_TOKEN h)) as [authToken | ];
    [ | simpl; now rewrite app_nil_r].
  destruct (configured (Host.SENTRY_ORG h)) as [org | ];
    [ | simpl; now rewrite app_nil_r].
  destruct (sentryProject h options) as [project | ];
    [ | simpl; now rewrite app_nil_r].
  rewrite (try_catch_log _ (fun _ => getMockSentryData rev h)).
  apply fetchSentryIssues_try_log.
Qed.

Lemma fetchGitHubCommitDiff_log rev h options w log :
  snd (fetchGitHubCommitDiff rev h options w log)
  = (log ++ githubCalls h options)%list.
Proof.
  unfold fetchGitHubCommitDiff, githubCalls.
  destruct (configured (Host.GITHUB_TOKEN h)) as [token | ];
    [ | simpl; now rewrite app_nil_r].
  rewrite (try_catch_log _ (fun _ => getMockGitHubData rev h options)).
  apply fetchGitHubCommitDiff_try_log.
Qed.

Lemma fetchVercelDeployments_log h options w log :
  snd (fetchVercelDeployments h options w log)
  = (log ++ vercelCalls h options)%list.
Proof.
  unfold fetchVercelDeployments, vercelCalls.
  destruct (configured (Host.VERCEL_TOKEN h)) as [token | ];
    [ | simpl; now rewrite app_nil_r].
  rewrite (try_catch_log _ (fun _ => getMockVercelDeployments h options)).
  apply fetchVercelDeployments_try_log.
Qed.

(** X1: each read operation makes no request at all when its credentials
    are missing and exactly one request when they are present, whatever
    the answer: a GET of the documented URL carrying the token of that
    service.  Nothing is retried. *)
Theorem reads_make_at_most_one_request :
  forall (rev : Revision) (h : Host.t) (w : World) (log : list Request),
    (forall options,
        snd (fetchSentryIssues rev h options w log)
        = (log ++ sentryCalls h options)%list)
    /\ (forall options,
        snd (fetchGitHubCommitDiff rev h options w log)
        = (log ++ githubCalls h options)%list)
    /\ (forall options,
        snd (fetchVercelDeployments h options w log)
        = (log ++ vercelCalls h options)%list).
Proof.
  intros rev h w log. split; [ | split]; intro options.
  - apply fetchSentryIssues_log.
  - apply fetchGitHubCommitDiff_log.
  - apply fetchVercelDeployments_log.
Qed.

(** ** The rollback, request by request *)

Lemma fetchVercelDeployments_run h options token w log :
  configured (Host.VERCEL_TOKEN h) = Some token ->
  exists ds,
    fetchVercelDeployments h options w log
    = (Ok ds, (log ++ [listRequest h options token])%list).
Proof.
  intro Htoken.
  destruct (fetchVercelDeployments_returns h options w log) as (ds & log1 & Hrun).
  exists ds. rewrite Hrun. f_equal.
  pose proof (fetchVercelDeployments_log h options w log) as Hlog.
  rewrite Hrun in Hlog. simpl in Hlog. rewrite Hlog.
  unfold vercelCalls. now rewrite Htoken.
Qed.

Lemma eligible_spec deploymentId d :
  eligible deploymentId d = true ->
  Deployment.id d <> JStr deploymentId /\ Deployment.status d = JStr "READY".
Proof.
  unfold eligible. intro H. apply andb_prop in H. destruct H as [Hid Hstatus].
  split.
  - intro E. rewrite E in Hid. simpl in Hid. now rewrite String.eqb_refl in Hid.
  - now apply is_string_true.
Qed.

(** X2: a rollback makes no request without a token.  With one it makes
    the list request and then at most one more: the promote call for the
    target, which is the first deployment of the list whose id is not the
    one rolled back from and whose status is ["READY"], when there is one
    and its id converts to text; otherwise the list request is the only
    one.  There is never a promote without the list before it. *)
Theorem rollback_lists_then_promotes_once :
  forall (h : Host.t) (options : RollbackOptions.t) (w : World)
         (log : list Request),
    match configured (Host.VERCEL_TOKEN h) with
    | None => snd (executeVercelRollback h options w log) = log
    | Some token =>
        exists ds,
          fst (fetchVercelDeployments h (rollbackListing options) w log) = Ok ds
          /\ ((exists target,
                  rollback_target (RollbackOptions.deploymentId options)
                    (Deployments.deployments ds) target
                  /\ printable (Deployment.id target) = true
                  /\ snd (executeVercelRollback h options w log)
                     = (log ++ [listRequest h (rollbackListing options) token;
                                promoteRequest h token target])%list)
              \/ ((no_rollback_target (RollbackOptions.deploymentId options)
                     (Deployments.deployments ds)
                   \/ exists target,
                        rollback_target (RollbackOptions.deploymentId options)
                          (Deployments.deployments ds) target
                        /\ printable (Deployment.id target) = false)
                  /\ snd (executeVercelRollback h options w log)
                     = (log ++ [listRequest h (rollbackListing options) token])%list))
    end.
Proof.
  intros h options w log.
  destruct (configured (Host.VERCEL_TOKEN h)) as [token | ] eqn:Htoken.
  - destruct (fetchVercelDeployments_run h (rollbackListing options) token w log
                Htoken) as (ds & Hlist).
    exists ds. split; [now rewrite Hlist | ].
    rewrite (executeVercelRollback_after_listing h options token w log ds _
               Htoken Hlist).
    destruct (find _ _) as [target | ] eqn:Hfind.
    + apply rollback_target_of_find in Hfind.
      destruct (printable (Deployment.id target)) eqn:Hprintable.
      * left. exists target. split; [exact Hfind | ].
        split; [exact Hprintable | ].
        cbn [snd]. now rewrite <- app_assoc.
      * right. split; [ | reflexivity]. right. now exists target.
    + right. split; [ | reflexivity]. left.
      now apply find_no_rollback_target.
  - unfold executeVercelRollback. now rewrite Htoken.
Qed.

Lemma failure_message_prefix e :
  Str.startsWith ("Rollback failed: " ++ message_of e) "Rollback failed: " = true.
Proof. unfold Str.startsWith. simpl. now destruct (message_of e). Qed.

(** X3: the object a rollback returns always repeats the [deploymentId]
    it was given and carries the current time.  When [success] is true
    its [previousDeploymentId] is set: to ["dpl_mock_previous"] without a
    token, and with one to the id of the rollback target exactly as the
    listing gave it (so to [undefined] for a record without [uid], as
    [rollback_to_nameless] shows).  When [success] is false it has no
    [previousDeploymentId] and its message starts with
    ["Rollback failed: "]. *)
Theorem rollback_result_bookkeeping :
  forall (h : Host.t) (options : RollbackOptions.t) (w : World)
         (log : list Request),
    exists r log',
      executeVercelRollback h options w log = (Ok r, log')
      /\ RollbackResult.deploymentId r = RollbackOptions.deploymentId options
      /\ RollbackResult.timestamp r = Host.now h
      /\ (RollbackResult.success r = true ->
          match configured (Host.VERCEL_TOKEN h) with
          | None =>
              RollbackResult.previousDeploymentId r
              = Some (JStr "dpl_mock_previous")
          | Some token =>
              exists ds target,
                fst (fetchVercelDeployments h (rollbackListing options) w log)
                = Ok ds
                /\ rollback_target (RollbackOptions.deploymentId options)
                     (Deployments.deployments ds) target
                /\ RollbackResult.previousDeploymentId r
                   = Some (Deployment.id target)
          end)
      /\ (RollbackResult.success r = false ->
          RollbackResult.previousDeploymentId r = None
          /\ Str.startsWith (RollbackResult.message r) "Rollback failed: " = true).
Proof.
  intros h options w log.
  destruct (configured (Host.VERCEL_TOKEN h)) as [token | ] eqn:Htoken.
  - destruct (fetchVercelDeployments_returns h (rollbackListing options) w log)
      as (ds & log1 & Hlist).
    rewrite (executeVercelRollback_after_listing h options token w log ds log1
               Htoken Hlist).
    assert (Hfailure : forall e,
               RollbackResult.success (rollbackFailure h options e) = false ->
               RollbackResult.previousDeploymentId (rollbackFailure h options e)
               = None
               /\ Str.startsWith
                    (RollbackResult.message (rollbackFailure h options e))
                    "Rollback failed: " = true).
    { intros e _. split; [reflexivity | apply failure_message_prefix]. }
    destruct (find _ _) as [target | ] eqn:Hfind.
    + apply rollback_target_of_find in Hfind.
      destruct (printable (Deployment.id target)).
      * unfold promoted.
        destruct (w log1 _) as [response | e]; [destruct (ok response) | ].
        -- eexists _, _. split; [reflexivity | ]. cbn.
           split; [reflexivity | ]. split; [reflexivity | ].
           split; [ | discriminate].
           intros _. exists ds, target. rewrite Hlist. auto.
        -- eexists _, _. split; [reflexivity | ].
           split; [reflexivity | ]. split; [reflexivity | ].
           split; [discriminate | apply Hfailure].
        -- eexists _, _. split; [reflexivity | ].
           split; [reflexivity | ]. split; [reflexivity | ].
           split; [discriminate | apply Hfailure].
      * eexists _, _. split; [reflexivity | ].
        split; [reflexivity | ]. split; [reflexivity | ].
        split; [discriminate | apply Hfailure].
    + eexists _, _. split; [reflexivity | ].
      split; [reflexivity | ]. split; [reflexivity | ].
      split; [discriminate | apply Hfailure].
  - unfold executeVercelRollback. rewrite Htoken.
    exists (getMockRollbackResult h options), log.
    split; [reflexivity | ]. cbn. repeat split; discriminate.
Qed.

(** A listing whose ready deployment has no [uid]. *)
Definition nameless_listing : JS :=
  JObj [("deployments",
         JArr [JObj [("state", JStr "READY"); ("url", JStr "web-1.vercel.app");
                     ("created", JNum 1)]])].

(** The rollback goes to it: the promote URL is written with the text
    [undefined], and the result reports success with a
    [previousDeploymentId] that is [undefined]. *)
Example rollback_to_nameless :
  executeVercelRollback live_host sample_rollback (serving nameless_listing) []
  = (Ok (RollbackResult.mk true "dpl_current" (Some JUndefined)
           (Some completed) (Some 100%Z)
           "Successfully rolled back web to deployment undefined"
           "2026-01-01T00:00:00.000Z"),
     [mkRequest "GET"
        "https://api.vercel.com/v6/deployments?projectId=web&limit=10"
        [("Authorization", "Bearer vercel-token")];
      mkRequest "POST"
        "https://api.vercel.com/v13/deployments/undefined/promote"
        [("Authorization", "Bearer vercel-token")]]).
Proof. vm_compute. reflexivity. Qed.

(** ** A rollback on top of a failed listing *)

Lemma fetchVercelDeployments_on_failure h options token w log :
  configured (Host.VERCEL_TOKEN h) = Some token ->
  listing_failed w log (listRequest h options token) ->
  fetchVercelDeployments h options w log
  = (Ok (getMockVercelDeployments h options),
     (log ++ [listRequest h options token])%list).
Proof.
  intros Htoken Hfailed. unfold fetchVercelDeployments. rewrite Htoken.
  unfold try_catch, fetchVercelDeployments_try, bind, fetch.
  fold (listRequest h options token).
  destruct Hfailed as [(e & ->) | (response & -> & Hok)]; [reflexivity | ].
  now rewrite Hok.
Qed.

Lemma eligible_mock h projectName deploymentId :
  eligible deploymentId (mockDeployment h projectName)
  = negb (String.eqb "dpl_mock_current" deploymentId).
Proof.
  unfold eligible, mockDeployment.
  cbn [Deployment.id Deployment.status is_string].
  change (String.eqb "READY" "READY") with true. now rewrite andb_true_r.
Qed.

(** X4: when the list request of a rollback fails, the rollback goes on
    with the mock listing.  Unless the deployment rolled back from is
    itself called ["dpl_mock_current"], it then sends a promote call for
    the mock deployment [dpl_mock_current] to the platform, and reports
    success with that id if the call is answered 2xx; if it is called
    ["dpl_mock_current"], it fails with "No suitable deployment" after the
    one list request. *)
Theorem rollback_promotes_mock_after_failed_listing :
  forall (h : Host.t) (options : RollbackOptions.t) (token : string)
         (w : World) (log : list Request),
    configured (Host.VERCEL_TOKEN h) = Some token ->
    listing_failed w log (listRequest h (rollbackListing options) token) ->
    let listed := (log ++ [listRequest h (rollbackListing options) token])%list in
    let target := mockDeployment h (RollbackOptions.projectName options) in
    (RollbackOptions.deploymentId options <> "dpl_mock_current" ->
     snd (executeVercelRollback h options w log)
     = (listed ++ [promoteRequest h token target])%list
     /\ Str.startsWith (req_url (promoteRequest h token target))
          "https://api.vercel.com/v13/deployments/dpl_mock_current/promote" = true
     /\ forall response,
         w listed (promoteRequest h token target) = Ok response ->
         ok response = true ->
         exists r,
           fst (executeVercelRollback h options w log) = Ok r
           /\ RollbackResult.success r = true
           /\ RollbackResult.previousDeploymentId r
              = Some (JStr "dpl_mock_current"))
    /\ (RollbackOptions.deploymentId options = "dpl_mock_current" ->
        exists r,
          executeVercelRollback h options w log = (Ok r, listed)
          /\ RollbackResult.success r = false
          /\ RollbackResult.message r
             = "Rollback failed: No suitable deployment found for rollback").
Proof.
  intros h options token w log Htoken Hfailed listed target.
  pose proof (fetchVercelDeployments_on_failure h (rollbackListing options)
                token w log Htoken Hfailed) as Hlist.
  pose proof (executeVercelRollback_after_listing h options token w log _ _
                Htoken Hlist) as Hrun.
  change (Deployments.deployments
            (getMockVercelDeployments h (rollbackListing options)))
    with [target] in Hrun.
  cbn [find] in Hrun. unfold target in Hrun at 1.
  rewrite eligible_mock in Hrun. fold listed in Hrun.
  split; intro Hid.
  - apply String.eqb_neq in Hid. rewrite String.eqb_sym in Hid.
    rewrite Hid in Hrun. cbn [negb] in Hrun.
    change (printable (Deployment.id target)) with true in Hrun.
    cbv iota in Hrun.
    split; [ | split].
    + now rewrite Hrun.
    + unfold promoteRequest, promoteUrlOf. simpl.
      destruct (configured (Host.VERCEL_TEAM_ID h)); reflexivity.
    + intros response Hresponse Hok. rewrite Hresponse in Hrun.
      unfold promoted in Hrun. rewrite Hok in Hrun.
      rewrite Hrun. eexists. split; [reflexivity | ]. split; reflexivity.
  - rewrite Hid in Hrun. cbn in Hrun.
    eexists. split; [exact Hrun | ]. split; reflexivity.
Qed.

Lemma rollback_promotes_mock_witness :
  let listed :=
    [listRequest live_host (rollbackListing sample_rollback) "vercel-token"] in
  let target := mockDeployment live_host "web" in
  ("dpl_current" <> "dpl_mock_current" ->
   snd (executeVercelRollback live_host sample_rollback list_down_promote_up [])
   = (listed ++ [promoteRequest live_host "vercel-token" target])%list
   /\ Str.startsWith (req_url (promoteRequest live_host "vercel-token" target))
        "https://api.vercel.com/v13/deployments/dpl_mock_current/promote" = true
   /\ forall response,
       list_down_promote_up listed (promoteRequest live_host "vercel-token" target)
       = Ok response ->
       ok response = true ->
       exists r,
         fst (executeVercelRollback live_host sample_rollback
                list_down_promote_up []) = Ok r
         /\ RollbackResult.success r = true
         /\ RollbackResult.previousDeploymentId r
            = Some (JStr "dpl_mock_current"))
  /\ ("dpl_current" = "dpl_mock_current" ->
      exists r,
        executeVercelRollback live_host sample_rollback list_down_promote_up []
        = (Ok r, listed)
        /\ RollbackResult.success r = false
        /\ RollbackResult.message r
           = "Rollback failed: No suitable deployment found for rollback").
Proof.
  apply (rollback_promotes_mock_after_failed_listing live_host sample_rollback
           "vercel-token" list_down_promote_up []).
  - reflexivity.
  - left. eexists. reflexivity.
Defined.

(** With the network down for the list and up for the promote, a rollback
    of [dpl_current] reports a successful rollback to the mock id. *)
Example rollback_to_mock_id :
  fst (executeVercelRollback live_host sample_rollback list_down_promote_up [])
  = Ok (RollbackResult.mk true "dpl_current" (Some (JStr "dpl_mock_current"))
          (Some completed) (Some 100%Z)
          "Successfully rolled back web to deployment dpl_mock_current"
          "2026-01-01T00:00:00.000Z").
Proof. reflexivity. Qed.

(** ** Why a rollback failed *)

(** X5: once a target is found, a failed rollback names its cause.  A
    target whose id does not convert to text gives
    ["Rollback failed: Cannot convert object to primitive value"], after
    the list request alone.  Otherwise the promote call is made, and: an
    answer outside 2xx gives ["Rollback failed: Vercel rollback error: "]
    followed by the status text; a promote call that throws an [Error]
    gives ["Rollback failed: "] followed by its message; any other thrown
    value gives ["Rollback failed: Unknown error"].  In each case
    [success] is false, [status] is failed and [progress] is 0. *)
Theorem rollback_failure_names_cause :
  forall (h : Host.t) (options : RollbackOptions.t) (token : string)
         (w : World) (log : list Request) (ds : Deployments.t)
         (target : Deployment.t),
    configured (Host.VERCEL_TOKEN h) = Some token ->
    fst (fetchVercelDeployments h (rollbackListing options) w log) = Ok ds ->
    rollback_target (RollbackOptions.deploymentId options)
      (Deployments.deployments ds) target ->
    let listed := (log ++ [listRequest h (rollbackListing options) token])%list in
    let failure message requests :=
      executeVercelRollback h options w log
      = (Ok (RollbackResult.mk false (RollbackOptions.deploymentId options)
               None (Some failed) (Some 0%Z) message (Host.now h)),
         requests) in
    (printable (Deployment.id target) = false ->
     failure "Rollback failed: Cannot convert object to primitive value" listed)
    /\ (printable (Deployment.id target) = true ->
        (forall response,
            w listed (promoteRequest h token target) = Ok response ->
            ok response = false ->
            failure
              ("Rollback failed: Vercel rollback error: " ++ statusText response)
              (listed ++ [promoteRequest h token target])%list)
        /\ (forall name message,
            w listed (promoteRequest h token target)
            = Throw (JsError name message) ->
            failure ("Rollback failed: " ++ message)
              (listed ++ [promoteRequest h token target])%list)
        /\ (forall v,
            w listed (promoteRequest h token target) = Throw (Thrown v) ->
            failure "Rollback failed: Unknown error"
              (listed ++ [promoteRequest h token target])%list)).
Proof.
  intros h options token w log ds target Htoken Hds Htarget listed failure.
  destruct (fetchVercelDeployments_run h (rollbackListing options) token w log
              Htoken) as (ds' & Hlist).
  rewrite Hlist in Hds. simpl in Hds. inversion Hds; subst ds'.
  pose proof (executeVercelRollback_after_listing h options token w log _ _
                Htoken Hlist) as Hrun.
  rewrite (find_rollback_target _ _ _ Htarget) in Hrun. fold listed in Hrun.
  unfold failure. split; intro Hprintable; rewrite Hprintable in Hrun.
  - exact Hrun.
  - unfold promoted in Hrun. split; [ | split].
    + intros response Hresponse Hok. now rewrite Hrun, Hresponse, Hok.
    + intros name message Hthrow. now rewrite Hrun, Hthrow.
    + intros v Hthrow. now rewrite Hrun, Hthrow.
Qed.

Lemma rollback_failure_witness :
  let listed :=
    [listRequest live_host (rollbackListing sample_rollback) "vercel-token"] in
  let target :=
    Deployment.mk (JStr "dpl_previous") "web" (JStr "READY")
      "https://web-1.vercel.app" "2025-06-01T12:00:00.000Z" JUndefined JUndefined in
  let failure message requests :=
    executeVercelRollback live_host sample_rollback
      (promote_refused two_deployments) []
    = (Ok (RollbackResult.mk false "dpl_current" None (Some failed) (Some 0%Z)
             message "2026-01-01T00:00:00.000Z"),
       requests) in
  (printable (Deployment.id target) = false ->
   failure "Rollback failed: Cannot convert object to primitive value" listed)
  /\ (printable (Deployment.id target) = true ->
      (forall response,
          promote_refused two_deployments listed
            (promoteRequest live_host "vercel-token" target) = Ok response ->
          ok response = false ->
          failure
            ("Rollback failed: Vercel rollback error: " ++ statusText response)
            (listed ++ [promoteRequest live_host "vercel-token" target])%list)
      /\ (forall name message,
          promote_refused two_deployments listed
            (promoteRequest live_host "vercel-token" target)
          = Throw (JsError name message) ->
          failure ("Rollback failed: " ++ message)
            (listed ++ [promoteRequest live_host "vercel-token" target])%list)
      /\ (forall v,
          promote_refused two_deployments listed
            (promoteRequest live_host "vercel-token" target) = Throw (Thrown v) ->
          failure "Rollback failed: Unknown error"
            (listed ++ [promoteRequest live_host "vercel-token" target])%list)).
Proof.
  apply (rollback_failure_names_cause live_host sample_rollback "vercel-token"
           (promote_refused two_deployments) []
           (Deployments.mk
              [Deployment.mk (JStr "dpl_current") "web" (JStr "READY")
                 "https://web-2.vercel.app" "2025-06-01T12:00:00.000Z"
                 JUndefined JUndefined;
               Deployment.mk (JStr "dpl_failed") "web" (JStr "ERROR")
                 "https://web-1b.vercel.app" "2025-06-01T12:00:00.000Z"
                 JUndefined JUndefined;
               Deployment.mk (JStr "dpl_previous") "web" (JStr "READY")
                 "https://web-1.vercel.app" "2025-06-01T12:00:00.000Z"
                 JUndefined JUndefined])).
  - reflexivity.
  - reflexivity.
  - exists [Deployment.mk (JStr "dpl_current") "web" (JStr "READY")
              "https://web-2.vercel.app" "2025-06-01T12:00:00.000Z"
              JUndefined JUndefined;
            Deployment.mk (JStr "dpl_failed") "web" (JStr "ERROR")
              "https://web-1b.vercel.app" "2025-06-01T12:00:00.000Z"
              JUndefined JUndefined], [].
    split; [reflexivity | ]. split.
    + constructor; [intros [Hid _]; now apply Hid | ].
      constructor; [intros [_ Hstatus]; discriminate Hstatus | constructor].
    + split; [discriminate | reflexivity].
Defined.

(** A refused promote, end to end. *)
Example rollback_refused :
  fst (executeVercelRollback live_host sample_rollback
         (promote_refused two_deployments) [])
  = Ok (RollbackResult.mk false "dpl_current" None (Some failed) (Some 0%Z)
          "Rollback failed: Vercel rollback error: Forbidden"
          "2026-01-01T00:00:00.000Z").
Proof. reflexivity. Qed.

(** ** The server actions *)

Lemma try_catch_of_Ok {A} (body : IO A) (handler : Exn -> IO A) w log a log' :
  body w log = (Ok a, log') -> try_catch body handler w log = (Ok a, log').
Proof. intro H. unfold try_catch. now rewrite H. Qed.

Lemma fetchSentryIssues_returns rev h options w log :
  exists r log', fetchSentryIssues rev h options w log = (Ok r, log').
Proof.
  destruct (fetchSentryIssues_real_or_mock rev h options w log)
    as (r & log' & Hrun & _). eauto.
Qed.

Lemma fetchGitHubCommitDiff_returns rev h options w log :
  exists r log', fetchGitHubCommitDiff rev h options w log = (Ok r, log').
Proof.
  destruct (fetchGitHubCommitDiff_real_or_mock rev h options w log)
    as (r & log' & Hrun & _). eauto.
Qed.

(** X6: the three read actions return exactly what the client they wrap
    returns, with the same requests; the objects their own [catch] blocks
    would build are never returned.  In particular the result of
    [getVercelDeploymentsAction] never has a [summary] or a
    [currentProduction] key. *)
Theorem read_actions_pass_through :
  forall (rev : Revision) (h : Host.t) (w : World) (log : list Request),
    (forall input,
        getSentryIssuesAction rev h input w log
        = fetchSentryIssues rev h input w log)
    /\ (forall input,
        getGitHubCommitDiffAction rev h input w log
        = fetchGitHubCommitDiff rev h input w log)
    /\ (forall input,
        exists r log',
          fetchVercelDeployments h input w log = (Ok r, log')
          /\ getVercelDeploymentsAction h input w log
             = (Ok (DeploymentsActionResult.mk (Deployments.deployments r)
                      None None), log')).
Proof.
  intros rev h w log. split; [ | split]; intro input.
  - destruct (fetchSentryIssues_returns rev h input w log) as (r & log' & Hrun).
    unfold getSentryIssuesAction.
    now rewrite (try_catch_of_Ok _ _ w log r log' Hrun).
  - destruct (fetchGitHubCommitDiff_returns rev h input w log)
      as (r & log' & Hrun).
    unfold getGitHubCommitDiffAction.
    now rewrite (try_catch_of_Ok _ _ w log r log' Hrun).
  - destruct (fetchVercelDeployments_returns h input w log) as (r & log' & Hrun).
    exists r, log'. split; [exact Hrun | ].
    unfold getVercelDeploymentsAction, try_catch, bind. now rewrite Hrun.
Qed.

(** ** The page *)

Lemma pageReads_run rev h e w log :
  let sentry := SentryOptions.mk None None (Some 10%Z) in
  let github :=
    GitHubOptions.mk (env_or (PageEnv.GITHUB_REPO_OWNER e) "vercel")
      (env_or (PageEnv.GITHUB_REPO_NAME e) "next.js")
      (env_or (PageEnv.GITHUB_COMMIT_SHA e) "main") None in
  let vercel := VercelOptions.mk (vercelProjectName e) (Some 5%Z) in
  exists threatData diffData deploymentsData,
    let log1 := (log ++ sentryCalls h sentry)%list in
    let log2 := (log1 ++ githubCalls h github)%list in
    let log3 := (log2 ++ vercelCalls h vercel)%list in
    fetchSentryIssues rev h sentry w log = (Ok threatData, log1)
    /\ fetchGitHubCommitDiff rev h github w log1 = (Ok diffData, log2)
    /\ fetchVercelDeployments h vercel w log2 = (Ok deploymentsData, log3)
    /\ pageReads rev h e w log
       = (Ok (PageData.mk threatData diffData deploymentsData), log3).
Proof.
  intros sentry github vercel.
  destruct (fetchSentryIssues_returns rev h sentry w log) as (t & l1 & H1).
  pose proof (fetchSentryIssues_log rev h sentry w log) as E1.
  rewrite H1 in E1. simpl in E1. subst l1.
  destruct (fetchGitHubCommitDiff_returns rev h github w
              (log ++ sentryCalls h sentry)%list) as (d & l2 & H2).
  pose proof (fetchGitHubCommitDiff_log rev h github w
                (log ++ sentryCalls h sentry)%list) as E2.
  rewrite H2 in E2. simpl in E2. subst l2.
  destruct (fetchVercelDeployments_returns h vercel w
              ((log ++ sentryCalls h sentry) ++ githubCalls h github)%list)
    as (v & l3 & H3).
  pose proof (fetchVercelDeployments_log h vercel w
                ((log ++ sentryCalls h sentry) ++ githubCalls h github)%list) as E3.
  rewrite H3 in E3. simpl in E3. subst l3.
  exists t, d, v. cbv zeta. repeat split; try assumption.
  unfold pageReads, bind, try_catch, ret.
  fold sentry github vercel. now rewrite H1, H2, H3.
Qed.

(** X7: the page always gets its three data sets: it calls the Sentry,
    GitHub and Vercel clients in that order, each result is what that
    client returns at that point, at most three requests are made in all,
    and the page's own [catch] on the deployment list never replaces it
    by the empty list. *)
Theorem page_reads_never_fail :
  forall (rev : Revision) (h : Host.t) (e : PageEnv.t) (w : World)
         (log : list Request),
    exists data log',
      pageReads rev h e w log = (Ok data, log')
      /\ (List.length log' <= List.length log + 3)%nat
      /\ exists log1 log2,
          fetchSentryIssues rev h (SentryOptions.mk None None (Some 10%Z)) w log
          = (Ok (PageData.threatData data), log1)
          /\ fetchGitHubCommitDiff rev h
               (GitHubOptions.mk (env_or (PageEnv.GITHUB_REPO_OWNER e) "vercel")
                  (env_or (PageEnv.GITHUB_REPO_NAME e) "next.js")
                  (env_or (PageEnv.GITHUB_COMMIT_SHA e) "main") None) w log1
             = (Ok (PageData.diffData data), log2)
          /\ fetchVercelDeployments h
               (VercelOptions.mk (vercelProjectName e) (Some 5%Z)) w log2
             = (Ok (PageData.deploymentsData data), log').
Proof.
  intros rev h e w log.
  destruct (pageReads_run rev h e w log) as (t & d & v & H1 & H2 & H3 & Hrun).
  eexists _, _. split; [exact Hrun | ]. split.
  - rewrite !length_app. unfold sentryCalls, githubCalls, vercelCalls.
    destruct (configured (Host.SENTRY_AUTH_TOKEN h)),
      (configured (Host.SENTRY_ORG h)),
      (sentryProject h (SentryOptions.mk None None (Some 10%Z))),
      (configured (Host.GITHUB_TOKEN h)),
      (configured (Host.VERCEL_TOKEN h)); simpl; lia.
  - eexists _, _. simpl. eauto.
Qed.

Lemma In_firstn {A} (x : A) n l : In x (firstn n l) -> In x l.
Proof.
  intro H. rewrite <- (firstn_skipn n l). apply in_or_app. now left.
Qed.

(** The count of critical issues in every summary the client returns is
    the number of critical issues in its list. *)
Lemma fetched_critical_count rev h options w log r log' :
  In rev revisions ->
  fetchSentryIssues rev h options w log = (Ok r, log') ->
  IssueSummary.critical (SentryResult.summary r)
  = List.length (filter is_critical (SentryResult.issues r)).
Proof.
  intros Hrev Hrun.
  destruct (fetchSentryIssues_cases rev h options w log)
    as (r0 & log0 & Hrun0 & Hcases).
  rewrite Hrun in Hrun0. inversion Hrun0; subst r0 log0; clear Hrun0.
  destruct Hcases as [-> | (project & items & _ & Hsummary & _)].
  - destruct Hrev as [<- | [<- | []]]; reflexivity.
  - destruct (summarize_counters _ _ Hsummary) as (-> & _). reflexivity.
Qed.

Lemma fetched_not_resolved rev h options w log r log' :
  In rev revisions ->
  fetchSentryIssues rev h options w log = (Ok r, log') ->
  Forall (fun i => Issue.severity i <> resolved) (SentryResult.issues r).
Proof.
  intros Hrev Hrun.
  destruct (fetchSentryIssues_cases rev h options w log)
    as (r0 & log0 & Hrun0 & Hcases).
  rewrite Hrun in Hrun0. inversion Hrun0; subst r0 log0; clear Hrun0.
  destruct Hcases as [-> | (project & items & Hmap & _ & _)].
  - destruct Hrev as [<- | [<- | []]]; repeat constructor; discriminate.
  - eapply transformed_not_resolved; eassumption.
Qed.

(** X8: on whatever [fetchSentryIssues] returned, the page's "Active
    Incidents" number is the number of issues in the list, its status is
    ["alert"] exactly when the list has a critical issue, and every issue
    event of the timeline has status ["failed"]: none is ever shown as
    completed. *)
Theorem page_issue_figures :
  forall (rev : Revision) (h : Host.t) (options : SentryOptions.t)
         (w : World) (log : list Request) (threatData : SentryResult.t)
         (log' : list Request),
    In rev revisions ->
    fetchSentryIssues rev h options w log = (Ok threatData, log') ->
    activeIncidents threatData = List.length (SentryResult.issues threatData)
    /\ (vitalsStatus threatData = alert
        <-> exists i, In i (SentryResult.issues threatData)
                      /\ Issue.severity i = critical)
    /\ Forall (fun ev => TimelineEvent.status ev = event_failed)
         (issueEvents threatData).
Proof.
  intros rev h options w log threatData log' Hrev Hrun.
  split; [ | split].
  - apply (fetched_summary rev h options w log threatData log' Hrev Hrun).
  - unfold vitalsStatus.
    rewrite (fetched_critical_count rev h options w log threatData log' Hrev Hrun).
    split.
    + destruct (filter is_critical (SentryResult.issues threatData))
        as [ | i rest] eqn:Hfilter; [discriminate | ].
      intros _. exists i.
      assert (Hin : In i (filter is_critical (SentryResult.issues threatData)))
        by (rewrite Hfilter; now left).
      apply filter_In in Hin. destruct Hin as [Hin Hcrit]. split; [exact Hin | ].
      unfold is_critical, is_severity in Hcrit.
      now destruct (Issue.severity i).
    + intros (i & Hin & Hcrit).
      assert (Hin' : In i (filter is_critical (SentryResult.issues threatData))).
      { apply filter_In. split; [exact Hin | ].
        unfold is_critical, is_severity. now rewrite Hcrit. }
      destruct (filter is_critical (SentryResult.issues threatData));
        [contradiction | reflexivity].
  - pose proof (fetched_not_resolved rev h options w log threatData log' Hrev Hrun)
      as Hnone.
    unfold issueEvents. apply Forall_forall. intros ev Hev.
    apply in_map_iff in Hev. destruct Hev as (i & <- & Hi).
    apply In_firstn in Hi.
    rewrite Forall_forall in Hnone. specialize (Hnone i Hi).
    unfold issueEvent; simpl. now destruct (Issue.severity i).
Qed.

Lemma page_issue_figures_witness :
  activeIncidents (getMockSentryData_001 bare_host)
  = List.length (SentryResult.issues (getMockSentryData_001 bare_host))
  /\ (vitalsStatus (getMockSentryData_001 bare_host) = alert
      <-> exists i, In i (SentryResult.issues (getMockSentryData_001 bare_host))
                    /\ Issue.severity i = critical)
  /\ Forall (fun ev => TimelineEvent.status ev = event_failed)
       (issueEvents (getMockSentryData_001 bare_host)).
Proof.
  apply (page_issue_figures part_001 bare_host no_options offline [] _ []).
  - right; left; reflexivity.
  - reflexivity.
Defined.

Lemma deploymentEvent_of_object h d :
  deploymentEvent h (deploymentObject d) = Ok (placeholderEvent h).
Proof. reflexivity. Qed.

(** X9: the timeline reads [created], [target], [name], [state] and
    [creator] from deployments that the client has normalized to [id],
    [projectName], [status], [url], [createdAt], [commitSha] and [branch].
    So every deployment event is the same placeholder, whatever the
    deployment: "Deployment to production", "Deployment", the current time,
    status ["in-progress"] (never ["completed"], even for a READY
    deployment) and "System"; there are at most two of them. *)
Theorem page_deployment_events_are_placeholders :
  forall (h : Host.t) (deploymentsData : Deployments.t),
    deploymentEvents h deploymentsData
    = Ok (repeat (placeholderEvent h)
            (Nat.min 2 (List.length (Deployments.deployments deploymentsData)))).
Proof.
  intros h [ds]. unfold deploymentEvents. simpl.
  destruct ds as [ | d1 [ | d2 rest]]; reflexivity.
Qed.

(** ** More on [parsePatch] *)

Lemma startsWith_char line (c : ascii) :
  Str.startsWith line (String c EmptyString) = true ->
  line = String c (Str.substring1 line).
Proof.
  unfold Str.startsWith. intro H.
  destruct line as [ | a rest]; cbn [String.prefix] in H; [discriminate H | ].
  destruct (ascii_dec c a) as [<- | ]; [reflexivity | discriminate H].
Qed.

Lemma header_is_no_change_line line :
  Str.startsWith line "@@" = true -> is_change_line line = false.
Proof.
  unfold is_change_line, Str.startsWith. intro H.
  destruct line as [ | a rest]; cbn [String.prefix] in H; [discriminate H | ].
  destruct (ascii_dec "@" a) as [<- | ]; [reflexivity | discriminate H].
Qed.

Lemma emitted_length n lines :
  List.length (emitted n lines) = List.length (filter is_change_line lines).
Proof.
  revert n. induction lines as [ | line rest IH]; intro n; simpl; [reflexivity | ].
  destruct (Str.startsWith line "@@") eqn:Hheader.
  { rewrite (header_is_no_change_line line Hheader). apply IH. }
  unfold is_change_line.
  destruct (Str.startsWith line "+"); simpl; [now rewrite IH | ].
  destruct (Str.startsWith line "-"); simpl; [now rewrite IH | ].
  destruct (Str.startsWith line " "); simpl; [now rewrite IH | apply IH].
Qed.

Lemma emitted_from_lines n lines c :
  In c (emitted n lines) ->
  In (line_of c) lines /\ Str.startsWith (line_of c) "@@" = false.
Proof.
  revert n. induction lines as [ | line rest IH]; intro n; simpl; [tauto | ].
  destruct (Str.startsWith line "@@") eqn:Hheader.
  { intro H. destruct (IH _ H). tauto. }
  destruct (Str.startsWith line "+") eqn:Hadd.
  { intros [<- | H]; [ | destruct (IH _ H); tauto].
    unfold line_of; simpl. rewrite <- (startsWith_char line "+" Hadd). tauto. }
  destruct (Str.startsWith line "-") eqn:Hremove.
  { intros [<- | H]; [ | destruct (IH _ H); tauto].
    unfold line_of; simpl. rewrite <- (startsWith_char line "-" Hremove). tauto. }
  destruct (Str.startsWith line " ") eqn:Hcontext.
  { intros [<- | H]; [ | destruct (IH _ H); tauto].
    unfold line_of; simpl. rewrite <- (startsWith_char line " " Hcontext). tauto. }
  intro H. destruct (IH _ H). tauto.
Qed.

(** X10: [parsePatch] returns one record for each line of the patch that
    starts with [+], [-] or a space, up to 20 of them: a patch with more
    than 20 such lines gives exactly 20 records, one with fewer gives
    them all, and the empty patch gives none. *)
Theorem parsePatch_counts_change_lines :
  forall patch : string,
    List.length (parsePatch patch)
    = Nat.min 20
        (List.length (filter is_change_line (Str.split Str.LF patch))).
Proof.
  intro patch. rewrite parsePatch_emitted, length_firstn.
  now rewrite emitted_length.
Qed.

(** X11: every record [parsePatch] returns was read from a line of the
    patch: that line is the record's marker ([+] for add, [-] for remove,
    a space for context) followed by the record's content, and it is not a
    hunk header.  Headers and all other lines give no record, and the
    marker is never part of the content. *)
Theorem parsePatch_records_come_from_lines :
  forall (patch : string) (c : ChangeLine.t),
    In c (parsePatch patch) ->
    In (line_of c) (Str.split Str.LF patch)
    /\ Str.startsWith (line_of c) "@@" = false.
Proof.
  intros patch c H. rewrite parsePatch_emitted in H.
  apply In_firstn in H. eapply emitted_from_lines; eassumption.
Qed.

Lemma parsePatch_records_witness :
  In (line_of (ChangeLine.mk (Num.Fin 6) remove "b")) (Str.split Str.LF regression_patch)
  /\ Str.startsWith (line_of (ChangeLine.mk (Num.Fin 6) remove "b")) "@@" = false.
Proof.
  apply (parsePatch_records_come_from_lines regression_patch).
  vm_compute. right; left; reflexivity.
Defined.

(** *** Hunk headers with omitted counts *)

Lemma matchHere_opt_skipped p (c a : ascii) s :
  Ascii.eqb a c = false ->
  Regex.matchHere (Regex.OptLit c :: p) (String a s)
  = Regex.matchHere p (String a s).
Proof. intro H. cbn [Regex.matchHere]. now rewrite H. Qed.

Lemma matchHere_opt_count p (o : option N) rest caps :
  Regex.matchHere p (String " " rest) = Some caps ->
  Regex.matchHere (Regex.OptLit "," :: Regex.Digits 0 false :: p)
    (opt_count o ++ String " " rest)
  = Some caps.
Proof.
  intro Hp. destruct o as [n | ]; unfold opt_count.
  - cbn [append]. apply matchHere_opt_taken.
    destruct (decimal_spec n) as (Hdigits & _ & _).
    apply (matchHere_digits p 0 false _ _ caps Hdigits eq_refl);
      [reflexivity | exact Hp].
  - cbn [append]. rewrite matchHere_opt_skipped by reflexivity.
    exact (matchHere_digits p 0 false "" (String " " rest) caps eq_refl
             eq_refl eq_refl Hp).
Qed.

Lemma hunkHeader_groups a b c d tail :
  Regex.search Regex.hunk_header (hunkHeader a b c d tail)
  = Some [Str.decimal (Z.of_N a); Str.decimal (Z.of_N c)].
Proof.
  destruct (decimal_spec a) as (Ha & Hna & _).
  destruct (decimal_spec c) as (Hc & Hnc & _).
  apply search_here. unfold hunkHeader, Regex.hunk_header. cbn [append].
  rewrite !matchHere_lit.
  assert (Hends : forall o s, ends_run (opt_count o ++ String " " s)).
  { intros [n | ] s; reflexivity. }
  apply (matchHere_digits _ 1 true _ _ [Str.decimal (Z.of_N c)] Ha
           (nonempty_length _ Hna) (Hends b _)).
  apply matchHere_opt_count. rewrite !matchHere_lit.
  apply (matchHere_digits _ 1 true _ _ [] Hc (nonempty_length _ Hnc) (Hends d _)).
  apply matchHere_opt_count. rewrite !matchHere_lit. reflexivity.
Qed.

Lemma hunkHeader_starts a b c d tail :
  Str.startsWith (hunkHeader a b c d tail) "@@" = true.
Proof.
  unfold hunkHeader, Str.startsWith. cbn [append String.prefix].
  destruct (ascii_dec "@" "@"); [ | contradiction].
  destruct (ascii_dec "@" "@"); [reflexivity | contradiction].
Qed.

Lemma reset_to_hunkHeader a b c d tail n :
  reset_to (hunkHeader a b c d tail) n = Num.of_Z (Z.of_N c).
Proof.
  unfold reset_to, newFileStart. rewrite hunkHeader_groups. cbn [nth].
  unfold Num.parseInt. now destruct (decimal_spec c) as (_ & _ & ->).
Qed.

Lemma parseLine_hunkHeader a b c d tail n acc :
  parseLine (n, acc) (hunkHeader a b c d tail) = (Num.of_Z (Z.of_N c), acc).
Proof.
  unfold parseLine.
  rewrite hunkHeader_starts, hunkHeader_groups. cbn [nth].
  unfold Num.parseInt. now destruct (decimal_spec c) as (_ & _ & ->).
Qed.

(** X12: a hunk header whose new-file start line is at most 2^53 sets
    the counter to that line in each of the forms a diff uses: with both
    line counts ([@@ -a,b +c,d @@]), and with either or both left out, as
    for a hunk of one line ([@@ -a +c @@]); text after the closing [@@]
    does not matter, and the header itself gives no record.  (Beyond 2^53
    the counter is the nearest double.) *)
Theorem hunk_header_forms :
  forall (a : N) (b : option N) (c : N) (d : option N) (tail : string)
         (n : Num.t) (acc : list ChangeLine.t),
    (Z.of_N c <= Num.exact_bound)%Z ->
    parseLine (n, acc) (hunkHeader a b c d tail) = (Num.Fin (Z.of_N c), acc).
Proof.
  intros a b c d tail n acc Hc.
  rewrite parseLine_hunkHeader. now rewrite of_N_exact.
Qed.

Lemma hunk_header_forms_witness :
  parseLine (Num.Fin 0, []) (hunkHeader 7 None 9 None " def f():")
  = (Num.Fin 9, []).
Proof.
  apply (hunk_header_forms 7 None 9 None " def f():" (Num.Fin 0) []).
  apply Z.leb_le. reflexivity.
Defined.

(** A one-line hunk, as GitHub sends it. *)
Example single_line_hunk :
  parsePatch ("@@ -7 +9 @@ def f():" ++ String Str.LF "-x" ++ String Str.LF "+y")
  = [ChangeLine.mk (Num.Fin 9) remove "x"; ChangeLine.mk (Num.Fin 9) add "y"].
Proof. vm_compute. reflexivity. Qed.

(** *** Line numbers inside a hunk *)

Lemma split_one_line s : one_line s = true -> Str.split Str.LF s = [s].
Proof.
  unfold one_line. induction s as [ | a s IH]; [reflexivity | ].
  cbn [list_ascii_of_string forallb Str.split].
  intro H. apply andb_prop in H. destruct H as [Ha Hs].
  apply negb_true_iff in Ha. rewrite Ha, (IH Hs). reflexivity.
Qed.

Lemma split_line_then s rest :
  one_line s = true ->
  Str.split Str.LF (s ++ String Str.LF rest) = s :: Str.split Str.LF rest.
Proof.
  unfold one_line. induction s as [ | a s IH].
  - intros _. cbn [append Str.split]. now rewrite Ascii.eqb_refl.
  - cbn [list_ascii_of_string forallb append Str.split].
    intro H. apply andb_prop in H. destruct H as [Ha Hs].
    apply negb_true_iff in Ha. rewrite Ha, (IH Hs). reflexivity.
Qed.

(** Splitting the join of lines gives the lines back. *)
Lemma split_join line lines :
  Forall (fun l => one_line l = true) (line :: lines) ->
  Str.split Str.LF (Str.join (String Str.LF EmptyString) (line :: lines))
  = line :: lines.
Proof.
  revert line. induction lines as [ | next lines IH]; intros line H.
  - inversion H; subst. now apply split_one_line.
  - inversion H; subst. unfold Str.join in *. cbn [String.concat].
    cbn [append]. rewrite split_line_then by assumption.
    f_equal. now apply IH.
Qed.

Lemma emitted_numbering lines :
  Forall (fun l => Str.startsWith l "@@" = false) lines ->
  forall m k d,
    (0 <= m)%Z ->
    (m + Z.of_nat k <= Num.exact_bound)%Z ->
    (k < List.length (emitted (Num.Fin m) lines))%nat ->
    ChangeLine.lineNumber (nth k (emitted (Num.Fin m) lines) d)
    = Num.Fin
        (m + Z.of_nat
               (List.length
                  (filter advances (firstn k (emitted (Num.Fin m) lines))))).
Proof.
  induction 1 as [ | line rest Hline _ IH]; intros m k d Hm Hbound Hk;
    cbn [emitted] in *.
  - cbn [List.length] in Hk. lia.
  - rewrite Hline in *.
    destruct (Str.startsWith line "+").
    { destruct k as [ | k'];
        cbn [nth firstn filter advances ChangeLine.type ChangeLine.lineNumber
             List.length] in *.
      - f_equal. lia.
      - rewrite succ_exact in * by lia.
        rewrite (IH (m + 1)%Z k' d) by lia. f_equal. lia. }
    destruct (Str.startsWith line "-").
    { destruct k as [ | k'];
        cbn [nth firstn filter advances ChangeLine.type ChangeLine.lineNumber
             List.length] in *.
      - f_equal. lia.
      - rewrite (IH m k' d) by lia. f_equal. }
    destruct (Str.startsWith line " ").
    { destruct k as [ | k'];
        cbn [nth firstn filter advances ChangeLine.type ChangeLine.lineNumber
             List.length] in *.
      - f_equal. lia.
      - rewrite succ_exact in * by lia.
        rewrite (IH (m + 1)%Z k' d) by lia. f_equal. lia. }
    now apply IH.
Qed.

Lemma one_line_app s t :
  one_line s = true -> one_line t = true -> one_line (s ++ t) = true.
Proof.
  unfold one_line. induction s as [ | a s IH]; simpl; [tauto | ].
  intros H Ht. apply andb_prop in H. destruct H as [Ha Hs].
  now rewrite Ha, IH.
Qed.

Lemma digits_one_line s : all_digits s = true -> one_line s = true.
Proof.
  unfold all_digits, one_line. induction s as [ | a s IH]; simpl; [tauto | ].
  intro H. apply andb_prop in H. destruct H as [Ha Hs]. rewrite (IH Hs).
  rewrite andb_true_r. apply negb_true_iff. apply Ascii.eqb_neq.
  intros ->. discriminate Ha.
Qed.

Lemma hunkHeader_one_line a b c d tail :
  one_line tail = true -> one_line (hunkHeader a b c d tail) = true.
Proof.
  intro Htail. unfold hunkHeader.
  assert (Hdec : forall n, one_line (Str.decimal (Z.of_N n)) = true).
  { intro n. apply digits_one_line. now destruct (decimal_spec n). }
  assert (Hopt : forall o, one_line (opt_count o) = true).
  { intros [n | ]; [ | reflexivity]. unfold opt_count.
    apply one_line_app; [reflexivity | apply Hdec]. }
  repeat (apply one_line_app; auto).
Qed.

(** X13: inside a hunk the line numbers are fixed by the header and the
    kinds of the records: the record at position [k] of the output shows
    the header's new-file start line plus the number of add and context
    records before it, as long as the start line plus [k] is at most
    2^53.  So numbers never decrease within a hunk, a removed line shows
    the number of the new-file line that follows it, and the add that
    replaces a removed line shares its number. *)
Theorem hunk_line_numbers :
  forall (a : N) (b : option N) (c : N) (d : option N) (tail : string)
         (body : list string) (k : nat) (dflt : ChangeLine.t),
    one_line tail = true ->
    Forall (fun l => one_line l = true) body ->
    Forall (fun l => Str.startsWith l "@@" = false) body ->
    (Z.of_N c + Z.of_nat k <= Num.exact_bound)%Z ->
    let records :=
      parsePatch
        (Str.join (String Str.LF EmptyString) (hunkHeader a b c d tail :: body)) in
    (k < List.length records)%nat ->
    ChangeLine.lineNumber (nth k records dflt)
    = Num.Fin
        (Z.of_N c
         + Z.of_nat (List.length (filter advances (firstn k records)))).
Proof.
  intros a b c d tail body k dflt Htail Hlines Hbody Hbound records Hk.
  assert (Hrecords : records = firstn 20 (emitted (Num.Fin (Z.of_N c)) body)).
  { unfold records. rewrite parsePatch_emitted, split_join.
    - cbn [emitted]. rewrite hunkHeader_starts, reset_to_hunkHeader.
      now rewrite of_N_exact by lia.
    - constructor; [now apply hunkHeader_one_line | exact Hlines]. }
  rewrite Hrecords in *. clear Hrecords records.
  rewrite length_firstn in Hk.
  rewrite nth_firstn.
  replace (k <? 20)%nat with true by (symmetry; apply Nat.ltb_lt; lia).
  rewrite firstn_firstn. replace (Nat.min k 20) with k by lia.
  apply emitted_numbering; [exact Hbody | lia | exact Hbound | lia].
Qed.

Lemma hunk_line_numbers_witness :
  ChangeLine.lineNumber
    (nth 3
       (parsePatch
          (Str.join (String Str.LF EmptyString)
             (hunkHeader 1 (Some 3%N) 5 (Some 3%N) ""
                :: [" a"; "-b"; "+c"; " d"])))
       (ChangeLine.mk (Num.Fin 0) context ""))
  = Num.Fin
      (Z.of_N 5
       + Z.of_nat
           (List.length
              (filter advances
                 (firstn 3
                    (parsePatch
                       (Str.join (String Str.LF EmptyString)
                          (hunkHeader 1 (Some 3%N) 5 (Some 3%N) ""
                             :: [" a"; "-b"; "+c"; " d"]))))))).
Proof.
  apply (hunk_line_numbers 1 (Some 3%N) 5 (Some 3%N) "" [" a"; "-b"; "+c"; " d"] 3).
  - reflexivity.
  - repeat constructor.
  - repeat constructor.
  - apply Z.leb_le. reflexivity.
  - vm_compute. repeat constructor.
Defined.

(** ** [analyzeChanges] *)

Lemma prefix_spec needle hay :
  String.prefix needle hay = true <-> exists after, hay = needle ++ after.
Proof.
  revert hay. induction needle as [ | a needle IH]; intro hay.
  - split; [intros _; now exists hay | intros _; now destruct hay].
  - destruct hay as [ | b hay]; cbn [String.prefix append].
    + split; [discriminate | intros (after & H); discriminate].
    + destruct (ascii_dec a b) as [<- | Hne].
      * rewrite IH. split; intros (after & H); exists after.
        -- now rewrite H.
        -- now inversion H.
      * split; [discriminate | intros (after & H)].
        inversion H. congruence.
Qed.

(** [includes] is the substring test. *)
Lemma includes_spec hay needle :
  Str.includes hay needle = true <-> occurs_in needle hay.
Proof.
  unfold occurs_in. induction hay as [ | a hay IH]; cbn [Str.includes].
  - rewrite orb_false_r, prefix_spec. split.
    + intros (after & H). now exists "", after.
    + intros (before & after & H). destruct before; [now exists after | ].
      discriminate.
  - rewrite orb_true_iff, prefix_spec, IH. split.
    + intros [(after & H) | (before & after & H)].
      * now exists "", after.
      * exists (String a before), after. now rewrite H.
    + intros (before & after & H). destruct before as [ | b before].
      * left. now exists after.
      * right. inversion H. now exists before, after.
Qed.

Lemma is_add_spec c : is_add c = true <-> ChangeLine.type c = add.
Proof. unfold is_add. destruct (ChangeLine.type c); split; congruence. Qed.

Lemma added_scan changes needle :
  existsb (fun line => Str.includes line needle)
    (map ChangeLine.content (filter is_add changes)) = true
  <-> added_line_has changes needle.
Proof.
  rewrite existsb_exists. unfold added_line_has. split.
  - intros (line & Hin & Hinc). apply in_map_iff in Hin.
    destruct Hin as (c & <- & Hc). apply filter_In in Hc. destruct Hc as [Hc Hadd].
    exists c. rewrite <- is_add_spec, <- includes_spec. tauto.
  - intros (c & Hc & Hadd & Hocc). exists (ChangeLine.content c). split.
    + apply in_map. apply filter_In. now rewrite is_add_spec.
    + now apply includes_spec.
Qed.

Lemma added_scan2 changes n1 n2 :
  existsb (fun line => Str.includes line n1 || Str.includes line n2)
    (map ChangeLine.content (filter is_add changes)) = true
  <-> added_line_has changes n1 \/ added_line_has changes n2.
Proof.
  rewrite <- !added_scan, !existsb_exists. split.
  - intros (line & Hin & H). apply orb_true_iff in H. destruct H; eauto.
  - intros [(line & Hin & H) | (line & Hin & H)]; exists line;
      rewrite H; auto using orb_true_r.
Qed.

Lemma filter_twice {A} (f : A -> bool) l : filter f (filter f l) = filter f l.
Proof.
  induction l as [ | c l IH]; [reflexivity | ]. cbn [filter].
  destruct (f c) eqn:E; [ | exact IH]. cbn [filter]. now rewrite E, IH.
Qed.

(** The result, from the three scans. *)
Lemma analyzeChanges_by_scans changes filename :
  let lines := map ChangeLine.content (filter is_add changes) in
  let debug := existsb (fun line => Str.includes line "console.log") lines in
  let todo :=
    existsb (fun line => Str.includes line "TODO" || Str.includes line "FIXME")
      lines in
  let any := existsb (fun line => Str.includes line "any") lines in
  analyzeChanges changes filename
  = filter
      (fun s =>
         (String.eqb s debugAdvisory && debug)
         || (String.eqb s todoAdvisory && todo)
         || (String.eqb s anyAdvisory && any)
         || (String.eqb s noIssuesAdvisory && negb (debug || todo || any)))
      [debugAdvisory; todoAdvisory; anyAdvisory; noIssuesAdvisory].
Proof.
  intros lines debug todo any. unfold analyzeChanges.
  fold lines. fold debug. fold todo. fold any.
  destruct debug, todo, any; reflexivity.
Qed.

(** X14: [analyzeChanges] looks at the added lines only and ignores the
    file name.  Its result has the debug advisory exactly when an added
    line contains ["console.log"], the TODO advisory exactly when one
    contains ["TODO"] or ["FIXME"], the advisory on [any] exactly when one
    contains the letters ["any"] (inside a longer word too), and the
    "no obvious issues" advisory exactly when it has none of the three;
    it is never empty, has no advisory twice, and keeps that order. *)
Theorem analyzeChanges_advisories :
  forall (changes : list ChangeLine.t) (filename : JS),
    let result := analyzeChanges changes filename in
    (In debugAdvisory result <-> added_line_has changes "console.log")
    /\ (In todoAdvisory result
        <-> added_line_has changes "TODO" \/ added_line_has changes "FIXME")
    /\ (In anyAdvisory result <-> added_line_has changes "any")
    /\ (In noIssuesAdvisory result
        <-> ~ added_line_has changes "console.log"
            /\ ~ (added_line_has changes "TODO" \/ added_line_has changes "FIXME")
            /\ ~ added_line_has changes "any")
    /\ (exists keep,
           result
           = filter keep
               [debugAdvisory; todoAdvisory; anyAdvisory; noIssuesAdvisory])
    /\ result <> []
    /\ (forall filename', analyzeChanges changes filename' = result)
    /\ analyzeChanges (filter is_add changes) filename = result.
Proof.
  intros changes filename result.
  pose proof (added_scan changes "console.log") as H1.
  pose proof (added_scan2 changes "TODO" "FIXME") as H2.
  pose proof (added_scan changes "any") as H3.
  assert (Hsame : forall filename', analyzeChanges changes filename' = result)
    by reflexivity.
  assert (Hadded : analyzeChanges (filter is_add changes) filename = result).
  { unfold result, analyzeChanges. now rewrite filter_twice. }
  assert (Hkeep :
            exists keep,
              result
              = filter keep
                  [debugAdvisory; todoAdvisory; anyAdvisory; noIssuesAdvisory]).
  { eexists. apply analyzeChanges_by_scans. }
  assert (Hmain :
            (In debugAdvisory result <-> added_line_has changes "console.log")
            /\ (In todoAdvisory result
                <-> added_line_has changes "TODO" \/ added_line_has changes "FIXME")
            /\ (In anyAdvisory result <-> added_line_has changes "any")
            /\ (In noIssuesAdvisory result
                <-> ~ added_line_has changes "console.log"
                    /\ ~ (added_line_has changes "TODO"
                          \/ added_line_has changes "FIXME")
                    /\ ~ added_line_has changes "any")
            /\ result <> []).
  { clear Hsame Hadded Hkeep.
    unfold result. rewrite analyzeChanges_by_scans. cbv zeta.
    set (lines := map ChangeLine.content (filter is_add changes)) in *.
    destruct (existsb (fun line => Str.includes line "console.log") lines);
      destruct (existsb
                  (fun line => Str.includes line "TODO" || Str.includes line "FIXME")
                  lines);
      destruct (existsb (fun line => Str.includes line "any") lines);
      cbn;
      unfold debugAdvisory, todoAdvisory, anyAdvisory, noIssuesAdvisory;
      repeat split;
      try discriminate;
      intuition (try discriminate; try congruence). }
  destruct Hmain as (M1 & M2 & M3 & M4 & M5).
  exact (conj M1 (conj M2 (conj M3 (conj M4
           (conj Hkeep (conj M5 (conj Hsame Hadded))))))).
Qed.

(** ** [getLanguageFromFilename] *)

Lemma split_nonempty c s : Str.split c s <> [].
Proof.
  destruct s as [ | a s]; cbn [Str.split]; [discriminate | ].
  destruct (Ascii.eqb a c); [discriminate | ].
  destruct (Str.split c s); discriminate.
Qed.

Lemma split_without c s : without c s = true -> Str.split c s = [s].
Proof.
  unfold without. induction s as [ | a s IH]; [reflexivity | ].
  cbn [list_ascii_of_string forallb Str.split].
  intro H. apply andb_prop in H. destruct H as [Ha Hs].
  apply negb_true_iff in Ha. rewrite Ha, (IH Hs). reflexivity.
Qed.

(** Splitting at a separator splits on both sides of it. *)
Lemma split_at c s t :
  Str.split c (s ++ String c t) = (Str.split c s ++ Str.split c t)%list.
Proof.
  induction s as [ | a s IH]; cbn [append Str.split].
  - now rewrite Ascii.eqb_refl.
  - destruct (Ascii.eqb a c); [now rewrite IH | ].
    rewrite IH. pose proof (split_nonempty c s) as Hne.
    destruct (Str.split c s); [contradiction | reflexivity].
Qed.

Lemma last_split_at c s t :
  without c t = true -> last (Str.split c (s ++ String c t)) "" = t.
Proof.
  intro Ht. rewrite split_at, (split_without c t Ht).
  apply last_last.
Qed.

Lemma lower_ascii_idem a : Str.lower_ascii (Str.lower_ascii a) = Str.lower_ascii a.
Proof.
  destruct a as [[ | ] [ | ] [ | ] [ | ] [ | ] [ | ] [ | ] [ | ]]; reflexivity.
Qed.

Lemma lower_ascii_keeps_dot a :
  Ascii.eqb a "." = false -> Ascii.eqb (Str.lower_ascii a) "." = false.
Proof.
  destruct a as [[ | ] [ | ] [ | ] [ | ] [ | ] [ | ] [ | ] [ | ]];
    vm_compute; intro H; first [exact H | reflexivity].
Qed.

Lemma toLowerCase_idem s : Str.toLowerCase (Str.toLowerCase s) = Str.toLowerCase s.
Proof.
  induction s as [ | a s IH]; cbn [Str.toLowerCase]; [reflexivity | ].
  now rewrite lower_ascii_idem, IH.
Qed.

Lemma toLowerCase_without_dot s :
  without "." s = true -> without "." (Str.toLowerCase s) = true.
Proof.
  unfold without. induction s as [ | a s IH]; [reflexivity | ].
  cbn [Str.toLowerCase list_ascii_of_string forallb].
  intro H. apply andb_prop in H. destruct H as [Ha Hs].
  apply negb_true_iff in Ha.
  now rewrite (lower_ascii_keeps_dot a Ha), (IH Hs).
Qed.

Lemma language_of_extension base ext :
  without "." ext = true ->
  getLanguageFromFilename (JStr (base ++ String "." ext))
  = let! entry := get langMap (Str.toLowerCase ext) in
    Ok (or_else entry (JStr "text")).
Proof.
  intro Hext. unfold getLanguageFromFilename, call_split. cbn [obind].
  now rewrite (last_split_at "." base ext Hext).
Qed.

Lemma language_of_bare_name ext :
  without "." ext = true ->
  getLanguageFromFilename (JStr ext)
  = let! entry := get langMap (Str.toLowerCase ext) in
    Ok (or_else entry (JStr "text")).
Proof.
  intro Hext. unfold getLanguageFromFilename, call_split. cbn [obind].
  now rewrite (split_without "." ext Hext).
Qed.

(** X15: [getLanguageFromFilename] decides on the text after the last dot
    of the name alone, compared without regard to (ASCII) letter case:
    whatever comes before that dot, and whatever the case of the
    extension, the answer is the one for the lower-case extension on its
    own; so [a/b.c/App.TSX] is TypeScript, and a file called just [py] is
    Python.  Each of the eleven extensions of the table gives its
    language. *)
Theorem language_depends_on_last_extension :
  forall (base ext : string),
    without "." ext = true ->
    getLanguageFromFilename (JStr (base ++ "." ++ ext))
    = getLanguageFromFilename (JStr (Str.toLowerCase ext))
    /\ getLanguageFromFilename (JStr ext)
       = getLanguageFromFilename (JStr (Str.toLowerCase ext))
    /\ (forall lang,
           In (Str.toLowerCase ext, lang) languages ->
           getLanguageFromFilename (JStr (base ++ "." ++ ext)) = Ok (JStr lang)).
Proof.
  intros base ext Hext.
  assert (Hlow : without "." (Str.toLowerCase ext) = true)
    by (now apply toLowerCase_without_dot).
  cbn [append].
  rewrite (language_of_extension base ext Hext),
    (language_of_bare_name ext Hext),
    (language_of_bare_name _ Hlow), toLowerCase_idem.
  split; [reflexivity | split; [reflexivity | ]].
  intros lang Hin. unfold languages in Hin. cbn [In] in Hin.
  repeat (destruct Hin as [Hin | Hin];
          [injection Hin as Hkey Hlang; rewrite <- Hkey, <- Hlang; reflexivity | ]).
  contradiction.
Qed.

Lemma language_witness :
  getLanguageFromFilename (JStr ("src/v1.2/App" ++ "." ++ "TSX"))
  = getLanguageFromFilename (JStr (Str.toLowerCase "TSX"))
  /\ getLanguageFromFilename (JStr "TSX")
     = getLanguageFromFilename (JStr (Str.toLowerCase "TSX"))
  /\ (forall lang,
         In (Str.toLowerCase "TSX", lang) languages ->
         getLanguageFromFilename (JStr ("src/v1.2/App" ++ "." ++ "TSX"))
         = Ok (JStr lang)).
Proof.
  apply (language_depends_on_last_extension "src/v1.2/App" "TSX").
  reflexivity.
Defined.

(** Names the table does not know are ["text"], except that the name of a
    member of [Object.prototype] finds that member in the table object. *)
Example unknown_and_inherited_extensions :
  getLanguageFromFilename (JStr "Makefile") = Ok (JStr "text")
  /\ getLanguageFromFilename (JStr "notes.") = Ok (JStr "text")
  /\ getLanguageFromFilename (JStr "archive.tar.GZ") = Ok (JStr "text")
  /\ getLanguageFromFilename (JStr "x.constructor") = Ok (JBuiltin "constructor")
  /\ getLanguageFromFilename JUndefined = not_a_function "split".
Proof. repeat split. Qed.

(** ** What [fetchSentryIssues] makes of a response *)

Lemma slice0_length {A} (n : Z) (xs : list A) :
  (0 <= n)%Z -> (List.length (Str.slice0 n xs) <= Z.to_nat n)%nat.
Proof.
  intro Hn. unfold Str.slice0.
  destruct (n <? 0)%Z eqn:E; [apply Z.ltb_lt in E; lia | ].
  apply firstn_le_length.
Qed.




(** A limit of two on a response of thirteen elements gives two issues;
    no limit, and a limit of 0, give ten. *)
Example limits_of_two_and_none :
  (exists r,
      result_of (fetchSentryIssues part_001 live_host two_at_most)
        (serving (JArr twelve_and_null)) = Ok r
      /\ List.length (SentryResult.issues r) = 2%nat)
  /\ (exists r,
      result_of (fetchSentryIssues part_001 live_host
                   (SentryOptions.mk None None (Some 0%Z)))
        (serving (JArr twelve_and_null)) = Ok r
      /\ List.length (SentryResult.issues r) = 10%nat).
Proof.
  split; eexists; (split; [vm_compute; reflexivity | reflexivity]).
Qed.

Lemma mapM_throws {A B} (f : A -> Outcome B) xs :
  Exists (fun x => exists e, f x = Throw e) xs -> exists e, mapM f xs = Throw e.
Proof.
  induction 1 as [x xs (e & He) | x xs _ (e & IH)]; cbn [mapM].
  - rewrite He. now exists e.
  - destruct (f x) as [y | e']; cbn [obind]; [ | now exists e'].
    rewrite IH. now exists e.
Qed.





(** Twelve issues and then a [null], with the default limit of 10: the
    [null] is beyond the limit and the ten issues are returned. *)
Example null_beyond_the_limit :
  match fst (fetchSentryIssues part_001 live_host no_options
               (serving (JArr twelve_and_null)) []) with
  | Ok r => List.length (SentryResult.issues r) = 10%nat
            /\ r <> getMockSentryData part_001 live_host
  | Throw _ => False
  end.
Proof. vm_compute. split; [reflexivity | discriminate]. Qed.

(** ** What [fetchVercelDeployments] makes of a response *)

Lemma get_is_field v k : nullish v = false -> get v k = Ok (field k v).
Proof.
  intro H. unfold field, get_opt. rewrite H.
  destruct v; try discriminate H; reflexivity.
Qed.

Lemma get_opt_is_field v k : get_opt v k = Ok (field k v).
Proof.
  unfold field. destruct (nullish v) eqn:E; unfold get_opt; rewrite E.
  - reflexivity.
  - destruct v; try discriminate E; reflexivity.
Qed.

Lemma transformDeployment_listable h options dep :
  listable h dep = true ->
  transformDeployment h options dep = Ok (deploymentView h options dep).
Proof.
  unfold listable, datable. intro H.
  apply andb_prop in H. destruct H as [H Hurl].
  apply andb_prop in H. destruct H as [Hdep Hdate].
  apply negb_true_iff in Hdep.
  unfold transformDeployment, deploymentView.
  rewrite !(get_is_field dep _ Hdep). cbn [obind].
  rewrite (template_printable _ Hurl). cbn [obind].
  destruct (Host.toISOString h (field "created" dep)); [ | discriminate Hdate].
  cbn [obind]. rewrite !get_opt_is_field. reflexivity.
Qed.

Lemma transformDeployment_unlistable h options dep :
  listable h dep = false ->
  exists e, transformDeployment h options dep = Throw e.
Proof.
  unfold listable, datable. intro H.
  destruct (nullish dep) eqn:Hdep.
  - destruct dep; try discriminate Hdep; eexists; reflexivity.
  - unfold transformDeployment. rewrite !(get_is_field dep _ Hdep). cbn [obind].
    unfold template.
    destruct (printable (field "url" dep)); [ | eexists; reflexivity].
    cbn [obind].
    destruct (Host.toISOString h (field "created" dep));
      [discriminate H | eexists; reflexivity].
Qed.

Lemma mapM_all {A B} (f : A -> Outcome B) (g : A -> B) xs :
  Forall (fun x => f x = Ok (g x)) xs -> mapM f xs = Ok (map g xs).
Proof.
  induction 1 as [ | x xs Hx _ IH]; cbn [mapM map]; [reflexivity | ].
  rewrite Hx. cbn [obind]. rewrite IH. reflexivity.
Qed.

Lemma fetchVercelDeployments_served h options w log items :
  vercel_served h options w log items ->
  fst (fetchVercelDeployments h options w log)
  = match mapM (transformDeployment h options) items with
    | Ok transformed => Ok (Deployments.mk transformed)
    | Throw _ => Ok (getMockVercelDeployments h options)
    end.
Proof.
  intros (token & response & data & Htoken & Hw & Hok & Hjson & Hdeps).
  unfold fetchVercelDeployments. rewrite Htoken.
  unfold try_catch, fetchVercelDeployments_try, bind, fetch.
  fold (listRequest h options token). rewrite Hw, Hok. cbn [negb].
  unfold lift. rewrite Hjson, Hdeps. cbn [call_map].
  now destruct (mapM _ _).
Qed.

(** X18: the listing of Vercel is taken whole or not at all.  When every
    record is an object whose [url] converts to text and whose [created]
    prints as a date, the result has one deployment per record, in the
    order of the payload and with no limit applied by the client, its
    [projectName] being the one asked for and its [url] the text of the
    record's [url] after [https://]; when one record is [null], has a
    [url] that does not convert, or a [created] that does not print as a
    date, the whole listing is replaced by the mock. *)
Theorem vercel_listing_is_all_or_nothing :
  forall (h : Host.t) (options : VercelOptions.t) (w : World)
         (log : list Request) (items : list JS),
    vercel_served h options w log items ->
    fst (fetchVercelDeployments h options w log)
    = if forallb (listable h) items
      then Ok (Deployments.mk (map (deploymentView h options) items))
      else Ok (getMockVercelDeployments h options).
Proof.
  intros h options w log items Hserved.
  rewrite (fetchVercelDeployments_served h options w log items Hserved).
  destruct (forallb (listable h) items) eqn:Hall.
  - rewrite (mapM_all _ (deploymentView h options)); [reflexivity | ].
    apply Forall_forall. intros dep Hin.
    apply transformDeployment_listable.
    rewrite forallb_forall in Hall. now apply Hall.
  - destruct (mapM_throws (transformDeployment h options) items) as (e & ->);
      [ | reflexivity].
    apply Exists_exists.
    assert (Hex : exists dep, In dep items /\ listable h dep = false).
    { clear - Hall. induction items as [ | dep items IH]; [discriminate Hall | ].
      cbn [forallb] in Hall. apply andb_false_iff in Hall.
      destruct Hall as [Hdep | Hrest].
      - exists dep. split; [now left | exact Hdep].
      - destruct (IH Hrest) as (x & Hin & Hx). exists x. split; [now right | exact Hx]. }
    destruct Hex as (dep & Hin & Hdep). exists dep. split; [exact Hin | ].
    now apply transformDeployment_unlistable.
Qed.

Lemma vercel_listing_witness :
  fst (fetchVercelDeployments live_host sample_project
         (serving (JObj [("deployments", JArr undated_listing)])) [])
  = Ok (getMockVercelDeployments live_host sample_project).
Proof.
  apply (vercel_listing_is_all_or_nothing live_host sample_project
           (serving (JObj [("deployments", JArr undated_listing)])) []
           undated_listing).
  exists "vercel-token",
    (mkResponse true 200 "OK" (Ok (JObj [("deployments", JArr undated_listing)]))),
    (JObj [("deployments", JArr undated_listing)]).
  repeat split.
Defined.

(** A [url] that is an object with a [toString] entry: the template
    throws and the listing is the mock. *)
Example object_url_gives_mock :
  fst (fetchVercelDeployments live_host sample_project
         (serving (JObj [("deployments", JArr object_url_listing)])) [])
  = Ok (getMockVercelDeployments live_host sample_project).
Proof. reflexivity. Qed.

(** ** What [fetchGitHubCommitDiff] makes of a response *)

Lemma findM_no_match (p : JS -> Outcome bool) files :
  Forall (fun f => forall b, p f = Ok b -> b = false) files ->
  findM p files = Ok None \/ exists e, findM p files = Throw e.
Proof.
  induction 1 as [ | f files Hf _ IH]; cbn [findM]; [now left | ].
  destruct (p f) as [b | e] eqn:E; cbn [obind]; [ | right; now exists e].
  rewrite (Hf b eq_refl). exact IH.
Qed.

Lemma fetchGitHubCommitDiff_served rev h options w log commitData :
  github_served h options w log commitData ->
  fst (fetchGitHubCommitDiff rev h options w log)
  = match selectFile options commitData with
    | Ok file =>
        if truthy file
        then match (let! patch := get file "patch" in
                    let! changes := parsePatchOf patch in
                    buildCommitDiff commitData file changes) with
             | Ok r => Ok r
             | Throw _ => Ok (getMockGitHubData rev h options)
             end
        else Ok (getMockGitHubData rev h options)
    | Throw _ => Ok (getMockGitHubData rev h options)
    end.
Proof.
  intros (token & response & Htoken & Hw & Hok & Hjson).
  unfold fetchGitHubCommitDiff. rewrite Htoken.
  unfold try_catch, fetchGitHubCommitDiff_try, bind, fetch.
  unfold githubRequest in Hw. rewrite Hw, Hok. cbn [negb].
  unfold lift. rewrite Hjson.
  destruct (selectFile options commitData) as [file | e]; [ | reflexivity].
  destruct (truthy file); cbn [negb]; [ | reflexivity].
  destruct (get file "patch") as [patch | e]; cbn [obind]; [ | reflexivity].
  destruct (parsePatchOf patch) as [changes | e]; cbn [obind]; [ | reflexivity].
  now destruct (buildCommitDiff commitData file changes).
Qed.

(** X19: when the commit GitHub returns does not contain the file that
    was asked for (or, with no file asked for, contains no file at all),
    [fetchGitHubCommitDiff] answers with the mock diff, which is about
    another commit and another file, and reports no error. *)
Theorem missing_file_gives_mock_diff :
  forall (rev : Revision) (h : Host.t) (options : GitHubOptions.t)
         (w : World) (log : list Request) (commitData : JS) (files : list JS),
    github_served h options w log commitData ->
    get commitData "files" = Ok (JArr files) ->
    file_missing options files ->
    fst (fetchGitHubCommitDiff rev h options w log)
    = Ok (getMockGitHubData rev h options).
Proof.
  intros rev h options w log commitData files Hserved Hfiles Hmissing.
  rewrite (fetchGitHubCommitDiff_served rev h options w log commitData Hserved).
  unfold selectFile. rewrite Hfiles. cbn [obind].
  unfold file_missing in Hmissing.
  destruct (configured (GitHubOptions.fileName options)) as [name | ].
  - cbn [call_find].
    destruct (findM_no_match
                (fun f => let! filename := get f "filename" in
                          Ok (is_string filename name)) files)
      as [-> | (e & ->)]; [ | reflexivity | reflexivity].
    eapply Forall_impl; [ | exact Hmissing].
    intros f Hf b Hb. cbn beta in Hb.
    destruct (get f "filename") as [filename | e] eqn:E; [ | discriminate Hb].
    cbn [obind] in Hb. injection Hb as <-.
    cbn beta in Hf.
    rewrite (get_field f "filename" filename E) in Hf. exact Hf.
  - subst files. reflexivity.
Qed.

Lemma missing_file_witness :
  fst (fetchGitHubCommitDiff part_001 live_host (sample_commit_file "README.md")
         (serving one_file_commit) [])
  = Ok (getMockGitHubData part_001 live_host (sample_commit_file "README.md")).
Proof.
  apply (missing_file_gives_mock_diff part_001 live_host
           (sample_commit_file "README.md") (serving one_file_commit) []
           one_file_commit
           [JObj [("filename", JStr "src/App.TSX"); ("additions", JNum 1);
                  ("deletions", JNum 1);
                  ("patch",
                   JStr ("@@ -3,2 +3,2 @@" ++ String Str.LF "-const a: any = 1"
                           ++ String Str.LF "+console.log(1) // TODO"))]]).
  - exists "gh-token", (mkResponse true 200 "OK" (Ok one_file_commit)).
    repeat split.
  - reflexivity.
  - constructor; [reflexivity | constructor].
Defined.

(** X20: in every diff [fetchGitHubCommitDiff] builds from a response,
    the advisories are those of the change lines the diff itself carries
    (at most 20, so an added line further down the patch is never
    flagged), the language is that of the file name it carries, and the
    severity is [medium] whatever the advisories say. *)
Theorem fetched_diff_is_self_consistent :
  forall (options : GitHubOptions.t) (token : string) (w : World)
         (log : list Request) (r : CommitDiff.t) (log' : list Request),
    fetchGitHubCommitDiff_try options token w log = (Ok r, log') ->
    Analysis.potentialIssues (CommitDiff.analysis r)
    = analyzeChanges (Diff.changes (CommitDiff.diff r))
        (Diff.fileName (CommitDiff.diff r))
    /\ getLanguageFromFilename (Diff.fileName (CommitDiff.diff r))
       = Ok (Diff.language (CommitDiff.diff r))
    /\ Analysis.severity (CommitDiff.analysis r) = medium
    /\ (Forall (fun c => is_add c = false) (Diff.changes (CommitDiff.diff r)) ->
        Analysis.potentialIssues (CommitDiff.analysis r) = [noIssuesAdvisory]).
Proof.
  intros options token w log r log'.
  unfold fetchGitHubCommitDiff_try. intro H. invert_ok H.
  destruct (negb (ok a)); [discriminate | ].
  invert_ok H.
  destruct (negb (truthy a1)); [discriminate | ].
  invert_ok H.
  apply lift_Ok_inv in H. destruct H as [Hbuild _].
  unfold buildCommitDiff in Hbuild. invert_ok Hbuild.
  inversion Hbuild; subst r; clear Hbuild.
  cbn [CommitDiff.analysis CommitDiff.diff Analysis.potentialIssues
       Analysis.severity Diff.changes Diff.fileName Diff.language].
  repeat split; try assumption.
  intro Hnone. unfold analyzeChanges.
  replace (filter is_add a3) with (@nil ChangeLine.t); [reflexivity | ].
  symmetry. clear - Hnone.
  induction Hnone as [ | c cs Hc _ IH]; cbn [filter]; [reflexivity | ].
  now rewrite Hc.
Qed.

Lemma fetched_diff_witness :
  exists r,
    fst (fetchGitHubCommitDiff_try sample_commit "gh-token"
           (serving one_file_commit) []) = Ok r
    /\ Analysis.potentialIssues (CommitDiff.analysis r)
       = analyzeChanges (Diff.changes (CommitDiff.diff r))
           (Diff.fileName (CommitDiff.diff r)).
Proof.
  destruct (fetchGitHubCommitDiff_try sample_commit "gh-token"
              (serving one_file_commit) []) as [[r | e] log'] eqn:E;
    [ | vm_compute in E; discriminate E].
  exists r. split; [reflexivity | ].
  exact (proj1 (fetched_diff_is_self_consistent sample_commit "gh-token"
                  (serving one_file_commit) [] r log' E)).
Defined.

(** A [console.log] added on the 21st change line of a patch is not among
    the parsed changes and raises no advisory. *)
Example late_debug_line_is_not_flagged :
  List.length (parsePatch late_debug_patch) = 20
  /\ analyzeChanges (parsePatch late_debug_patch) (JStr "a.ts")
     = [noIssuesAdvisory].
Proof. vm_compute. split; reflexivity. Qed.

(** ** The event total of a Sentry result *)

(** X21: when the counts of the issues [fetchSentryIssues] returns are
    whole numbers, none negative, that add up to at most 2^53 (the range
    in which a double holds every integer), [summary.totalEvents] is
    their arithmetic sum.  Beyond that range the additions round, as
    [rounded_total] shows. *)
Theorem total_events_of_numeric_counts :
  forall (rev : Revision) (h : Host.t) (options : SentryOptions.t)
         (w : World) (log : list Request) (r : SentryResult.t)
         (log' : list Request),
    In rev revisions ->
    fetchSentryIssues rev h options w log = (Ok r, log') ->
    exact_counts (SentryResult.issues r) ->
    IssueSummary.totalEvents (SentryResult.summary r)
    = JNum (sum_counts (SentryResult.issues r)).
Proof.
  intros rev h options w log r log' Hrev Hrun Hexact.
  now apply (fetched_summary rev h options w log r log' Hrev Hrun).
Qed.

Lemma total_events_witness :
  exists r,
    fst (fetchSentryIssues part_001 live_host no_options
           (serving numeric_count_body) []) = Ok r
    /\ IssueSummary.totalEvents (SentryResult.summary r)
       = JNum (sum_counts (SentryResult.issues r)).
Proof.
  destruct (fetchSentryIssues part_001 live_host no_options
              (serving numeric_count_body) []) as [[r | e] log'] eqn:E;
    [ | vm_compute in E; discriminate E].
  exists r. split; [reflexivity | ].
  apply (total_events_of_numeric_counts part_001 live_host no_options
           (serving numeric_count_body) [] r log').
  - right; left; reflexivity.
  - exact E.
  - vm_compute in E. injection E as <- _. split.
    + repeat constructor; eexists; (split; [reflexivity | ]);
        apply Z.leb_le; reflexivity.
    + apply Z.leb_le. reflexivity.
Defined.

(** Counts of 2^53, 1 and 1: each addition of 1 rounds back to 2^53, and
    the total is 2^53, two short of the arithmetic sum. *)
Example rounded_total :
  exists r,
    result_of (fetchSentryIssues part_001 live_host no_options)
      (serving (JArr [JObj [("id", JStr "1"); ("count", JNum (2 ^ 53))];
                      JObj [("id", JStr "2"); ("count", JNum 1)];
                      JObj [("id", JStr "3"); ("count", JNum 1)]])) = Ok r
    /\ IssueSummary.totalEvents (SentryResult.summary r) = JNum (2 ^ 53)
    /\ sum_counts (SentryResult.issues r) = (2 ^ 53 + 2)%Z.
Proof. eexists. split; [vm_compute; reflexivity | split; reflexivity]. Qed.

(** ** The rollback panel of the page *)

Lemma fetchVercelDeployments_well_formed h options w log r log' :
  fetchVercelDeployments h options w log = (Ok r, log') ->
  well_formed_deployments options r.
Proof.
  intro Hrun.
  destruct (fetchVercelDeployments_real_or_mock h options w log)
    as (r0 & log0 & Hrun0 & Hcase).
  rewrite Hrun in Hrun0. inversion Hrun0; subst r0 log0; clear Hrun0.
  destruct Hcase as [-> | (body & Hattempt & Hbody)].
  - apply mock_deployments_well_formed.
  - unfold vercel_attempt in Hattempt.
    destruct (configured (Host.VERCEL_TOKEN h)) as [token | ];
      [ | discriminate Hattempt].
    cbn [option_map] in Hattempt. injection Hattempt as <-.
    eapply fetched_deployments_well_formed; exact Hbody.
Qed.

(** X22: what the page hands to its rollback panel.  [targetVersion] is
    not a version but the URL of the first deployment listed, which
    always starts with [https://]; that deployment belongs to the project
    the panel names, and its id is the panel's [deploymentId] unless the
    id is falsy; with an empty listing the panel shows [dpl_demo] and an
    empty target; and without a Vercel token it shows the mock
    deployment. *)
Theorem page_rollback_panel :
  forall (rev : Revision) (h : Host.t) (e : PageEnv.t) (w : World)
         (log : list Request) (d : PageData.t) (log' : list Request),
    pageReads rev h e w log = (Ok d, log') ->
    let panel := rollbackData e (PageData.deploymentsData d) in
    match Deployments.deployments (PageData.deploymentsData d) with
    | latest :: _ =>
        RollbackData.targetVersion panel = JStr (Deployment.url latest)
        /\ Str.startsWith (Deployment.url latest) "https://" = true
        /\ Deployment.projectName latest = RollbackData.projectName panel
        /\ (truthy (Deployment.id latest) = true ->
            RollbackData.deploymentId panel = Deployment.id latest)
    | [] =>
        RollbackData.deploymentId panel = JStr "dpl_demo"
        /\ RollbackData.targetVersion panel = JStr ""
    end
    /\ (configured (Host.VERCEL_TOKEN h) = None ->
        RollbackData.deploymentId panel = JStr "dpl_mock_current").
Proof.
  intros rev h e w log d log' Hpage panel. subst panel.
  pose proof (pageReads_run rev h e w log) as Hrun. cbv zeta in Hrun.
  destruct Hrun as (threatData & diffData & ds & _ & _ & Hvercel & Hrun).
  rewrite Hpage in Hrun. injection Hrun as -> _.
  cbn [PageData.deploymentsData]. split.
  - pose proof (fetchVercelDeployments_well_formed _ _ _ _ _ _ Hvercel) as Hwf.
    unfold well_formed_deployments in Hwf. unfold rollbackData.
    destruct (Deployments.deployments ds) as [ | latest rest];
      [split; reflexivity | ].
    inversion Hwf as [ | ? ? [Hproject Hurl] _]; subst.
    cbn [RollbackData.targetVersion RollbackData.projectName
         RollbackData.deploymentId VercelOptions.projectName] in *.
    repeat split.
    + destruct (Deployment.url latest); [discriminate Hurl | reflexivity].
    + exact Hurl.
    + exact Hproject.
    + intro Hid. unfold or_else. now rewrite Hid.
  - intro Htoken. unfold fetchVercelDeployments in Hvercel.
    rewrite Htoken in Hvercel. unfold ret in Hvercel.
    injection Hvercel as <- _. reflexivity.
Qed.

Lemma page_rollback_panel_witness :
  RollbackData.deploymentId
    (rollbackData bare_page (getMockVercelDeployments bare_host
                               (VercelOptions.mk "demo-project" (Some 5%Z))))
  = JStr "dpl_mock_current".
Proof.
  refine (proj2 (page_rollback_panel part_001 bare_host bare_page offline []
                   (PageData.mk (getMockSentryData part_001 bare_host)
                      (getMockGitHubData part_001 bare_host
                         (GitHubOptions.mk "vercel" "next.js" "main" None))
                      (getMockVercelDeployments bare_host
                         (VercelOptions.mk "demo-project" (Some 5%Z))))
                   [] _) _); reflexivity.
Defined.

(** ** Inputs that are accepted and never read *)

(** X23: three inputs have no effect at all.  [fetchSentryIssues] returns
    the same issues whatever [severity] is asked for;
    [executeVercelRollback] runs the same whatever [targetVersion] and
    [reason] are given; and [executeVercelRollbackAction] runs the same
    whatever [targetDeploymentId] is given, so the caller cannot choose
    the deployment that is promoted. *)
Theorem inputs_never_read :
  (forall rev h projectId severity severity' limit,
      fetchSentryIssues rev h (SentryOptions.mk projectId severity limit)
      = fetchSentryIssues rev h (SentryOptions.mk projectId severity' limit))
  /\ (forall h deploymentId projectName targetVersion targetVersion'
             reason reason',
         executeVercelRollback h
           (RollbackOptions.mk deploymentId projectName targetVersion reason)
         = executeVercelRollback h
             (RollbackOptions.mk deploymentId projectName targetVersion' reason'))
  /\ (forall h deploymentId projectName target target',
         executeVercelRollbackAction h
           (RollbackInput.mk deploymentId projectName target)
         = executeVercelRollbackAction h
             (RollbackInput.mk deploymentId projectName target')).
Proof. repeat split. Qed.
